(** * GraphDB Query Frontend: the query client, the result normaliser,
    pagination, history and CSV export, embedded from
    [static/js/sparql-client.js], [static/js/utils.js] and [static/js/app.js].

    Conventions of the embedding.
    - A JavaScript string is a [string] whose characters are code units in
      the range U+0000..U+00FF.
    - A JSON payload is a [value]; its numbers are integers that a double
      holds exactly.  An object is its list of own properties in the order
      JavaScript enumerates them.  Names inherited from a prototype
      ([toString], [constructor], [__proto__], ...) are taken not to occur
      as keys of a payload.
    - The variables a tabular payload declares are values, not keys, and may
      carry any name: the normaliser reads a binding and writes a row through
      [Object.prototype].  Bindings are objects; what arrays, strings,
      numbers and booleans inherit besides is not represented.  The table
      and the export read a row by the keys it owns.
    - The objects the program builds itself ([query] results, formatted
      results, history entries) are records and variants, one constructor
      per object literal.
    - A method that may raise, or that touches the page, the clock or the
      network, is a computation in the monad [JS] over the record [World].
      Time passes while a request is awaited and at no other moment.
    - Of the page, the results table, the notifications, the downloads and
      the stored history are kept.  Elements that are only written (loading
      overlay, counters, raw JSON pane, dropdown, connection light) and the
      console are left out. *)

From Stdlib Require Import ZArith Ascii String List Lia Bool.
From stdpp Require Import base decidable option numbers list strings pretty.

Local Open Scope Z_scope.
Set Warnings "-register-all".

(** ** Strings *)

Module JSString.

(** WhiteSpace and LineTerminator code units below U+0100: what
    [String.prototype.trim] strips. *)
Definition is_white_space (c : ascii) : bool :=
  let n := N_of_ascii c in
  ((9 <=? n) && (n <=? 13) || (n =? 32) || (n =? 160))%N.

Fixpoint trimStart (s : string) : string :=
  match s with
  | EmptyString => EmptyString
  | String c s' => if is_white_space c then trimStart s' else s
  end.

(** [!s] on a string. *)
Definition is_empty (s : string) : bool :=
  match s with EmptyString => true | _ => false end.

Fixpoint trimEnd (s : string) : string :=
  match s with
  | EmptyString => EmptyString
  | String c s' =>
      let rest := trimEnd s' in
      if is_white_space c && is_empty rest then EmptyString else String c rest
  end.

(** Empty or whitespace-only. *)
Fixpoint blank (s : string) : bool :=
  match s with
  | EmptyString => true
  | String c s' => is_white_space c && blank s'
  end.

Definition trim (s : string) : string := trimEnd (trimStart s).

Definition lower_char (c : ascii) : ascii :=
  let n := N_of_ascii c in
  if ((65 <=? n) && (n <=? 90) || (192 <=? n) && (n <=? 222) && negb (n =? 215))%N
  then ascii_of_N (n + 32) else c.

Fixpoint toLowerCase (s : string) : string :=
  match s with
  | EmptyString => EmptyString
  | String c s' => String (lower_char c) (toLowerCase s')
  end.

(** [s.startsWith(p)] *)
Definition startsWith (s p : string) : bool := String.prefix p s.

(** [s.includes(c)] for a one-character needle. *)
Fixpoint includes (s : string) (c : ascii) : bool :=
  match s with
  | EmptyString => false
  | String c' s' => if Ascii.eqb c' c then true else includes s' c
  end.

(** [s.replace(/c/g, r)] for a one-character pattern. *)
Fixpoint replaceAll (s : string) (c : ascii) (r : string) : string :=
  match s with
  | EmptyString => EmptyString
  | String c' s' =>
      if Ascii.eqb c' c then r +:+ replaceAll s' c r
      else String c' (replaceAll s' c r)
  end.

(** [(s.match(/c/g) || []).length] for a one-character pattern. *)
Fixpoint count (s : string) (c : ascii) : nat :=
  match s with
  | EmptyString => 0%nat
  | String c' s' => ((if Ascii.eqb c' c then 1 else 0) + count s' c)%nat
  end.

(** [xs.join(sep)] on an array of strings. *)
Definition join (sep : string) (xs : list string) : string :=
  String.concat sep xs.

(** [s.replace(/[:.]/g, '-')] *)
Fixpoint dash_colons_and_dots (s : string) : string :=
  match s with
  | EmptyString => EmptyString
  | String c s' =>
      String (if Ascii.eqb c ":" || Ascii.eqb c "." then "-"%char else c)
             (dash_colons_and_dots s')
  end.

(** [s.slice(0, -n)] for a positive [n]. *)
Definition drop_last (n : nat) (s : string) : string :=
  String.substring 0 (String.length s - n) s.

(** [xs.slice(start, end)] with relative indices resolved as the engine does. *)
Definition slice {A : Type} (xs : list A) (start stop : Z) : list A :=
  let len := Z.of_nat (length xs) in
  let k := if start <? 0 then Z.max (len + start) 0 else Z.min start len in
  let final := if stop <? 0 then Z.max (len + stop) 0 else Z.min stop len in
  take (Z.to_nat (final - k)) (drop (Z.to_nat k) xs).

Definition quote : ascii := "034"%char.
Definition comma : ascii := ","%char.

End JSString.

(** ** JSON values *)

Inductive value : Type :=
| VUndefined
| VNull
| VBool (b : bool)
| VNum (n : Z)
| VStr (s : string)
| VArr (xs : list value)
| VObj (props : list (string * value)).

Module JSValue.

(** ToBoolean. *)
Definition truthy (v : value) : bool :=
  match v with
  | VUndefined | VNull => false
  | VBool b => b
  | VNum n => negb (n =? 0)
  | VStr s => negb (JSString.is_empty s)
  | VArr _ | VObj _ => true
  end.

(** [a || b] *)
Definition or_else (a b : value) : value := if truthy a then a else b.

Definition is_nullish (v : value) : bool :=
  match v with VUndefined | VNull => true | _ => false end.

(** An array index is a canonical numeric string below 2^32 - 1; such keys
    are enumerated first, in ascending order. *)
Fixpoint digits (s : string) (acc : N) : option N :=
  match s with
  | EmptyString => Some acc
  | String c s' =>
      match Ascii.is_nat c with
      | Some d => digits s' (10 * acc + N.of_nat d)%N
      | None => None
      end
  end.

Definition array_index (k : string) : option N :=
  match digits k 0%N with
  | Some n => if bool_decide (pretty n = k) && (n <? 4294967295)%N then Some n else None
  | None => None
  end.

(** [k] is enumerated before [k']. Only decided for distinct keys of which
    the first is an array index; other keys keep their insertion order. *)
Definition enumerated_before (k k' : string) : bool :=
  match array_index k, array_index k' with
  | Some i, Some j => (i <? j)%N
  | Some _, None => true
  | None, _ => false
  end.

(** Own property lookup. *)
Fixpoint own (k : string) (props : list (string * value)) : option value :=
  match props with
  | [] => None
  | (k', v) :: ps => if bool_decide (k' = k) then Some v else own k ps
  end.

(** [o[k] = v]: an existing property keeps its place, a new one is
    enumerated last among the names and in numeric order among the array
    indices. *)
Fixpoint set_prop (k : string) (v : value) (props : list (string * value))
  : list (string * value) :=
  match props with
  | [] => [(k, v)]
  | (k', v') :: ps =>
      if bool_decide (k' = k) then (k, v) :: ps
      else if enumerated_before k k' then (k, v) :: (k', v') :: ps
      else (k', v') :: set_prop k v ps
  end.

(** [Object.keys(o)] *)
Definition Object_keys (props : list (string * value)) : list string :=
  map fst props.

Fixpoint string_chars (s : string) : list value :=
  match s with
  | EmptyString => []
  | String c s' => VStr (String c EmptyString) :: string_chars s'
  end.

(** An element or the length of an array-like. *)
Definition indexed (xs : list value) (k : string) : value :=
  if bool_decide (k = "length") then VNum (Z.of_nat (length xs))
  else match array_index k with
       | Some i => nth (N.to_nat i) xs VUndefined
       | None => VUndefined
       end.

(** The value of [v[k]] when [v] is not null or undefined: an own property
    of an object, an element or the length of an array or of a string. *)
Definition prop (v : value) (k : string) : value :=
  match v with
  | VObj props => default VUndefined (own k props)
  | VArr xs => indexed xs k
  | VStr s => indexed (string_chars s) k
  | _ => VUndefined
  end.

(** The names every object inherits from [Object.prototype].  All are
    methods but [__proto__], an accessor that gives the prototype. *)
Definition Object_prototype : list string :=
  ["constructor"; "__defineGetter__"; "__defineSetter__"; "hasOwnProperty";
   "__lookupGetter__"; "__lookupSetter__"; "isPrototypeOf"; "propertyIsEnumerable";
   "toString"; "valueOf"; "__proto__"; "toLocaleString"].

Definition inherited (k : string) : bool := bool_decide (k ∈ Object_prototype).

(** What [v[k]] finds when the name is a variable of a query and not a key
    the program chose: a JSON value, or a member of [Object.prototype] when
    [v] has no property [k] of its own.  What arrays, strings, numbers and
    booleans inherit besides is not represented. *)
Inductive Member : Type :=
| Data (v : value)
| Builtin.

Definition member (v : value) (k : string) : Member :=
  match v with
  | VObj props =>
      match own k props with
      | Some x => Data x
      | None => if inherited k then Builtin else Data VUndefined
      end
  | _ => if inherited k then Builtin else Data (prop v k)
  end.

(** [o[k] = v] on an object made by a literal.  The name [__proto__] is an
    accessor of [Object.prototype]: its setter creates no property, and does
    nothing at all unless [v] is an object or null (the prototype it then
    replaces is not represented).  Every other name becomes an own
    property. *)
Definition assign (k : string) (v : value) (props : list (string * value))
  : list (string * value) :=
  if bool_decide (k = "__proto__") then props else set_prop k v props.

(** ToString, as used by [value.toString()], by template literals and by
    [new Error(message)]. *)
Fixpoint ToString (v : value) : string :=
  match v with
  | VUndefined => "undefined"
  | VNull => "null"
  | VBool b => if b then "true" else "false"
  | VNum n => pretty n
  | VStr s => s
  | VArr xs =>
      JSString.join ","
        (map (fun x => if is_nullish x then EmptyString else ToString x) xs)
  | VObj _ => "[object Object]"
  end.

Definition hex_digit (n : N) : ascii :=
  ascii_of_N (if (n <? 10)%N then 48 + n else 87 + n)%N.

(** QuoteJSONString, one code unit at a time. *)
Definition json_escape (c : ascii) : string :=
  let n := N_of_ascii c in
  let bs := String "092"%char EmptyString in
  if (n =? 34)%N then bs +:+ String JSString.quote EmptyString
  else if (n =? 92)%N then bs +:+ bs
  else if (n =? 8)%N then bs +:+ "b"
  else if (n =? 12)%N then bs +:+ "f"
  else if (n =? 10)%N then bs +:+ "n"
  else if (n =? 13)%N then bs +:+ "r"
  else if (n =? 9)%N then bs +:+ "t"
  else if (n <? 32)%N then
    bs +:+ "u00" +:+ String (hex_digit (n / 16)) (String (hex_digit (n mod 16)) EmptyString)
  else String c EmptyString.

Fixpoint json_escape_all (s : string) : string :=
  match s with
  | EmptyString => EmptyString
  | String c s' => json_escape c +:+ json_escape_all s'
  end.

Definition json_quote (s : string) : string :=
  String JSString.quote (json_escape_all s) +:+ String JSString.quote EmptyString.

(** [JSON.stringify(v)] without indentation; [None] is [undefined]. *)
Fixpoint JSON_stringify (v : value) : option string :=
  match v with
  | VUndefined => None
  | VNull => Some "null"
  | VBool b => Some (if b then "true" else "false")
  | VNum n => Some (pretty n)
  | VStr s => Some (json_quote s)
  | VArr xs =>
      Some ("[" +:+ JSString.join "," (map (fun x => default "null" (JSON_stringify x)) xs) +:+ "]")
  | VObj props =>
      Some ("{" +:+ JSString.join ","
                 (flat_map (fun kv =>
                              match JSON_stringify (snd kv) with
                              | Some s => [json_quote (fst kv) +:+ ":" +:+ s]
                              | None => []
                              end) props) +:+ "}")
  end.

End JSValue.

(** ** The world a method runs in *)

Inductive exn : Type :=
| Error (message : string)        (* [new Error(message)] thrown by the program *)
| TypeError (message : string)    (* raised by the engine, or a rejected [fetch] *)
| SyntaxError (message : string). (* [response.json()] on a malformed body *)

Definition exn_message (e : exn) : string :=
  match e with Error m | TypeError m | SyntaxError m => m end.

(** The client configuration (sparql-client.js, constructor). *)
Record Config : Type := {
  endpoint : string;
  repository : string;
  username : string;
  password : string;
  timeout : Z
}.

(** What the browser sends. *)
Record QueryBody : Type := {
  body_sparql : string;
  body_format : string;
  body_endpoint : string;
  body_repository : string;
  body_username : option string;
  body_password : option string
}.

Inductive Request : Type :=
| PostQuery (body : QueryBody)   (* POST /api/query *)
| GetStatic (url : string).      (* GET of a static asset *)

(** What comes back: no response at all, or a status line with a body that
    is JSON or is not. *)
Inductive Body : Type :=
| Malformed (why : string)
| Parsed (data : value).

Inductive Reply : Type :=
| Rejected (why : string)
| Response (status : Z) (statusText : string) (body : Body).

Record Exchange : Type := { reply : Reply; elapsed : Z }.

(** [response.ok] *)
Definition status_ok (status : Z) : bool := (200 <=? status) && (status <=? 299).

(** The result of [SPARQLClient.query]. *)
Inductive QueryResult : Type :=
| QuerySuccess (results : value) (executionTime : Z) (query : string)
| QueryFailure (error : string) (executionTime : Z) (query : string).

Inductive QueryType : Type :=
| select | construct | ask | describe | insert | delete | unknown.

Definition QueryType_name (t : QueryType) : string :=
  match t with
  | select => "select" | construct => "construct" | ask => "ask"
  | describe => "describe" | insert => "insert" | delete => "delete"
  | unknown => "unknown"
  end.

(** The result of [SPARQLClient.formatResults], one constructor per object
    literal of the source. *)
Inductive Formatted : Type :=
| FError (error : string) (executionTime : Z)
| FSelect (headers : value) (rows : list (list (string * value))) (count : Z)
          (executionTime : Z) (raw : option value)
| FAsk (result : value) (executionTime : Z) (raw : value)
| FGraph (triples : value) (count : Z) (executionTime : Z) (raw : value)
| FOther (type : QueryType) (data : value) (executionTime : Z).

Record HistoryEntry : Type := {
  entry_query : string;
  entry_timestamp : string;
  entry_success : bool;
  entry_executionTime : Z;
  entry_type : option string;
  entry_count : Z
}.

(** A cell of the results table. *)
Inductive Cell : Type :=
| Text (s : string)        (* [td.textContent = s] *)
| Link (href : string)     (* an anchor to [href] showing [href] *)
| Pre (json : value)       (* [JSON.stringify(json, null, 2)] in a [pre] *)
| EmptyState.              (* the No Results placeholder *)

Record Notification : Type := { note_message : string; note_type : string }.

Inductive Content : Type :=
| PlainText (s : string)
| PrettyJSON (v : value).  (* [JSON.stringify(v, null, 2)] *)

Record Download : Type := {
  filename : string;
  mimeType : string;
  content : Content
}.

(** What the program cannot decide: the proxy, and two renderings done by
    the engine in floating point or with a calendar. *)
Record Env : Type := {
  server : Request -> Exchange;
  toFixed : Z -> Z -> nat -> string;   (* [(a / b).toFixed(digits)] *)
  toISOString : Z -> string            (* [new Date(ms).toISOString()] *)
}.

(** The fields of the [GraphDBApp] instance that the methods below use. *)
Record App : Type := {
  editor : string;                       (* what [getCurrentQuery()] returns *)
  currentResults : option Formatted;
  currentPage : Z;
  pageSize : positive;
  lastExecutedQuery : option string;
  queryHistory : list HistoryEntry
}.

(** The page: the results table, every notification shown so far, every
    file handed to the browser so far, and the history kept in local
    storage. *)
Record Page : Type := {
  thead : list string;
  tbody : list (list Cell);
  notifications : list Notification;
  downloads : list Download;
  stored_history : option (list HistoryEntry)
}.

Record World : Type := {
  env : Env;
  clock : Z;                   (* what [Date.now()] returns *)
  requests : list Request;     (* every request dispatched so far, oldest first *)
  config : Config;             (* [sparqlClient.config] *)
  app : App;
  page : Page
}.

(** ** The monad of methods: state and exceptions *)

Inductive outcome (A : Type) : Type :=
| Ok (a : A)
| Throw (e : exn).
Arguments Ok {A} a.
Arguments Throw {A} e.

Definition JS (A : Type) : Type := World -> outcome A * World.

#[export] Instance JS_ret : MRet JS := fun A a w => (Ok a, w).

#[export] Instance JS_bind : MBind JS := fun A B k m w =>
  match m w with
  | (Ok a, w') => k a w'
  | (Throw e, w') => (Throw e, w')
  end.

Definition throw {A : Type} (e : exn) : JS A := fun w => (Throw e, w).

(** [try { m } catch (error) { h error }] *)
Definition try_catch {A : Type} (m : JS A) (h : exn -> JS A) : JS A := fun w =>
  match m w with
  | (Ok a, w') => (Ok a, w')
  | (Throw e, w') => h e w'
  end.

Definition reads {A : Type} (f : World -> A) : JS A := fun w => (Ok (f w), w).

Definition update (f : World -> World) : JS unit := fun w => (Ok tt, f w).

(** [xs.map(f)] and [xs.forEach(f)] with a callback that may raise. *)
Fixpoint Array_map {A B : Type} (f : A -> JS B) (xs : list A) : JS (list B) :=
  match xs with
  | [] => mret []
  | x :: xs' => y ← f x; ys ← Array_map f xs'; mret (y :: ys)
  end.

Fixpoint Array_fold {A S : Type} (f : S -> A -> JS S) (xs : list A) (s : S) : JS S :=
  match xs with
  | [] => mret s
  | x :: xs' => s' ← f s x; Array_fold f xs' s'
  end.

(** The receiver of an array method: anything else has no such method. *)
Definition as_array (method : string) (v : value) : JS (list value) :=
  match v with
  | VArr xs => mret xs
  | _ => throw (TypeError (method +:+ " is not a function"))
  end.

(** [v[k]] where [v] may be null or undefined. *)
Definition get (v : value) (k : string) : JS value :=
  if JSValue.is_nullish v
  then throw (TypeError ("Cannot read properties of " +:+ JSValue.ToString v
                         +:+ " (reading '" +:+ k +:+ "')"))
  else mret (JSValue.prop v k).

(** [v[k]] through the prototype, where [v] may be null or undefined. *)
Definition get_member (v : value) (k : string) : JS JSValue.Member :=
  if JSValue.is_nullish v
  then throw (TypeError ("Cannot read properties of " +:+ JSValue.ToString v
                         +:+ " (reading '" +:+ k +:+ "')"))
  else mret (JSValue.member v k).

(** Field updates. *)
Definition with_clock (t : Z) (w : World) : World :=
  {| env := env w; clock := t; requests := requests w; config := config w;
     app := app w; page := page w |}.

Definition with_requests (rs : list Request) (w : World) : World :=
  {| env := env w; clock := clock w; requests := rs; config := config w;
     app := app w; page := page w |}.

Definition with_app (a : App) (w : World) : World :=
  {| env := env w; clock := clock w; requests := requests w; config := config w;
     app := a; page := page w |}.

Definition with_page (p : Page) (w : World) : World :=
  {| env := env w; clock := clock w; requests := requests w; config := config w;
     app := app w; page := p |}.

Definition with_currentResults (r : option Formatted) (a : App) : App :=
  {| editor := editor a; currentResults := r; currentPage := currentPage a;
     pageSize := pageSize a; lastExecutedQuery := lastExecutedQuery a;
     queryHistory := queryHistory a |}.

Definition with_currentPage (n : Z) (a : App) : App :=
  {| editor := editor a; currentResults := currentResults a; currentPage := n;
     pageSize := pageSize a; lastExecutedQuery := lastExecutedQuery a;
     queryHistory := queryHistory a |}.

Definition with_lastExecutedQuery (q : option string) (a : App) : App :=
  {| editor := editor a; currentResults := currentResults a;
     currentPage := currentPage a; pageSize := pageSize a;
     lastExecutedQuery := q; queryHistory := queryHistory a |}.

Definition with_queryHistory (h : list HistoryEntry) (a : App) : App :=
  {| editor := editor a; currentResults := currentResults a;
     currentPage := currentPage a; pageSize := pageSize a;
     lastExecutedQuery := lastExecutedQuery a; queryHistory := h |}.

Definition with_table (h : list string) (b : list (list Cell)) (p : Page) : Page :=
  {| thead := h; tbody := b; notifications := notifications p;
     downloads := downloads p; stored_history := stored_history p |}.

Definition with_notifications (ns : list Notification) (p : Page) : Page :=
  {| thead := thead p; tbody := tbody p; notifications := ns;
     downloads := downloads p; stored_history := stored_history p |}.

Definition with_downloads (ds : list Download) (p : Page) : Page :=
  {| thead := thead p; tbody := tbody p; notifications := notifications p;
     downloads := ds; stored_history := stored_history p |}.

Definition with_stored_history (h : option (list HistoryEntry)) (p : Page) : Page :=
  {| thead := thead p; tbody := tbody p; notifications := notifications p;
     downloads := downloads p; stored_history := h |}.

Definition update_app (f : App -> App) : JS unit :=
  update (fun w => with_app (f (app w)) w).

Definition update_page (f : Page -> Page) : JS unit :=
  update (fun w => with_page (f (page w)) w).

(** [Date.now()] *)
Definition Date_now : JS Z := reads clock.

(** [await fetch(...)]: the request leaves, the exchange takes its time, and
    the promise is fulfilled with the response or rejected. *)
Definition fetch (req : Request) : JS (Z * string * Body) := fun w =>
  let x := server (env w) req in
  let w' := with_clock (clock w + elapsed x) (with_requests (requests w ++ [req]) w) in
  match reply x with
  | Rejected why => (Throw (TypeError why), w')
  | Response status statusText body => (Ok (status, statusText, body), w')
  end.

(** A [fetch] that is not awaited: the request leaves and the method goes on. *)
Definition fetch_detached (req : Request) : JS unit :=
  update (fun w => with_requests (requests w ++ [req]) w).

(** [await response.json()] *)
Definition response_json (body : Body) : JS value :=
  match body with
  | Malformed why => throw (SyntaxError why)
  | Parsed data => mret data
  end.

(** ** sparql-client.js *)

Module SPARQLClient.
Import JSString JSValue.

(** The request [query] posts. *)
Definition query_request (sparql format : string) (cfg : Config) : Request :=
  PostQuery {|
    body_sparql := trim sparql;
    body_format := format;
    body_endpoint := endpoint cfg;
    body_repository := repository cfg;
    body_username := if is_empty (username cfg) then None else Some (username cfg);
    body_password := if is_empty (password cfg) then None else Some (password cfg) |}.

(** [async query(sparql, format = 'json')] *)
Definition query (sparql : string) (format : string) : JS QueryResult :=
  if is_empty sparql || is_empty (trim sparql)
  then throw (Error "SPARQL query cannot be empty")
  else
    startTime ← Date_now;
    try_catch
      (cfg ← reads config;
       response ← fetch (query_request sparql format cfg);
       let '(status, statusText, body) := response in
       data ← response_json body;
       now ← Date_now;
       let executionTime := now - startTime in
       if negb (status_ok status) then
         detail ← get data "detail";
         throw (Error (ToString (or_else detail
                  (VStr ("HTTP " +:+ pretty status +:+ ": " +:+ statusText)))))
       else
         success ← get data "success";
         if negb (truthy success) then
           message ← get data "message";
           throw (Error (ToString (or_else message (VStr "Query failed"))))
         else
           results ← get data "results";
           mret (QuerySuccess results executionTime sparql))
      (fun error =>
         now ← Date_now;
         mret (QueryFailure (exn_message error) (now - startTime) sparql)).

Inductive Validation : Type :=
| Valid
| Invalid (error : string).

Definition validPrefixes : list string :=
  ["select"; "construct"; "ask"; "describe"; "insert"; "delete"; "with"].

Definition openBrackets (sparql : string) : nat := count sparql "{"%char.
Definition closeBrackets (sparql : string) : nat := count sparql "}"%char.

(** [validateQuery(sparql)] *)
Definition validateQuery (sparql : string) : Validation :=
  if is_empty sparql || is_empty (trim sparql)
  then Invalid "Query cannot be empty"
  else
    let trimmed := toLowerCase (trim sparql) in
    let isValid := existsb (fun prefix => startsWith trimmed prefix) validPrefixes in
    if negb isValid then
      Invalid "Query must start with a valid SPARQL keyword (SELECT, CONSTRUCT, ASK, DESCRIBE, INSERT, DELETE, WITH)"
    else if negb (Nat.eqb (openBrackets sparql) (closeBrackets sparql)) then
      Invalid "Mismatched curly brackets in query"
    else Valid.

(** [getQueryType(sparql)] *)
Definition getQueryType (sparql : string) : QueryType :=
  if is_empty sparql then unknown
  else
    let trimmed := toLowerCase (trim sparql) in
    if startsWith trimmed "select" then select
    else if startsWith trimmed "construct" then construct
    else if startsWith trimmed "ask" then ask
    else if startsWith trimmed "describe" then describe
    else if startsWith trimmed "insert" then insert
    else if startsWith trimmed "delete" then delete
    else unknown.

(** The callback of [bindings.map]: one row per binding, one assignment per
    header.  [binding[header]] is read through the prototype: under a name
    the binding does not own it finds a member of [Object.prototype], which
    is truthy and has no [value]. *)
Definition format_row (headers : value) (binding : value) : JS (list (string * value)) :=
  hs ← as_array "headers.forEach" headers;
  Array_fold (fun row header =>
                value ← get_member binding (ToString header);
                mret (assign (ToString header)
                        match value with
                        | Data x => if truthy x then prop x "value" else VStr EmptyString
                        | Builtin => VUndefined
                        end
                        row))
             hs [].

(** [formatSelectResults(results, executionTime)] *)
Definition formatSelectResults (results : value) (executionTime : Z) : JS Formatted :=
  if negb (truthy results)
     || negb (truthy (prop results "results"))
     || negb (truthy (prop (prop results "results") "bindings"))
  then mret (FSelect (VArr []) [] 0 executionTime None)
  else
    let bindings := prop (prop results "results") "bindings" in
    vars ← get (prop results "head") "vars";
    let headers := or_else vars (VArr []) in
    bs ← as_array "bindings.map" bindings;
    rows ← Array_map (format_row headers) bs;
    mret (FSelect headers rows (Z.of_nat (length rows)) executionTime (Some results)).

(** [formatAskResults(results, executionTime)] *)
Definition formatAskResults (results : value) (executionTime : Z) : JS Formatted :=
  boolean ← get results "boolean";
  mret (FAsk (or_else boolean (VBool false)) executionTime results).

(** [formatGraphResults(results, executionTime)] *)
Definition formatGraphResults (results : value) (executionTime : Z) : JS Formatted :=
  mret (FGraph results
          (match results with VArr xs => Z.of_nat (length xs) | _ => 0 end)
          executionTime results).

(** [formatResults(queryResult)] *)
Definition formatResults (queryResult : QueryResult) : JS Formatted :=
  match queryResult with
  | QueryFailure error executionTime _ => mret (FError error executionTime)
  | QuerySuccess results executionTime query =>
      let queryType := getQueryType query in
      match queryType with
      | select => formatSelectResults results executionTime
      | ask => formatAskResults results executionTime
      | construct | describe => formatGraphResults results executionTime
      | _ => mret (FOther queryType results executionTime)
      end
  end.

End SPARQLClient.

(** ** utils.js *)

Module Utils.
Import JSString JSValue.

(** [showNotification(message, type)]: one more notification on the page. *)
Definition showNotification (message type : string) : JS unit :=
  update_page (fun p =>
    with_notifications
      (notifications p ++ [{| note_message := message; note_type := type |}]) p).

(** [Storage.set('query-history', value)] *)
Definition Storage_set_history (h : list HistoryEntry) : JS unit :=
  update_page (with_stored_history (Some h)).

(** [formatTime(milliseconds)] *)
Definition formatTime (e : Env) (milliseconds : Z) : string :=
  if milliseconds <? 1000 then pretty milliseconds +:+ "ms"
  else if milliseconds <? 60000 then toFixed e milliseconds 1000 2 +:+ "s"
  else
    let minutes := milliseconds / 60000 in
    let seconds := toFixed e (milliseconds mod 60000) 1000 0 in
    pretty minutes +:+ "m " +:+ seconds +:+ "s".

(** One field of a line: the value as text, quotes doubled, wrapped in
    quotes when it contains a comma. *)
Definition csv_field (value : value) : string :=
  let escaped :=
    if is_nullish value then EmptyString
    else replaceAll (ToString value) quote (String quote (String quote EmptyString)) in
  if includes escaped comma
  then String quote escaped +:+ String quote EmptyString
  else escaped.

Definition newline : string := String "010"%char EmptyString.

(** The text built by [exportToCSV] from a non-empty [data]. *)
Definition csvContent (data : list (list (string * value))) : string :=
  let headers := Object_keys (hd [] data) in
  join newline
    (join "," headers
     :: map (fun row =>
               join "," (map (fun header => csv_field (default VUndefined (own header row)))
                             headers))
            data).

(** [exportToCSV(data, filename)] *)
Definition exportToCSV (data : list (list (string * value))) (filename : string) : JS unit :=
  if Nat.eqb (length data) 0 then mret tt
  else
    update_page (fun p =>
      with_downloads
        (downloads p ++ [{| filename := filename;
                            mimeType := "text/csv;charset=utf-8;";
                            content := PlainText (csvContent data) |}]) p).

End Utils.

(** ** app.js *)

Module GraphDBApp.
Import JSString JSValue.

(** The fields of a formatted result that the application reads. *)
Definition success (r : Formatted) : bool :=
  match r with FError _ _ => false | _ => true end.

Definition type_of (r : Formatted) : option string :=
  match r with
  | FError _ _ => None
  | FSelect _ _ _ _ _ => Some "select"
  | FAsk _ _ _ => Some "ask"
  | FGraph _ _ _ _ => Some "graph"
  | FOther t _ _ => Some (QueryType_name t)
  end.

Definition count_of (r : Formatted) : option Z :=
  match r with
  | FSelect _ _ c _ _ | FGraph _ c _ _ => Some c
  | _ => None
  end.

Definition executionTime_of (r : Formatted) : Z :=
  match r with
  | FError _ t | FSelect _ _ _ t _ | FAsk _ t _ | FGraph _ _ t _ | FOther _ _ t => t
  end.

(** A formatted result as the plain object it is. *)
Definition to_object (r : Formatted) : list (string * value) :=
  match r with
  | FError error t =>
      [("success", VBool false); ("error", VStr error); ("executionTime", VNum t)]
  | FSelect headers rows c t raw =>
      [("success", VBool true); ("type", VStr "select"); ("headers", headers);
       ("rows", VArr (map VObj rows)); ("count", VNum c); ("executionTime", VNum t)]
      ++ match raw with Some v => [("raw", v)] | None => [] end
  | FAsk result t raw =>
      [("success", VBool true); ("type", VStr "ask"); ("result", result);
       ("executionTime", VNum t); ("raw", raw)]
  | FGraph triples c t raw =>
      [("success", VBool true); ("type", VStr "graph"); ("triples", triples);
       ("count", VNum c); ("executionTime", VNum t); ("raw", raw)]
  | FOther ty data t =>
      [("success", VBool true); ("type", VStr (QueryType_name ty)); ("data", data);
       ("executionTime", VNum t)]
  end.

(** [element.textContent = v] *)
Definition text_of (v : value) : string :=
  if is_nullish v then EmptyString else ToString v.

Definition set_table (h : list string) (b : list (list Cell)) : JS unit :=
  update_page (with_table h b).

(** [displayError(error, executionTime)] *)
Definition displayError (error : string) : JS unit :=
  set_table ["Error"] [[Text error]].

(** [displayEmptyResults()] *)
Definition displayEmptyResults : JS unit :=
  set_table [] [[EmptyState]].

(** The cell for [row[header]] in [displaySelectResults]. *)
Definition render_cell (value : value) : Cell :=
  match value with
  | VStr s =>
      if truthy value then
        if startsWith s "http://" || startsWith s "https://" then Link s else Text s
      else Text EmptyString
  | _ => Text (if truthy value then ToString value else EmptyString)
  end.

(** One table row: a cell per header. *)
Definition render_row (hs : list value) (row : list (string * value)) : list Cell :=
  map (fun header => render_cell (default VUndefined (own (ToString header) row))) hs.

(** [Math.ceil(n / size)] for a count [n] and a positive [size]. *)
Definition ceil_div (n : Z) (size : positive) : Z :=
  (n + Z.pos size - 1) / Z.pos size.

(** [displaySelectResults(results)] on a result of type select.  The
    counters and buttons of [updatePaginationControls] are write-only and
    left out. *)
Definition displaySelectResults (headers : value) (rows : list (list (string * value)))
    (count : Z) : JS unit :=
  set_table [] [];;
  if count =? 0 then displayEmptyResults
  else
    hs ← as_array "results.headers.forEach" headers;
    a ← reads app;
    let startIndex := (currentPage a - 1) * Z.pos (pageSize a) in
    let endIndex := Z.min (startIndex + Z.pos (pageSize a)) (Z.of_nat (length rows)) in
    let paginatedRows := slice rows startIndex endIndex in
    set_table (map text_of hs) (map (render_row hs) paginatedRows).

(** [displayAskResults(results)] *)
Definition displayAskResults (result : value) : JS unit :=
  set_table ["ASK Result"] [[Text (if truthy result then "true" else "false")]].

(** [displayGraphResults(results)] *)
Definition displayGraphResults (triples : value) : JS unit :=
  set_table ["Graph Results"] [[Pre triples]].

(** [displayRawResults(results)] *)
Definition displayRawResults (results : Formatted) : JS unit :=
  set_table ["Raw Results"] [[Pre (VObj (to_object results))]].

(** [displayResults(results)].  The raw JSON pane and the tab switch are
    write-only and left out. *)
Definition displayResults (results : Formatted) : JS unit :=
  match results with
  | FError error _ => displayError error
  | FSelect headers rows count _ _ =>
      set_table [] [];; displaySelectResults headers rows count
  | FAsk result _ _ => set_table [] [];; displayAskResults result
  | FGraph triples _ _ _ => set_table [] [];; displayGraphResults triples
  | FOther _ _ _ => set_table [] [];; displayRawResults results
  end.

(** [goToPage(page)] *)
Definition goToPage (page : Z) : JS unit :=
  a ← reads app;
  match currentResults a with
  | Some (FSelect headers rows count _ _) =>
      let totalPages := ceil_div (Z.of_nat (length rows)) (pageSize a) in
      if (page <? 1) || (totalPages <? page) then mret tt
      else
        update_app (with_currentPage page);;
        displaySelectResults headers rows count
  | _ => mret tt
  end.

(** [loadSampleQueries()]: the catalogue is fetched again, not awaited; the
    dropdown it fills is write-only. *)
Definition loadSampleQueries : JS unit :=
  fetch_detached (GetStatic "/static/examples/sample-queries.json").

(** [addToQueryHistory(query, results)] *)
Definition addToQueryHistory (query : string) (results : Formatted) : JS unit :=
  now ← Date_now;
  e ← reads env;
  let historyEntry := {|
    entry_query := query;
    entry_timestamp := toISOString e now;
    entry_success := success results;
    entry_executionTime := executionTime_of results;
    entry_type := type_of results;
    entry_count := default 0 (count_of results) |} in
  a ← reads app;
  let duplicate :=
    match queryHistory a with
    | front :: _ => bool_decide (entry_query front = query)
    | [] => false
    end in
  if duplicate then mret tt
  else
    let h := historyEntry :: queryHistory a in
    let h := if 50 <? Z.of_nat (length h) then slice h 0 50 else h in
    update_app (with_queryHistory h);;
    Utils.Storage_set_history h;;
    loadSampleQueries.

(** The rows and the file name [exportToCSV] derives from the current
    results. *)
Definition csv_data (timestamp queryType : string) (results : Formatted)
  : list (list (string * value)) * string :=
  let filename := queryType +:+ "-results-" +:+ timestamp +:+ ".csv" in
  match results with
  | FSelect _ rows _ _ _ => (rows, filename)
  | FAsk result _ _ =>
      ([[("result", result)]], "ask-result-" +:+ timestamp +:+ ".csv")
  | FGraph triples _ _ _ =>
      if truthy triples then
        match triples with
        | VArr ts =>
            (imap (fun index triple =>
                     [("index", VNum (Z.of_nat index + 1));
                      ("triple", from_option VStr VUndefined (JSON_stringify triple))])
                  ts, filename)
        | _ => ([[("data", from_option VStr VUndefined (JSON_stringify triples))]],
                filename)
        end
      else ([to_object results], filename)
  | _ => ([to_object results], filename)
  end.

(** [exportToCSV(timestamp, queryType)] *)
Definition exportToCSV (timestamp queryType : string) : JS unit :=
  a ← reads app;
  match currentResults a with
  | None => throw (TypeError "Cannot read properties of null (reading 'type')")
  | Some results =>
      let '(data, filename) := csv_data timestamp queryType results in
      if Nat.eqb (length data) 0 then Utils.showNotification "No data to export" "warning"
      else Utils.exportToCSV data filename
  end.

(** [exportToJSON(timestamp, queryType)] *)
Definition exportToJSON (timestamp queryType : string) : JS unit :=
  a ← reads app;
  match currentResults a with
  | None => throw (TypeError "Cannot read properties of null (reading 'type')")
  | Some results =>
      now ← Date_now;
      e ← reads env;
      let exportData := VObj [
        ("exportedAt", VStr (toISOString e now));
        ("queryType", from_option VStr VUndefined (type_of results));
        ("executionTime", VNum (executionTime_of results));
        ("resultCount", VNum (default 0 (count_of results)));
        ("results", VObj (to_object results));
        ("query", VStr (match lastExecutedQuery a with
                        | Some q => if is_empty q then "N/A" else q
                        | None => "N/A"
                        end)) ] in
      update_page (fun p =>
        with_downloads
          (downloads p ++ [{| filename := queryType +:+ "-results-" +:+ timestamp +:+ ".json";
                              mimeType := "application/json";
                              content := PrettyJSON exportData |}]) p)
  end.

Inductive ExportFormat : Type := csv | json.

Definition format_upper (format : ExportFormat) : string :=
  match format with csv => "CSV" | json => "JSON" end.

(** [exportResults(format)], called with 'csv' or with 'json'. *)
Definition exportResults (format : ExportFormat) : JS unit :=
  a ← reads app;
  match currentResults a with
  | Some results =>
      if negb (success results)
      then Utils.showNotification "No results to export" "warning"
      else
        now ← Date_now;
        e ← reads env;
        let timestamp := drop_last 5 (dash_colons_and_dots (toISOString e now)) in
        let queryType := default "query" (type_of results) in
        try_catch
          (match format with
           | csv => exportToCSV timestamp queryType
           | json => exportToJSON timestamp queryType
           end;;
           Utils.showNotification ("Results exported as " +:+ format_upper format) "success")
          (fun error =>
             Utils.showNotification ("Export failed: " +:+ exn_message error) "error")
  | None => Utils.showNotification "No results to export" "warning"
  end.

(** [executeQuery()].  The loading overlay, the counters and the connection
    light are write-only and left out. *)
Definition executeQuery : JS unit :=
  a ← reads app;
  let sparql := trim (editor a) in
  if is_empty sparql then Utils.showNotification "Please enter a SPARQL query" "warning"
  else
    match SPARQLClient.validateQuery sparql with
    | SPARQLClient.Invalid error =>
        Utils.showNotification ("Query validation failed: " +:+ error) "error"
    | SPARQLClient.Valid =>
        try_catch
          (result ← SPARQLClient.query sparql "json";
           match result with
           | QuerySuccess _ executionTime _ =>
               formattedResults ← SPARQLClient.formatResults result;
               update_app (fun a =>
                 with_lastExecutedQuery (Some sparql)
                   (with_currentPage 1 (with_currentResults (Some formattedResults) a)));;
               displayResults formattedResults;;
               addToQueryHistory sparql formattedResults;;
               e ← reads env;
               Utils.showNotification
                 ("Query executed successfully in " +:+ Utils.formatTime e executionTime)
                 "success"
           | QueryFailure error executionTime _ =>
               displayError error;;
               addToQueryHistory sparql (FError error executionTime);;
               Utils.showNotification ("Query failed: " +:+ error) "error"
           end)
          (fun error =>
             displayError (exn_message error);;
             Utils.showNotification ("Query execution error: " +:+ exn_message error) "error")
    end.

(** The world after a sequence of executions has been recorded, oldest
    first. *)
Fixpoint record_all (executions : list (string * Formatted)) (w : World) : World :=
  match executions with
  | [] => w
  | (query, results) :: rest => record_all rest (snd (addToQueryHistory query results w))
  end.

End GraphDBApp.

(** ** Vocabulary of the statements *)

(** A computation that neither reads nor changes the world. *)
Definition pure {A : Type} (m : JS A) : Prop :=
  exists o : outcome A, forall w : World, m w = (o, w).

(** A property list as the engine keeps it: no name twice, and no name
    behind one that is enumerated after it. *)
Inductive enumerable : list (string * value) -> Prop :=
| enumerable_nil : enumerable []
| enumerable_cons (k : string) (v : value) (ps : list (string * value)) :
    k ∉ JSValue.Object_keys ps ->
    Forall (fun kv => JSValue.enumerated_before (fst kv) k = false) ps ->
    enumerable ps ->
    enumerable ((k, v) :: ps).

(** What a row holds for variable [header] of [binding]. *)
Definition bound_value (binding : list (string * value)) (header : string) : value :=
  match JSValue.own header binding with
  | Some term => if JSValue.truthy term then JSValue.prop term "value" else VStr EmptyString
  | None => if JSValue.inherited header then VUndefined else VStr EmptyString
  end.

(** ** Sample worlds *)

Module Sample.

Definition cfg : Config :=
  {| endpoint := "http://localhost:7200"; repository := "kgsde-proj";
     username := EmptyString; password := EmptyString; timeout := 30000 |}.

Definition fresh_app (text : string) : App :=
  {| editor := text; currentResults := None; currentPage := 1; pageSize := 50;
     lastExecutedQuery := None; queryHistory := [] |}.

Definition blank_page : Page :=
  {| thead := []; tbody := []; notifications := []; downloads := [];
     stored_history := None |}.

(** A proxy that answers every request with [x].  The two renderings are
    stand-ins: no statement below reads a rendered time. *)
Definition constant_env (x : Exchange) : Env :=
  {| server := fun _ => x;
     toFixed := fun a b _ => pretty (a / b);
     toISOString := fun t => pretty t |}.

(** A freshly loaded page with [text] in the editor. *)
Definition world (x : Exchange) (text : string) : World :=
  {| env := constant_env x; clock := 1000; requests := []; config := cfg;
     app := fresh_app text; page := blank_page |}.

Definition unreachable : Exchange :=
  {| reply := Rejected "Failed to fetch"; elapsed := 3000 |}.

(** A non-2xx answer of the proxy. *)
Definition http500 : Exchange :=
  {| reply := Response 500 "Internal Server Error"
                (Parsed (VObj [("detail", VStr "Query evaluation error")]));
     elapsed := 7 |}.

(** A well-formed answer whose success flag is false. *)
Definition failed : Exchange :=
  {| reply := Response 200 "OK"
                (Parsed (VObj [("success", VBool false);
                               ("message", VStr "Query evaluation error")]));
     elapsed := 7 |}.

(** A page showing a tabular result, on its first page. *)
Definition showing (results : Formatted) : World :=
  with_app (with_currentResults (Some results) (fresh_app "SELECT * { ?s ?p ?o }"))
    (world unreachable EmptyString).

(** An RDF term as the SPARQL JSON format writes it. *)
Definition term (s : string) : value :=
  VObj [("type", VStr "literal"); ("value", VStr s)].

(** A SPARQL JSON result: two variables, two bindings, the second of
    which leaves [p] unbound. *)
Definition vars : list string := ["s"; "p"].

Definition bindings : list (list (string * value)) :=
  [ [("s", term "http://example.org/a"); ("p", term "b")];
    [("s", term "c")] ].

Definition head_fields : list (string * value) :=
  [("vars", VArr (map VStr vars))].

Definition results_fields : list (string * value) :=
  [("bindings", VArr (map VObj bindings))].

Definition select_fields : list (string * value) :=
  [("head", VObj head_fields); ("results", VObj results_fields)].

(** An answer to an ASK query without its boolean. *)
Definition ask_fields : list (string * value) := [("head", VObj [])].

(** The proxy answers a SELECT over [s], [p], [o] with ten bindings. *)
Definition ten_bindings : Exchange :=
  {| reply := Response 200 "OK"
       (Parsed (VObj [
          ("success", VBool true);
          ("results", VObj [
             ("head", VObj [("vars", VArr [VStr "s"; VStr "p"; VStr "o"])]);
             ("results", VObj [("bindings",
                VArr (map (fun i => VObj [("s", term (pretty i)); ("p", term "p");
                                          ("o", term "o")])
                          (seq 0 10)))])])]));
     elapsed := 12 |}.

(** The proxy answers an ASK with true. *)
Definition asked_true : Exchange :=
  {| reply := Response 200 "OK"
       (Parsed (VObj [("success", VBool true);
                      ("results", VObj [("head", VObj []); ("boolean", VBool true)])]));
     elapsed := 3 |}.

(** A SPARQL JSON result that declares, beside [s], two variables whose
    names [Object.prototype] has too; its one binding binds [s] only. *)
Definition inherited_fields : list (string * value) :=
  [("head", VObj [("vars", VArr [VStr "s"; VStr "constructor"; VStr "__proto__"])]);
   ("results", VObj [("bindings", VArr [VObj [("s", term "a")]])])].

(** The proxy reports success and sends no payload. *)
Definition answered_null : Exchange :=
  {| reply := Response 200 "OK"
       (Parsed (VObj [("success", VBool true); ("results", VNull)]));
     elapsed := 4 |}.

Definition numbered_row (i : nat) : list (string * value) :=
  [("n", VStr (pretty i))].

Definition rows120 : list (list (string * value)) := map numbered_row (seq 0 120).

End Sample.

(** ** More of sparql-client.js: the typed entry points and the
    configuration *)

Module SPARQLClientTyped.
Import JSString JSValue.

(** [async select(sparql)] *)
Definition select (sparql : string) : JS QueryResult :=
  if negb (startsWith (toLowerCase (trim sparql)) "select")
  then throw (Error "Query must be a SELECT query")
  else SPARQLClient.query sparql "json".

(** [async construct(sparql)] *)
Definition construct (sparql : string) : JS QueryResult :=
  if negb (startsWith (toLowerCase (trim sparql)) "construct")
  then throw (Error "Query must be a CONSTRUCT query")
  else SPARQLClient.query sparql "json".

(** [async ask(sparql)] *)
Definition ask (sparql : string) : JS QueryResult :=
  if negb (startsWith (toLowerCase (trim sparql)) "ask")
  then throw (Error "Query must be an ASK query")
  else SPARQLClient.query sparql "json".

(** [async describe(sparql)] *)
Definition describe (sparql : string) : JS QueryResult :=
  if negb (startsWith (toLowerCase (trim sparql)) "describe")
  then throw (Error "Query must be a DESCRIBE query")
  else SPARQLClient.query sparql "json".

End SPARQLClientTyped.

Module ClientConfig.
Import JSString JSValue.

(** The argument of the constructor and of [updateConfig]: an object that
    has some of the keys of a configuration, each with a string (a number
    for the timeout) as its value. *)
Record Options : Type := {
  opt_endpoint : option string;
  opt_repository : option string;
  opt_username : option string;
  opt_password : option string;
  opt_timeout : option Z
}.

(** [o.key || fallback] on a string key that may be absent. *)
Definition string_or (o : option string) (fallback : string) : string :=
  match o with
  | Some s => if is_empty s then fallback else s
  | None => fallback
  end.

(** [constructor(config = {})] *)
Definition constructor (config : Options) : Config :=
  {| endpoint := string_or (opt_endpoint config) "http://localhost:7200";
     repository := string_or (opt_repository config) "kgsde-proj";
     username := string_or (opt_username config) EmptyString;
     password := string_or (opt_password config) EmptyString;
     timeout := match opt_timeout config with
                | Some t => if t =? 0 then 30000 else t
                | None => 30000
                end |}.

(** [{ ...old, ...newConfig }] *)
Definition merge (old : Config) (newConfig : Options) : Config :=
  {| endpoint := default (endpoint old) (opt_endpoint newConfig);
     repository := default (repository old) (opt_repository newConfig);
     username := default (username old) (opt_username newConfig);
     password := default (password old) (opt_password newConfig);
     timeout := default (timeout old) (opt_timeout newConfig) |}.

Definition with_config (c : Config) (w : World) : World :=
  {| env := env w; clock := clock w; requests := requests w; config := c;
     app := app w; page := page w |}.

(** [updateConfig(newConfig)] *)
Definition updateConfig (newConfig : Options) : JS unit :=
  update (fun w => with_config (merge (config w) newConfig) w).

End ClientConfig.

(** ** More of app.js: the pagination buttons and controls *)

Module Pagination.
Import JSString JSValue.

(** The click handler of the previous-page button (bindEvents). *)
Definition prevPage : JS unit :=
  a ← reads app; GraphDBApp.goToPage (currentPage a - 1).

(** The click handler of the next-page button (bindEvents). *)
Definition nextPage : JS unit :=
  a ← reads app; GraphDBApp.goToPage (currentPage a + 1).

(** What [updatePaginationControls] writes when it shows the controls. *)
Record Controls : Type := {
  shown_currentPage : Z;
  shown_totalPages : Z;
  prev_disabled : bool;
  next_disabled : bool;
  shown_resultCount : string
}.

(** [updatePaginationControls()]: [None] when it hides the controls. *)
Definition updatePaginationControls (w : World) : option Controls :=
  match currentResults (app w) with
  | Some (FSelect _ rows _ _ _) =>
      let totalRows := Z.of_nat (length rows) in
      let totalPages := GraphDBApp.ceil_div totalRows (pageSize (app w)) in
      if totalPages <=? 1 then None
      else
        let startRow := (currentPage (app w) - 1) * Z.pos (pageSize (app w)) + 1 in
        let endRow := Z.min (currentPage (app w) * Z.pos (pageSize (app w))) totalRows in
        Some {| shown_currentPage := currentPage (app w);
                shown_totalPages := totalPages;
                prev_disabled := currentPage (app w) <=? 1;
                next_disabled := totalPages <=? currentPage (app w);
                shown_resultCount :=
                  "Showing " +:+ pretty startRow +:+ "-" +:+ pretty endRow
                  +:+ " of " +:+ pretty totalRows
                  +:+ " row" +:+ (if totalRows =? 1 then EmptyString else "s") |}
  | _ => None
  end.

End Pagination.

(** ** More vocabulary *)

(** No two neighbours of a history carry the same text. *)
Fixpoint no_repeat (h : list HistoryEntry) : Prop :=
  match h with
  | [] => True
  | e :: rest =>
      match rest with
      | [] => True
      | e' :: _ => entry_query e <> entry_query e'
      end /\ no_repeat rest
  end.

(** The world in which page [n] of [rows] is shown under the headers
    [hs]: the current page is [n] and the table holds that page. *)
Definition turned (w : World) (hs : list value) (rows : list (list (string * value)))
    (n : Z) : World :=
  with_page
    (with_table (map GraphDBApp.text_of hs)
       (map (GraphDBApp.render_row hs)
          (take (Pos.to_nat (pageSize (app w)))
                (drop (Z.to_nat ((n - 1) * Z.pos (pageSize (app w)))) rows)))
       (page w))
    (with_app (with_currentPage n (app w)) w).

(** The entry [addToQueryHistory] builds. *)
Definition history_entry (query : string) (results : Formatted) (w : World)
  : HistoryEntry :=
  {| entry_query := query;
     entry_timestamp := toISOString (env w) (clock w);
     entry_success := GraphDBApp.success results;
     entry_executionTime := GraphDBApp.executionTime_of results;
     entry_type := GraphDBApp.type_of results;
     entry_count := default 0 (GraphDBApp.count_of results) |}.

(** The text of the front entry is [query]. *)
Definition front_is (query : string) (w : World) : bool :=
  match queryHistory (app w) with
  | front :: _ => bool_decide (entry_query front = query)
  | [] => false
  end.

(** The world after [addToQueryHistory] has put an entry in front. *)
Definition recorded (query : string) (results : Formatted) (w : World) : World :=
  let h := take 50 (history_entry query results w :: queryHistory (app w)) in
  with_requests (requests w ++ [GetStatic "/static/examples/sample-queries.json"])
    (with_page (with_stored_history (Some h) (page w))
       (with_app (with_queryHistory h (app w)) w)).

(** The world after a notification. *)
Definition notified (message type : string) (w : World) : World :=
  with_page
    (with_notifications
       (notifications (page w) ++ [{| note_message := message; note_type := type |}])
       (page w))
    w.

(** The pages 1..n. *)
Definition pages (n : Z) : list Z := map (fun i => Z.of_nat i) (seq 1 (Z.to_nat n)).

(** * Properties *)

Import JSString JSValue.

(** ** Trimming *)

Lemma is_empty_true (s : string) : is_empty s = true <-> s = EmptyString.
Proof. destruct s; simpl; split; congruence. Qed.

Lemma is_empty_trimEnd (s : string) : is_empty (trimEnd s) = blank s.
Proof.
  induction s as [|c s IH]; simpl; [reflexivity|].
  rewrite <- IH.
  destruct (is_white_space c && is_empty (trimEnd s)); reflexivity.
Qed.

Lemma blank_trimStart (s : string) : blank (trimStart s) = blank s.
Proof.
  induction s as [|c s IH]; simpl; [reflexivity|].
  destruct (is_white_space c) eqn:Hc; simpl; [exact IH|].
  rewrite Hc. reflexivity.
Qed.

Lemma is_empty_trim (s : string) : is_empty (trim s) = blank s.
Proof. unfold trim. rewrite is_empty_trimEnd. apply blank_trimStart. Qed.

Lemma trimStart_head (s : string) :
  match trimStart s with
  | EmptyString => True
  | String c _ => is_white_space c = false
  end.
Proof.
  induction s as [|c s IH]; simpl; [exact I|].
  destruct (is_white_space c) eqn:Hc; [exact IH | exact Hc].
Qed.

Lemma trimEnd_idempotent (s : string) : trimEnd (trimEnd s) = trimEnd s.
Proof.
  induction s as [|c s IH]; simpl; [reflexivity|].
  destruct (is_white_space c && is_empty (trimEnd s)) eqn:E; simpl; [reflexivity|].
  rewrite IH, E. reflexivity.
Qed.

Lemma trim_idempotent (s : string) : trim (trim s) = trim s.
Proof.
  unfold trim. pose proof (trimStart_head s) as H.
  destruct (trimStart s) as [|c t]; [reflexivity|].
  simpl. rewrite H. simpl. rewrite H. simpl.
  rewrite trimEnd_idempotent, H. reflexivity.
Qed.

Lemma count_blank (s : string) (c : ascii) :
  is_white_space c = false -> blank s = true -> count s c = 0%nat.
Proof.
  intros Hc. induction s as [|c' s IH]; simpl; [reflexivity|].
  intros [Hc' Hs]%andb_prop.
  destruct (Ascii.eqb_spec c' c) as [->|_]; [congruence|].
  rewrite IH by exact Hs. reflexivity.
Qed.

Lemma count_trimStart (s : string) (c : ascii) :
  is_white_space c = false -> count (trimStart s) c = count s c.
Proof.
  intros Hc. induction s as [|c' s IH]; simpl; [reflexivity|].
  destruct (is_white_space c') eqn:Hc'; [|reflexivity].
  destruct (Ascii.eqb_spec c' c) as [->|_]; [congruence|exact IH].
Qed.

Lemma count_trimEnd (s : string) (c : ascii) :
  is_white_space c = false -> count (trimEnd s) c = count s c.
Proof.
  intros Hc. induction s as [|c' s IH]; simpl; [reflexivity|].
  destruct (is_white_space c' && is_empty (trimEnd s)) eqn:E; simpl.
  - apply andb_prop in E as [Hc' E].
    rewrite is_empty_trimEnd in E.
    destruct (Ascii.eqb_spec c' c) as [->|_]; [congruence|].
    rewrite (count_blank s c Hc E). reflexivity.
  - rewrite IH. reflexivity.
Qed.

Lemma count_trim (s : string) (c : ascii) :
  is_white_space c = false -> count (trim s) c = count s c.
Proof.
  intros Hc. unfold trim. rewrite count_trimEnd, count_trimStart by exact Hc.
  reflexivity.
Qed.

Lemma is_empty_toLowerCase (s : string) : is_empty (toLowerCase s) = is_empty s.
Proof. destruct s; reflexivity. Qed.

Lemma startsWith_cons (s p : string) (a c : ascii) :
  startsWith (String c s) (String a p) = true -> a = c /\ startsWith s p = true.
Proof.
  unfold startsWith.
  change (String.prefix (String a p) (String c s))
    with (if ascii_dec a c then String.prefix p s else false).
  destruct (ascii_dec a c); [tauto | discriminate].
Qed.

Lemma startsWith_nonempty (s p : string) :
  is_empty p = false -> startsWith s p = true -> is_empty s = false.
Proof. destruct p, s; simpl; congruence. Qed.

(** ** Validation and the empty query *)

Lemma keyword_not_blank (sparql prefix : string) :
  prefix ∈ SPARQLClient.validPrefixes ->
  startsWith (toLowerCase (trim sparql)) prefix = true ->
  blank sparql = false.
Proof.
  intros Hin Hp. rewrite <- is_empty_trim, <- is_empty_toLowerCase.
  apply (startsWith_nonempty _ prefix); [|exact Hp].
  unfold SPARQLClient.validPrefixes in Hin.
  repeat (apply elem_of_cons in Hin as [->|Hin]; [reflexivity|]).
  inversion Hin.
Qed.

Lemma blank_is_empty (s : string) : blank s = false -> is_empty s = false.
Proof. destruct s; simpl; congruence. Qed.

Lemma keyword_existsb (sparql prefix : string) :
  prefix ∈ SPARQLClient.validPrefixes ->
  startsWith (toLowerCase (trim sparql)) prefix = true ->
  existsb (fun p => startsWith (toLowerCase (trim sparql)) p)
    SPARQLClient.validPrefixes = true.
Proof.
  intros Hin Hp. apply existsb_exists. exists prefix.
  split; [apply list_elem_of_In; exact Hin | exact Hp].
Qed.

Lemma validateQuery_valid_iff (sparql : string) :
  SPARQLClient.validateQuery sparql = SPARQLClient.Valid <->
  (exists prefix, prefix ∈ SPARQLClient.validPrefixes
                  /\ startsWith (toLowerCase (trim sparql)) prefix = true)
  /\ SPARQLClient.openBrackets sparql = SPARQLClient.closeBrackets sparql.
Proof.
  unfold SPARQLClient.validateQuery. split.
  - destruct (is_empty sparql || is_empty (trim sparql)); [discriminate|].
    destruct (existsb _ _) eqn:Hex; simpl; [|discriminate].
    destruct (Nat.eqb_spec (SPARQLClient.openBrackets sparql)
                (SPARQLClient.closeBrackets sparql)) as [Heq|]; simpl; [|discriminate].
    intros _. split; [|exact Heq].
    apply existsb_exists in Hex as (prefix & Hin & Hp).
    exists prefix. split; [apply list_elem_of_In; exact Hin | exact Hp].
  - intros [(prefix & Hin & Hp) Heq].
    pose proof (keyword_not_blank _ _ Hin Hp) as Hb.
    rewrite (keyword_existsb _ _ Hin Hp), is_empty_trim, Hb, (blank_is_empty _ Hb).
    rewrite Heq, Nat.eqb_refl. reflexivity.
Qed.

Lemma validateQuery_mismatch (sparql prefix : string) :
  prefix ∈ SPARQLClient.validPrefixes ->
  startsWith (toLowerCase (trim sparql)) prefix = true ->
  SPARQLClient.openBrackets sparql <> SPARQLClient.closeBrackets sparql ->
  SPARQLClient.validateQuery sparql
  = SPARQLClient.Invalid "Mismatched curly brackets in query".
Proof.
  intros Hin Hp Hne. unfold SPARQLClient.validateQuery.
  pose proof (keyword_not_blank _ _ Hin Hp) as Hb.
  rewrite (keyword_existsb _ _ Hin Hp), is_empty_trim, Hb, (blank_is_empty _ Hb).
  apply Nat.eqb_neq in Hne. rewrite Hne. reflexivity.
Qed.

(** C9. Validation also requires as many opening as closing curly
    brackets: a text is valid exactly when it starts with a recognised
    keyword and the two counts agree; a text that starts with a recognised
    keyword and has unequal counts is reported invalid with the message
    Mismatched curly brackets in query, and executing it from the editor
    only shows that message: nothing is sent to the network. *)
Theorem validateQuery_requires_balanced_brackets (sparql : string) :
  (SPARQLClient.validateQuery sparql = SPARQLClient.Valid <->
   (exists prefix, prefix ∈ SPARQLClient.validPrefixes
                   /\ startsWith (toLowerCase (trim sparql)) prefix = true)
   /\ SPARQLClient.openBrackets sparql = SPARQLClient.closeBrackets sparql)
  /\ (forall prefix,
        prefix ∈ SPARQLClient.validPrefixes ->
        startsWith (toLowerCase (trim sparql)) prefix = true ->
        SPARQLClient.openBrackets sparql <> SPARQLClient.closeBrackets sparql ->
        SPARQLClient.validateQuery sparql
        = SPARQLClient.Invalid "Mismatched curly brackets in query"
        /\ forall w, editor (app w) = sparql ->
             GraphDBApp.executeQuery w
             = Utils.showNotification
                 "Query validation failed: Mismatched curly brackets in query" "error" w
             /\ requests (snd (GraphDBApp.executeQuery w)) = requests w).
Proof.
  split; [apply validateQuery_valid_iff|].
  intros prefix Hin Hp Hne.
  split; [exact (validateQuery_mismatch _ _ Hin Hp Hne)|].
  intros w Hw.
  assert (GraphDBApp.executeQuery w
          = Utils.showNotification
              "Query validation failed: Mismatched curly brackets in query" "error" w)
    as Hrun.
  { unfold GraphDBApp.executeQuery, mbind, JS_bind, reads. rewrite Hw.
    pose proof (keyword_not_blank _ _ Hin Hp) as Hb.
    rewrite is_empty_trim, Hb.
    rewrite (validateQuery_mismatch (trim sparql) prefix Hin); [reflexivity| |].
    - rewrite trim_idempotent. exact Hp.
    - unfold SPARQLClient.openBrackets, SPARQLClient.closeBrackets.
      rewrite !count_trim by reflexivity. exact Hne. }
  split; [exact Hrun|]. rewrite Hrun. reflexivity.
Qed.

Lemma validateQuery_requires_balanced_brackets_witness :
  SPARQLClient.validateQuery "SELECT * WHERE { ?s ?p ?o"
  = SPARQLClient.Invalid "Mismatched curly brackets in query"
  /\ requests (snd (GraphDBApp.executeQuery
                      (Sample.world Sample.unreachable "SELECT * WHERE { ?s ?p ?o")))
     = [].
Proof.
  destruct (proj2 (validateQuery_requires_balanced_brackets "SELECT * WHERE { ?s ?p ?o")
              "select") as [Hv Hw].
  - unfold SPARQLClient.validPrefixes. apply list_elem_of_here.
  - reflexivity.
  - vm_compute. lia.
  - split; [exact Hv|].
    exact (proj2 (Hw (Sample.world Sample.unreachable "SELECT * WHERE { ?s ?p ?o")
                     eq_refl)).
Defined.

(** C3, as the code has it. An empty or whitespace-only text makes [query]
    fail fast: it raises Error (SPARQL query cannot be empty) to its caller
    before the clock is read or anything is sent, so the world is unchanged;
    [executeQuery] never calls [query] with such a text: it shows a warning
    and returns. *)
Theorem query_blank_raises_before_network (sparql : string) :
  blank sparql = true ->
  (forall format w,
     SPARQLClient.query sparql format w
     = (Throw (Error "SPARQL query cannot be empty"), w))
  /\ (forall w, editor (app w) = sparql ->
        GraphDBApp.executeQuery w
        = Utils.showNotification "Please enter a SPARQL query" "warning" w
        /\ requests (snd (GraphDBApp.executeQuery w)) = requests w).
Proof.
  intros Hb. split.
  - intros format w. unfold SPARQLClient.query.
    rewrite is_empty_trim, Hb, orb_true_r. reflexivity.
  - intros w Hw.
    assert (GraphDBApp.executeQuery w
            = Utils.showNotification "Please enter a SPARQL query" "warning" w) as Hrun.
    { unfold GraphDBApp.executeQuery, mbind, JS_bind, reads.
      rewrite Hw, is_empty_trim, Hb. reflexivity. }
    split; [exact Hrun|]. rewrite Hrun. reflexivity.
Qed.

Lemma query_blank_raises_before_network_witness :
  SPARQLClient.query "   " "json" (Sample.world Sample.unreachable EmptyString)
  = (Throw (Error "SPARQL query cannot be empty"),
     Sample.world Sample.unreachable EmptyString).
Proof.
  exact (proj1 (query_blank_raises_before_network "   " eq_refl) "json"
               (Sample.world Sample.unreachable EmptyString)).
Defined.

(** C3 as stated fails: on a whitespace-only text [query] raises; it does
    not return a failure outcome. *)
Lemma query_blank_is_not_a_returned_failure :
  fst (SPARQLClient.query "   " "json" (Sample.world Sample.unreachable EmptyString))
  = Throw (Error "SPARQL query cannot be empty")
  /\ ~ exists r, fst (SPARQLClient.query "   " "json"
                       (Sample.world Sample.unreachable EmptyString)) = Ok r.
Proof.
  split; [reflexivity|]. intros [r Hr]. discriminate Hr.
Qed.

(** ** Classification of failures *)

(** The world once the request of [query] has been answered. *)
Lemma fetch_world (req : Request) (w : World) :
  snd (fetch req w)
  = with_clock (clock w + elapsed (server (env w) req))
      (with_requests (requests w ++ [req]) w).
Proof. unfold fetch. destruct (reply (server (env w) req)); reflexivity. Qed.

(** C2, as the code has it. For every non-blank text [query] never raises
    and performs exactly one exchange. A transport-level failure (no
    response, a malformed body, a status outside 200..299) and a well-formed
    response whose success flag is falsy are both returned as the same shape:
    a failure whose error field is the message text (the rejection reason,
    the parse error, detail or else HTTP status: text, message or else Query
    failed), with the elapsed time and the query text. *)
Theorem query_failure_is_a_message (sparql format : string) (w : World) :
  blank sparql = false ->
  let req := SPARQLClient.query_request sparql format (config w) in
  let x := server (env w) req in
  exists r,
    SPARQLClient.query sparql format w = (Ok r, snd (fetch req w))
    /\ match reply x with
       | Rejected why => r = QueryFailure why (elapsed x) sparql
       | Response status statusText (Malformed why) =>
           r = QueryFailure why (elapsed x) sparql
       | Response status statusText (Parsed data) =>
           if is_nullish data then exists message, r = QueryFailure message (elapsed x) sparql
           else if negb (status_ok status) then
             r = QueryFailure
                   (ToString (or_else (prop data "detail")
                                (VStr ("HTTP " +:+ pretty status +:+ ": " +:+ statusText))))
                   (elapsed x) sparql
           else if truthy (prop data "success") then
             r = QuerySuccess (prop data "results") (elapsed x) sparql
           else
             r = QueryFailure
                   (ToString (or_else (prop data "message") (VStr "Query failed")))
                   (elapsed x) sparql
       end.
Proof.
  intros Hb req x. rewrite fetch_world. fold x.
  assert (forall t : Z, clock w + t - clock w = t) as Htime by (intros; lia).
  unfold SPARQLClient.query.
  rewrite is_empty_trim, Hb, (blank_is_empty _ Hb). simpl.
  unfold mbind, JS_bind, try_catch, Date_now, reads, fetch. simpl.
  fold req. fold x.
  destruct (reply x) as [why | status statusText [why | data]]; simpl.
  - eexists. rewrite Htime. split; reflexivity.
  - eexists. rewrite Htime. split; reflexivity.
  - unfold get. destruct (is_nullish data) eqn:Hnull; simpl.
    + destruct (status_ok status); simpl; rewrite Htime; eauto.
    + destruct (status_ok status); simpl; rewrite ?Hnull; simpl.
      * destruct (truthy (prop data "success")); simpl; rewrite ?Hnull; simpl;
          rewrite Htime; eauto.
      * rewrite Htime; eauto.
Qed.

Lemma query_failure_is_a_message_witness :
  exists r,
    SPARQLClient.query "ASK { ?s ?p ?o }" "json" (Sample.world Sample.unreachable EmptyString)
    = (Ok r, snd (fetch (SPARQLClient.query_request "ASK { ?s ?p ?o }" "json" Sample.cfg)
                    (Sample.world Sample.unreachable EmptyString)))
    /\ r = QueryFailure "Failed to fetch" 3000 "ASK { ?s ?p ?o }".
Proof.
  exact (query_failure_is_a_message "ASK { ?s ?p ?o }" "json"
           (Sample.world Sample.unreachable EmptyString) eq_refl).
Defined.

(** C2 as stated fails: a non-2xx answer and a well-formed answer whose
    success flag is false give the very same failure, a message text, so the
    caller cannot tell the two classes apart. *)
Lemma query_failure_classes_coincide :
  fst (SPARQLClient.query "ASK { ?s ?p ?o }" "json"
         (Sample.world Sample.http500 EmptyString))
  = Ok (QueryFailure "Query evaluation error" 7 "ASK { ?s ?p ?o }")
  /\ fst (SPARQLClient.query "ASK { ?s ?p ?o }" "json"
            (Sample.world Sample.failed EmptyString))
     = Ok (QueryFailure "Query evaluation error" 7 "ASK { ?s ?p ?o }").
Proof. split; reflexivity. Qed.

(** ** Property lists *)

Lemma own_set_prop_eq (k : string) (v : value) (ps : list (string * value)) :
  own k (set_prop k v ps) = Some v.
Proof.
  induction ps as [|[k' v'] ps IH]; simpl.
  - rewrite bool_decide_eq_true_2; reflexivity.
  - destruct (bool_decide_reflect (k' = k)) as [->|Hne]; simpl.
    + rewrite bool_decide_eq_true_2; reflexivity.
    + destruct (enumerated_before k k'); simpl.
      * rewrite bool_decide_eq_true_2; reflexivity.
      * rewrite bool_decide_eq_false_2 by exact Hne. exact IH.
Qed.

Lemma own_set_prop_ne (k k0 : string) (v : value) (ps : list (string * value)) :
  k <> k0 -> own k0 (set_prop k v ps) = own k0 ps.
Proof.
  intros Hne. induction ps as [|[k' v'] ps IH]; simpl.
  - rewrite bool_decide_eq_false_2; [reflexivity | exact Hne].
  - destruct (bool_decide_reflect (k' = k)) as [->|Hne']; simpl.
    + rewrite !bool_decide_eq_false_2 by exact Hne. reflexivity.
    + destruct (enumerated_before k k'); simpl.
      * rewrite (bool_decide_eq_false_2 (k = k0)) by exact Hne. reflexivity.
      * rewrite IH. reflexivity.
Qed.

Lemma elem_of_set_prop (k : string) (v : value) (ps : list (string * value))
    (x : string * value) :
  x ∈ set_prop k v ps -> x = (k, v) \/ x ∈ ps.
Proof.
  induction ps as [|[k' v'] ps IH]; simpl.
  - intros ->%list_elem_of_singleton. left; reflexivity.
  - destruct (bool_decide_reflect (k' = k)) as [->|Hne].
    + intros [->|H]%elem_of_cons; [left; reflexivity|].
      right. apply list_elem_of_further. exact H.
    + destruct (enumerated_before k k').
      * intros [->|H]%elem_of_cons; [left; reflexivity | right; exact H].
      * intros [->|H]%elem_of_cons; [right; apply list_elem_of_here|].
        destruct (IH H) as [->|H']; [left; reflexivity|].
        right. apply list_elem_of_further. exact H'.
Qed.

Lemma keys_set_prop (k k0 : string) (v : value) (ps : list (string * value)) :
  k0 ∈ Object_keys (set_prop k v ps) <-> k0 = k \/ k0 ∈ Object_keys ps.
Proof.
  unfold Object_keys. induction ps as [|[k' v'] ps IH]; simpl.
  - rewrite list_elem_of_singleton. split; [tauto|].
    intros [H|H]; [exact H | inversion H].
  - destruct (bool_decide_reflect (k' = k)) as [->|Hne]; simpl.
    + rewrite !elem_of_cons. tauto.
    + destruct (enumerated_before k k'); simpl.
      * rewrite !elem_of_cons. tauto.
      * rewrite !elem_of_cons, IH. tauto.
Qed.

Lemma enumerated_before_asym (k k' : string) :
  enumerated_before k k' = true -> enumerated_before k' k = false.
Proof.
  unfold enumerated_before.
  destruct (array_index k) as [i|], (array_index k') as [j|]; try congruence.
  intros H%N.ltb_lt. apply N.ltb_ge. lia.
Qed.

Lemma enumerated_before_trans (x k k' : string) :
  enumerated_before k k' = true -> enumerated_before x k' = false ->
  enumerated_before x k = false.
Proof.
  unfold enumerated_before.
  destruct (array_index x) as [m|], (array_index k) as [i|],
           (array_index k') as [j|]; try congruence.
  intros H1%N.ltb_lt H2%N.ltb_ge. apply N.ltb_ge. lia.
Qed.

Lemma enumerable_set_prop (k : string) (v : value) (ps : list (string * value)) :
  enumerable ps -> enumerable (set_prop k v ps).
Proof.
  induction 1 as [|k' v' ps Hnotin Hall Hps IH]; simpl.
  - constructor; [inversion 1 | constructor | constructor].
  - destruct (bool_decide_reflect (k' = k)) as [->|Hne].
    + constructor; assumption.
    + destruct (enumerated_before k k') eqn:Hbefore.
      * constructor.
        -- unfold Object_keys. simpl. intros [->|Hin]%elem_of_cons; [congruence|].
           apply list_elem_of_fmap in Hin as ([k0 v0] & -> & Hin).
           rewrite Forall_forall in Hall. specialize (Hall _ Hin). simpl in *.
           congruence.
        -- constructor; [simpl; apply enumerated_before_asym; exact Hbefore|].
           eapply Forall_impl; [exact Hall|]. simpl. intros [k0 v0] H0. simpl in *.
           eapply enumerated_before_trans; eassumption.
        -- constructor; assumption.
      * constructor.
        -- rewrite keys_set_prop. intros [->|Hin]; [congruence | exact (Hnotin Hin)].
        -- apply Forall_forall. intros x [->|Hin]%elem_of_set_prop; [exact Hbefore|].
           rewrite Forall_forall in Hall. exact (Hall _ Hin).
        -- exact IH.
Qed.

Lemma enumerable_NoDup (ps : list (string * value)) :
  enumerable ps -> NoDup (Object_keys ps).
Proof.
  induction 1 as [|k v ps Hnotin _ _ IH]; [constructor|].
  unfold Object_keys in *. simpl. constructor; assumption.
Qed.

(** ** Normalisation reads nothing but its argument *)

Lemma pure_ret {A : Type} (a : A) : pure (mret a).
Proof. exists (Ok a). reflexivity. Qed.

Lemma pure_throw {A : Type} (e : exn) : pure (@throw A e).
Proof. exists (Throw e). reflexivity. Qed.

Lemma pure_bind {A B : Type} (m : JS A) (k : A -> JS B) :
  pure m -> (forall a, pure (k a)) -> pure (m ≫= k).
Proof.
  intros [[a|e] Hm] Hk.
  - destruct (Hk a) as [o Ho]. exists o. intros w.
    unfold mbind, JS_bind. rewrite Hm. apply Ho.
  - exists (Throw e). intros w. unfold mbind, JS_bind. rewrite Hm. reflexivity.
Qed.

Lemma pure_get (v : value) (k : string) : pure (get v k).
Proof. unfold get. destruct (is_nullish v); [apply pure_throw | apply pure_ret]. Qed.

Lemma pure_get_member (v : value) (k : string) : pure (get_member v k).
Proof.
  unfold get_member. destruct (is_nullish v); [apply pure_throw | apply pure_ret].
Qed.

Lemma pure_as_array (method : string) (v : value) : pure (as_array method v).
Proof. destruct v; simpl; (apply pure_throw || apply pure_ret). Qed.

Lemma pure_Array_fold {A S : Type} (f : S -> A -> JS S) (xs : list A) (s : S) :
  (forall s x, pure (f s x)) -> pure (Array_fold f xs s).
Proof.
  intros Hf. revert s. induction xs as [|x xs IH]; intros s; simpl.
  - apply pure_ret.
  - apply pure_bind; [apply Hf | exact IH].
Qed.

Lemma pure_Array_map {A B : Type} (f : A -> JS B) (xs : list A) :
  (forall x, pure (f x)) -> pure (Array_map f xs).
Proof.
  intros Hf. induction xs as [|x xs IH]; simpl.
  - apply pure_ret.
  - apply pure_bind; [apply Hf|]. intros y.
    apply pure_bind; [exact IH|]. intros ys. apply pure_ret.
Qed.

(** One step of a purity proof, by the shape of the computation. *)
Ltac pure_step :=
  lazymatch goal with
  | |- pure (mret _) => apply pure_ret
  | |- pure (throw _) => apply pure_throw
  | |- pure (get _ _) => apply pure_get
  | |- pure (get_member _ _) => apply pure_get_member
  | |- pure (as_array _ _) => apply pure_as_array
  | |- pure (Array_fold _ _ _) => apply pure_Array_fold; intros ? ?
  | |- pure (Array_map _ _) => apply pure_Array_map; intros ?
  | |- pure (_ ≫= _) => apply pure_bind; [|intros ?]
  | |- pure (if ?b then _ else _) => destruct b
  end.

Lemma pure_format_row (headers binding : value) :
  pure (SPARQLClient.format_row headers binding).
Proof. unfold SPARQLClient.format_row. repeat pure_step. Qed.

Lemma pure_formatSelectResults (results : value) (executionTime : Z) :
  pure (SPARQLClient.formatSelectResults results executionTime).
Proof.
  unfold SPARQLClient.formatSelectResults.
  repeat first [ pure_step | apply pure_format_row ].
Qed.

Lemma pure_formatAskResults (results : value) (executionTime : Z) :
  pure (SPARQLClient.formatAskResults results executionTime).
Proof. unfold SPARQLClient.formatAskResults. repeat pure_step. Qed.

Lemma pure_formatResults (queryResult : QueryResult) :
  pure (SPARQLClient.formatResults queryResult).
Proof.
  destruct queryResult as [results executionTime query | error executionTime query];
    simpl; [|apply pure_ret].
  destruct (SPARQLClient.getQueryType query);
    first [ apply pure_formatSelectResults | apply pure_formatAskResults | apply pure_ret ].
Qed.

(** C8. Normalising the same (query text, outcome) pair twice gives equal
    results: the second call, made in the world the first one leaves, returns
    what the first returned (the same value, or the same exception), and so
    does a call made in any other world; neither call changes the world. *)
Theorem formatResults_twice (queryResult : QueryResult) (w : World) :
  let first := SPARQLClient.formatResults queryResult w in
  let second := SPARQLClient.formatResults queryResult (snd first) in
  fst second = fst first
  /\ snd second = w
  /\ forall w', fst (SPARQLClient.formatResults queryResult w') = fst first.
Proof.
  destruct (pure_formatResults queryResult) as [o Ho].
  cbv zeta. rewrite (Ho w). simpl. rewrite (Ho w). simpl.
  split; [reflexivity|]. split; [reflexivity|].
  intros w'. rewrite (Ho w'). reflexivity.
Qed.

(** ** Rows of a tabular result *)

Lemma keyword_is_empty (query keyword : string) :
  is_empty keyword = false ->
  startsWith (toLowerCase (trim query)) keyword = true ->
  is_empty query = false.
Proof.
  intros Hk Hp. apply blank_is_empty.
  rewrite <- is_empty_trim, <- is_empty_toLowerCase.
  exact (startsWith_nonempty _ _ Hk Hp).
Qed.

Lemma getQueryType_select (query : string) :
  startsWith (toLowerCase (trim query)) "select" = true ->
  SPARQLClient.getQueryType query = select.
Proof.
  intros Hp. unfold SPARQLClient.getQueryType.
  rewrite (keyword_is_empty query "select" eq_refl Hp), Hp. reflexivity.
Qed.

Lemma getQueryType_ask (query : string) :
  startsWith (toLowerCase (trim query)) "ask" = true ->
  SPARQLClient.getQueryType query = ask.
Proof.
  intros Hp. unfold SPARQLClient.getQueryType.
  rewrite (keyword_is_empty query "ask" eq_refl Hp), Hp.
  destruct (toLowerCase (trim query)) as [|c t]; [discriminate|].
  apply (startsWith_cons t "sk" "a" c) in Hp as [<- _]. reflexivity.
Qed.

Section Rows.
Variable binding : list (string * value).

Let step (row : list (string * value)) (header : string) : list (string * value) :=
  assign header (bound_value binding header) row.

Lemma format_row_fold (v : list string) (acc : list (string * value)) (w : World) :
  Array_fold (fun row header =>
                value ← get_member (VObj binding) (ToString header);
                mret (assign (ToString header)
                        match value with
                        | Data x => if truthy x then prop x "value" else VStr EmptyString
                        | Builtin => VUndefined
                        end
                        row))
             (map VStr v) acc w
  = (Ok (fold_left step v acc), w).
Proof.
  revert acc. induction v as [|h v IH]; intros acc; simpl; [reflexivity|].
  unfold mbind at 1, JS_bind at 1. simpl.
  rewrite IH. f_equal. f_equal. f_equal. unfold step, bound_value.
  destruct (own h binding) as [term|]; [reflexivity|].
  destruct (inherited h); reflexivity.
Qed.

Lemma format_row_object (v : list string) (w : World) :
  SPARQLClient.format_row (VArr (map VStr v)) (VObj binding) w
  = (Ok (fold_left step v []), w).
Proof. unfold SPARQLClient.format_row. simpl. apply format_row_fold. Qed.

Lemma keys_assign (k k0 : string) (x : value) (ps : list (string * value)) :
  k0 ∈ Object_keys (assign k x ps)
  <-> k0 ∈ Object_keys ps \/ (k0 = k /\ k <> "__proto__").
Proof.
  unfold assign. destruct (bool_decide_reflect (k = "__proto__")) as [->|Hk].
  - tauto.
  - rewrite keys_set_prop. tauto.
Qed.

Lemma fold_step_keys (v : list string) (acc : list (string * value)) (k : string) :
  k ∈ Object_keys (fold_left step v acc)
  <-> k ∈ Object_keys acc \/ (k ∈ v /\ k <> "__proto__").
Proof.
  revert acc. induction v as [|h v IH]; intros acc; simpl.
  - split; [tauto|]. intros [H|[H _]]; [exact H | inversion H].
  - rewrite IH. unfold step. rewrite keys_assign, elem_of_cons.
    split; [intros [[H|[-> H]]|H]; tauto|].
    intros [H|[[->|H] Hk]]; tauto.
Qed.

Lemma fold_step_own_other (v : list string) (acc : list (string * value)) (k : string) :
  k ∉ v -> own k (fold_left step v acc) = own k acc.
Proof.
  revert acc. induction v as [|h v IH]; intros acc Hk; simpl; [reflexivity|].
  rewrite not_elem_of_cons in Hk. destruct Hk as [Hne Hk].
  rewrite IH by exact Hk. unfold step, assign.
  destruct (bool_decide (h = "__proto__")); [reflexivity|].
  apply own_set_prop_ne. congruence.
Qed.

Lemma fold_step_own (v : list string) (acc : list (string * value)) (k : string) :
  k ∈ v -> k <> "__proto__" ->
  own k (fold_left step v acc) = Some (bound_value binding k).
Proof.
  revert acc. induction v as [|h v IH]; intros acc Hk Hp; simpl; [inversion Hk|].
  destruct (decide (k ∈ v)) as [Hin|Hnotin]; [apply IH; assumption|].
  apply elem_of_cons in Hk as [->|Hk]; [|contradiction].
  rewrite fold_step_own_other by exact Hnotin. unfold step, assign.
  rewrite bool_decide_eq_false_2 by exact Hp. apply own_set_prop_eq.
Qed.

Lemma fold_step_enumerable (v : list string) (acc : list (string * value)) :
  enumerable acc -> enumerable (fold_left step v acc).
Proof.
  revert acc. induction v as [|h v IH]; intros acc Hacc; simpl; [exact Hacc|].
  apply IH. unfold step, assign.
  destruct (bool_decide (h = "__proto__")); [exact Hacc|].
  apply enumerable_set_prop. exact Hacc.
Qed.

End Rows.

Lemma format_rows (v : list string) (b : list (list (string * value))) (w : World) :
  Array_map (SPARQLClient.format_row (VArr (map VStr v))) (map VObj b) w
  = (Ok (map (fun binding =>
                fold_left (fun row header =>
                             assign header (bound_value binding header) row) v [])
             b), w).
Proof.
  induction b as [|binding b IH]; simpl; [reflexivity|].
  unfold mbind, JS_bind. rewrite format_row_object.
  unfold mbind, JS_bind in IH. rewrite IH. reflexivity.
Qed.

(** X19. For a text whose first keyword is select (in any letter case,
    after leading whitespace) and a successful response that declares the
    variables [v] and carries the bindings [b], normalisation returns a
    tabular result with the headers [v] and one row per binding, in order.
    The keys of every row are the variables of [v] other than [__proto__],
    each once.  A variable the binding does not bind is present with the
    empty string, unless its name is one [Object.prototype] has: then it is
    present with undefined.  A bound one holds the value of its term. *)
Theorem formatResults_select_rows (query : string)
    (fields rf hf : list (string * value)) (v : list string)
    (b : list (list (string * value))) (executionTime : Z) (w : World) :
  startsWith (toLowerCase (trim query)) "select" = true ->
  own "results" fields = Some (VObj rf) ->
  own "bindings" rf = Some (VArr (map VObj b)) ->
  own "head" fields = Some (VObj hf) ->
  own "vars" hf = Some (VArr (map VStr v)) ->
  exists rows,
    SPARQLClient.formatResults (QuerySuccess (VObj fields) executionTime query) w
    = (Ok (FSelect (VArr (map VStr v)) rows (Z.of_nat (length b)) executionTime
             (Some (VObj fields))), w)
    /\ length rows = length b
    /\ forall i row binding,
         rows !! i = Some row -> b !! i = Some binding ->
         NoDup (Object_keys row)
         /\ (forall k, k ∈ Object_keys row <-> k ∈ v /\ k <> "__proto__")
         /\ (forall k, k ∈ v -> k <> "__proto__" -> own k binding = None ->
               own k row
               = Some (if inherited k then VUndefined else VStr EmptyString))
         /\ (forall k term, k ∈ v -> k <> "__proto__" ->
               own k binding = Some (VObj term) ->
               own k row = Some (default VUndefined (own "value" term))).
Proof.
  intros Hq Hres Hbind Hhead Hvars.
  eexists. split; [|split].
  - simpl. rewrite (getQueryType_select _ Hq).
    unfold SPARQLClient.formatSelectResults. simpl.
    rewrite Hres. simpl. rewrite Hbind, Hhead. simpl.
    unfold mbind at 1, JS_bind at 1. unfold get. simpl. rewrite Hvars. simpl.
    unfold mbind at 1, JS_bind at 1. simpl.
    change (or_else (VArr (map VStr v)) (VArr [])) with (VArr (map VStr v)).
    unfold mbind at 1, JS_bind at 1. rewrite format_rows.
    unfold mret, JS_ret. rewrite length_map. reflexivity.
  - apply length_map.
  - intros i row binding Hrow Hb.
    rewrite list_lookup_fmap, Hb in Hrow. simpl in Hrow.
    injection Hrow as <-.
    split; [apply enumerable_NoDup, fold_step_enumerable; constructor|].
    split; [|split].
    + intros k. rewrite fold_step_keys. split; [|tauto].
      intros [H|H]; [inversion H | exact H].
    + intros k Hk Hp Hunbound. rewrite fold_step_own by assumption.
      unfold bound_value. rewrite Hunbound. reflexivity.
    + intros k term Hk Hp Hbound. rewrite fold_step_own by assumption.
      unfold bound_value. rewrite Hbound. reflexivity.
Qed.

Lemma formatResults_select_rows_witness :
  exists rows,
    SPARQLClient.formatResults
      (QuerySuccess (VObj Sample.select_fields) 12 "  Select ?s ?p WHERE { ?s ?p ?o }")
      (Sample.world Sample.unreachable EmptyString)
    = (Ok (FSelect (VArr (map VStr Sample.vars)) rows 2 12
             (Some (VObj Sample.select_fields))),
       Sample.world Sample.unreachable EmptyString)
    /\ length rows = 2%nat
    /\ forall row, rows !! 1%nat = Some row ->
         own "p" row = Some (VStr EmptyString).
Proof.
  destruct (formatResults_select_rows "  Select ?s ?p WHERE { ?s ?p ?o }"
              Sample.select_fields Sample.results_fields Sample.head_fields
              Sample.vars Sample.bindings 12
              (Sample.world Sample.unreachable EmptyString)
              eq_refl eq_refl eq_refl eq_refl eq_refl)
    as (rows & Hrun & Hlen & Hrows).
  exists rows. split; [exact Hrun|]. split; [exact Hlen|].
  intros row Hrow.
  destruct (Hrows 1%nat row [("s", Sample.term "c")] Hrow eq_refl)
    as (_ & _ & Hunbound & _).
  apply (Hunbound "p"); [|discriminate|reflexivity].
  unfold Sample.vars. apply list_elem_of_further, list_elem_of_here.
Defined.

(** C1, where the code departs from it.  The payload declares the
    variables s, constructor and __proto__, and its one binding binds s
    only.  The row the normaliser builds holds undefined, not the empty
    string, under constructor, and has no key __proto__ at all: reading the
    binding under either name finds a member of [Object.prototype], and the
    write under __proto__ creates no property. *)
Theorem formatResults_select_inherited_names :
  SPARQLClient.formatResults
    (QuerySuccess (VObj Sample.inherited_fields) 5
       "SELECT ?s ?constructor ?__proto__ WHERE { ?s a <Type> }")
    (Sample.world Sample.unreachable EmptyString)
  = (Ok (FSelect (VArr [VStr "s"; VStr "constructor"; VStr "__proto__"])
           [[("s", VStr "a"); ("constructor", VUndefined)]] 1 5
           (Some (VObj Sample.inherited_fields))),
     Sample.world Sample.unreachable EmptyString).
Proof. reflexivity. Qed.


(** Every tabular result the normaliser returns counts its rows, and has an
    array of headers as soon as it has a row. *)
Lemma Array_map_cons_ok {A B : Type} (f : A -> JS B) (x : A) (xs : list A)
    (ys : list B) (w w' : World) :
  Array_map f (x :: xs) w = (Ok ys, w') -> exists y w1, f x w = (Ok y, w1).
Proof.
  simpl. unfold mbind at 1, JS_bind at 1.
  destruct (f x w) as [[y|e] w1]; [eauto | discriminate].
Qed.

Lemma formatSelectResults_shape (results : value) (executionTime : Z)
    (r : Formatted) (w w' : World) :
  SPARQLClient.formatSelectResults results executionTime w = (Ok r, w') ->
  exists headers rows raw,
    r = FSelect headers rows (Z.of_nat (length rows)) executionTime raw
    /\ (rows <> [] -> exists hs, headers = VArr hs).
Proof.
  unfold SPARQLClient.formatSelectResults.
  destruct (_ || _).
  - intros [= <- _]. exists (VArr []), [], None. split; [reflexivity | congruence].
  - unfold mbind at 1, JS_bind at 1.
    destruct (get _ "vars" w) as [[vars|e] w1]; [|discriminate].
    unfold mbind at 1, JS_bind at 1.
    destruct (as_array _ _ w1) as [[bs|e] w2]; [|discriminate].
    unfold mbind at 1, JS_bind at 1.
    destruct (Array_map _ bs w2) as [[rows|e] w3] eqn:Hrows; [|discriminate].
    intros [= <- _]. eexists _, rows, _. split; [reflexivity|].
    intros Hne. destruct bs as [|b bs].
    { simpl in Hrows. injection Hrows as <- _. congruence. }
    apply Array_map_cons_ok in Hrows as (y & w4 & Hrow).
    unfold SPARQLClient.format_row, mbind, JS_bind in Hrow.
    destruct (or_else vars (VArr [])) as [| | | | |hs|]; try discriminate Hrow.
    exists hs. reflexivity.
Qed.

(** ** The boolean of an ASK answer *)

(** X20. For a text whose first keyword is ask and a successful response
    whose payload is an object without a boolean field, normalisation
    returns the boolean result false, a successful result and not a failure
    or an exception. *)
Theorem formatResults_ask_without_boolean (query : string)
    (fields : list (string * value)) (executionTime : Z) (w : World) :
  startsWith (toLowerCase (trim query)) "ask" = true ->
  own "boolean" fields = None ->
  SPARQLClient.formatResults (QuerySuccess (VObj fields) executionTime query) w
  = (Ok (FAsk (VBool false) executionTime (VObj fields)), w)
  /\ GraphDBApp.success (FAsk (VBool false) executionTime (VObj fields)) = true.
Proof.
  intros Hq Habsent. split; [|reflexivity].
  simpl. rewrite (getQueryType_ask _ Hq).
  unfold SPARQLClient.formatAskResults, mbind, JS_bind, get. simpl.
  rewrite Habsent. reflexivity.
Qed.

Lemma formatResults_ask_without_boolean_witness :
  SPARQLClient.formatResults
    (QuerySuccess (VObj Sample.ask_fields) 5 "ASK { ?s a <Type> }")
    (Sample.world Sample.unreachable EmptyString)
  = (Ok (FAsk (VBool false) 5 (VObj Sample.ask_fields)),
     Sample.world Sample.unreachable EmptyString).
Proof.
  exact (proj1 (formatResults_ask_without_boolean "ASK { ?s a <Type> }"
                  Sample.ask_fields 5 (Sample.world Sample.unreachable EmptyString)
                  eq_refl eq_refl)).
Defined.

(** C6, where the code departs from it.  A successful answer to an ask
    text that carries no payload (null, or no results key at all) has no
    boolean field either; [formatAskResults] reads the field off the missing
    payload and raises a TypeError instead of defaulting to false, and
    [executeQuery] shows that exception as an error and installs no
    result. *)
Theorem formatResults_ask_null_payload :
  fst (SPARQLClient.formatResults (QuerySuccess VNull 5 "ASK { ?s a <Type> }")
         (Sample.world Sample.unreachable EmptyString))
  = Throw (TypeError "Cannot read properties of null (reading 'boolean')")
  /\ fst (SPARQLClient.formatResults (QuerySuccess VUndefined 5 "ASK { ?s a <Type> }")
            (Sample.world Sample.unreachable EmptyString))
     = Throw (TypeError "Cannot read properties of undefined (reading 'boolean')")
  /\ fst (SPARQLClient.query "ASK { ?s a <Type> }" "json"
            (Sample.world Sample.answered_null "ASK { ?s a <Type> }"))
     = Ok (QuerySuccess VNull 4 "ASK { ?s a <Type> }")
  /\ currentResults
       (app (snd (GraphDBApp.executeQuery
                    (Sample.world Sample.answered_null "ASK { ?s a <Type> }"))))
     = None
  /\ tbody
       (page (snd (GraphDBApp.executeQuery
                     (Sample.world Sample.answered_null "ASK { ?s a <Type> }"))))
     = [[Text "Cannot read properties of null (reading 'boolean')"]].
Proof. vm_compute. repeat split; reflexivity. Qed.

(** ** Query history *)

Lemma slice_front {A : Type} (xs : list A) (n : Z) :
  0 <= n -> slice xs 0 n = take (Z.to_nat n) xs.
Proof.
  intros Hn. unfold slice. cbv zeta.
  change (0 <? 0) with false. cbv iota.
  rewrite (Z.min_l 0) by lia.
  destruct (Z.ltb_spec n 0) as [|_]; [lia|].
  rewrite Z.sub_0_r. change (Z.to_nat 0) with 0%nat. rewrite drop_0.
  destruct (Z.min_spec n (Z.of_nat (length xs))) as [[_ ->]|[Hle ->]]; [reflexivity|].
  rewrite Nat2Z.id. rewrite !take_ge by lia. reflexivity.
Qed.

Lemma keep_last_50 {A : Type} (h : list A) :
  (if 50 <? Z.of_nat (length h) then slice h 0 50 else h) = take 50 h.
Proof.
  destruct (Z.ltb_spec 50 (Z.of_nat (length h))).
  - apply (slice_front h 50). lia.
  - rewrite take_ge by lia. reflexivity.
Qed.

(** What one recording does to the history. *)
Lemma addToQueryHistory_run (query : string) (results : Formatted) (w : World) :
  fst (GraphDBApp.addToQueryHistory query results w) = Ok tt
  /\ ((exists front rest, queryHistory (app w) = front :: rest
                          /\ entry_query front = query)
      /\ snd (GraphDBApp.addToQueryHistory query results w) = w
      \/ (forall front rest, queryHistory (app w) = front :: rest ->
                             entry_query front <> query)
         /\ exists e,
              entry_query e = query
              /\ entry_timestamp e = toISOString (env w) (clock w)
              /\ entry_success e = GraphDBApp.success results
              /\ entry_executionTime e = GraphDBApp.executionTime_of results
              /\ queryHistory (app (snd (GraphDBApp.addToQueryHistory query results w)))
                 = take 50 (e :: queryHistory (app w))
              /\ stored_history (page (snd (GraphDBApp.addToQueryHistory query results w)))
                 = Some (take 50 (e :: queryHistory (app w)))).
Proof.
  unfold GraphDBApp.addToQueryHistory, mbind, JS_bind, Date_now, reads.
  cbv beta zeta. rewrite keep_last_50.
  destruct (queryHistory (app w)) as [|front rest] eqn:Hh.
  - split; [reflexivity|]. right.
    split; [intros ? ? [=]|]. eexists. repeat split; reflexivity.
  - destruct (bool_decide_reflect (entry_query front = query)) as [Heq|Hne].
    + split; [reflexivity|]. left. split; [|reflexivity].
      exists front, rest. split; [reflexivity | exact Heq].
    + split; [reflexivity|]. right.
      split; [intros ? ? [= <- <-]; exact Hne|].
      eexists. repeat split; reflexivity.
Qed.

Lemma addToQueryHistory_front (query : string) (results : Formatted) (w : World) :
  exists front rest,
    queryHistory (app (snd (GraphDBApp.addToQueryHistory query results w)))
    = front :: rest
    /\ entry_query front = query.
Proof.
  destruct (addToQueryHistory_run query results w)
    as [_ [[(front & rest & Hh & Hq) ->] | [_ (e & Hq & _ & _ & _ & -> & _)]]].
  - exists front, rest. split; assumption.
  - exists e, (take 49 (queryHistory (app w))). split; [reflexivity | exact Hq].
Qed.

Lemma addToQueryHistory_bound (query : string) (results : Formatted) (w : World) :
  (length (queryHistory (app w)) <= 50)%nat ->
  (length (queryHistory (app (snd (GraphDBApp.addToQueryHistory query results w))))
   <= 50)%nat.
Proof.
  intros Hlen.
  destruct (addToQueryHistory_run query results w)
    as [_ [[_ ->] | [_ (e & _ & _ & _ & _ & -> & _)]]]; [exact Hlen|].
  rewrite length_take. lia.
Qed.

(** C4. Recording an execution never raises. An entry whose text equals the
    text of the front entry is dropped and nothing changes; any other entry
    goes to the front, the older entries follow in their order, and what lies
    beyond the first 50 is discarded, in the page and in the store alike. So
    recording the same text twice in a row leaves one entry for it, and a
    history of at most 50 entries stays so under any sequence of
    recordings. *)
Theorem history_is_bounded_and_deduplicated (query : string) (results : Formatted)
    (w : World) :
  let recorded := snd (GraphDBApp.addToQueryHistory query results w) in
  fst (GraphDBApp.addToQueryHistory query results w) = Ok tt
  /\ ((exists front rest, queryHistory (app w) = front :: rest
                          /\ entry_query front = query) ->
      recorded = w)
  /\ ((forall front rest, queryHistory (app w) = front :: rest ->
                          entry_query front <> query) ->
      exists e,
        entry_query e = query
        /\ entry_success e = GraphDBApp.success results
        /\ queryHistory (app recorded) = take 50 (e :: queryHistory (app w))
        /\ stored_history (page recorded) = Some (queryHistory (app recorded)))
  /\ (forall again,
        queryHistory (app (snd (GraphDBApp.addToQueryHistory query again recorded)))
        = queryHistory (app recorded))
  /\ (forall executions,
        (length (queryHistory (app w)) <= 50)%nat ->
        (length (queryHistory (app (GraphDBApp.record_all executions w))) <= 50)%nat).
Proof.
  cbv zeta.
  destruct (addToQueryHistory_run query results w) as [Hok Hcases].
  split; [exact Hok|]. split; [|split; [|split]].
  - intros (front & rest & Hh & Hq).
    destruct Hcases as [[_ Hw] | [Hne _]]; [exact Hw|].
    exfalso. exact (Hne front rest Hh Hq).
  - intros Hne.
    destruct Hcases as [[(front & rest & Hh & Hq) _] | [_ (e & Hq & _ & Hs & _ & Hh & Hst)]].
    + exfalso. exact (Hne front rest Hh Hq).
    + exists e. rewrite Hh. repeat split; assumption.
  - intros again.
    destruct (addToQueryHistory_front query results w) as (front & rest & Hh & Hq).
    destruct (addToQueryHistory_run query again
                (snd (GraphDBApp.addToQueryHistory query results w)))
      as [_ [[_ ->] | [Hne _]]]; [reflexivity|].
    exfalso. exact (Hne front rest Hh Hq).
  - intros executions. clear Hok Hcases. revert w.
    induction executions as [|[q r] executions IH]; intros w Hlen; simpl; [exact Hlen|].
    apply IH, addToQueryHistory_bound, Hlen.
Qed.

Lemma history_is_bounded_and_deduplicated_witness :
  queryHistory (app (snd (GraphDBApp.addToQueryHistory "ASK { ?s ?p ?o }"
                            (FAsk (VBool true) 9 (VObj []))
                            (snd (GraphDBApp.addToQueryHistory "ASK { ?s ?p ?o }"
                                    (FError "Failed to fetch" 3000)
                                    (Sample.world Sample.unreachable EmptyString))))))
  = queryHistory (app (snd (GraphDBApp.addToQueryHistory "ASK { ?s ?p ?o }"
                              (FError "Failed to fetch" 3000)
                              (Sample.world Sample.unreachable EmptyString)))).
Proof.
  exact (proj1 (proj2 (proj2 (proj2
           (history_is_bounded_and_deduplicated "ASK { ?s ?p ?o }"
              (FError "Failed to fetch" 3000)
              (Sample.world Sample.unreachable EmptyString)))))
           (FAsk (VBool true) 9 (VObj []))).
Defined.

(** Fifty-one different texts recorded on a fresh page: the oldest is gone,
    the newest is in front. *)
Example history_after_51_recordings :
  map entry_query
      (queryHistory (app (GraphDBApp.record_all
                            (map (fun i => (pretty i, FAsk (VBool true) 1 (VObj [])))
                                 (seq 1 51))
                            (Sample.world Sample.unreachable EmptyString))))
  = map pretty (rev (seq 2 50)).
Proof. vm_compute. reflexivity. Qed.

(** ** Pagination *)

Lemma slice_inside {A : Type} (xs : list A) (a b : Z) :
  0 <= a <= Z.of_nat (length xs) -> 0 <= b <= Z.of_nat (length xs) ->
  slice xs a b = take (Z.to_nat (b - a)) (drop (Z.to_nat a) xs).
Proof.
  intros Ha Hb. unfold slice. cbv zeta.
  destruct (Z.ltb_spec a 0); [lia|]. destruct (Z.ltb_spec b 0); [lia|].
  rewrite !Z.min_l by lia. reflexivity.
Qed.

Lemma ceil_div_bounds (n : Z) (size : positive) :
  (GraphDBApp.ceil_div n size - 1) * Z.pos size < n
  <= GraphDBApp.ceil_div n size * Z.pos size.
Proof.
  unfold GraphDBApp.ceil_div.
  pose proof (Z.div_mod (n + Z.pos size - 1) (Z.pos size)) as Hdm.
  pose proof (Z.mod_pos_bound (n + Z.pos size - 1) (Z.pos size)) as Hmod.
  nia.
Qed.

Lemma displaySelectResults_page (hs : list value) (rows : list (list (string * value)))
    (w : World) :
  rows <> [] ->
  0 <= (currentPage (app w) - 1) * Z.pos (pageSize (app w)) < Z.of_nat (length rows) ->
  GraphDBApp.displaySelectResults (VArr hs) rows (Z.of_nat (length rows)) w
  = (Ok tt,
     with_page
       (with_table (map GraphDBApp.text_of hs)
          (map (GraphDBApp.render_row hs)
             (take (Z.to_nat (Z.min (currentPage (app w) * Z.pos (pageSize (app w)))
                                    (Z.of_nat (length rows))
                              - (currentPage (app w) - 1) * Z.pos (pageSize (app w))))
                   (drop (Z.to_nat ((currentPage (app w) - 1) * Z.pos (pageSize (app w))))
                         rows)))
          (page w))
       w).
Proof.
  intros Hrows Hstart.
  unfold GraphDBApp.displaySelectResults, GraphDBApp.set_table, update_page, update,
    mbind, JS_bind, reads.
  destruct (Z.eqb_spec (Z.of_nat (length rows)) 0) as [Hz|_].
  { destruct rows; [congruence | simpl in Hz; lia]. }
  simpl. rewrite slice_inside by lia.
  replace ((currentPage (app w) - 1) * Z.pos (pageSize (app w)) + Z.pos (pageSize (app w)))
    with (currentPage (app w) * Z.pos (pageSize (app w))) by lia.
  destruct w as [e c rs cf a p]. destruct p. reflexivity.
Qed.

(** C5. With a tabular result installed, the page count is the ceiling of
    the row count over the page size; [goToPage n] changes nothing when
    [n < 1] or [n] exceeds the page count; otherwise the current page becomes
    [n] and the table shows exactly the rows from index [(n-1) * size] up to,
    and excluding, [min (n * size) total]. For 120 rows and a page size of 50
    there are 3 pages, page 3 shows the rows from 100 up to 120, and asking
    for page 4 afterwards leaves the page at 3. *)
Theorem goToPage_shows_the_slice (w : World) (hs : list value)
    (rows : list (list (string * value))) (executionTime : Z) (raw : option value)
    (n : Z) :
  currentResults (app w)
  = Some (FSelect (VArr hs) rows (Z.of_nat (length rows)) executionTime raw) ->
  let total := Z.of_nat (length rows) in
  let size := Z.pos (pageSize (app w)) in
  let pageCount := GraphDBApp.ceil_div total (pageSize (app w)) in
  (pageCount - 1) * size < total <= pageCount * size
  /\ (n < 1 \/ pageCount < n -> GraphDBApp.goToPage n w = (Ok tt, w))
  /\ (1 <= n <= pageCount ->
      fst (GraphDBApp.goToPage n w) = Ok tt
      /\ currentPage (app (snd (GraphDBApp.goToPage n w))) = n
      /\ currentResults (app (snd (GraphDBApp.goToPage n w))) = currentResults (app w)
      /\ thead (page (snd (GraphDBApp.goToPage n w))) = map GraphDBApp.text_of hs
      /\ tbody (page (snd (GraphDBApp.goToPage n w)))
         = map (GraphDBApp.render_row hs)
             (take (Z.to_nat (Z.min (n * size) total - (n - 1) * size))
                   (drop (Z.to_nat ((n - 1) * size)) rows)))
  /\ (size = 50 -> total = 120 ->
      pageCount = 3
      /\ tbody (page (snd (GraphDBApp.goToPage 3 w)))
         = map (GraphDBApp.render_row hs) (take 20 (drop 100 rows))
      /\ currentPage (app (snd (GraphDBApp.goToPage 4 (snd (GraphDBApp.goToPage 3 w)))))
         = 3).
Proof.
  intros Hcur total size pageCount.
  pose proof (ceil_div_bounds total (pageSize (app w))) as Hceil.
  fold size pageCount in Hceil.
  assert (Hout : forall w0 m,
             currentResults (app w0)
             = Some (FSelect (VArr hs) rows (Z.of_nat (length rows)) executionTime raw) ->
             pageSize (app w0) = pageSize (app w) ->
             m < 1 \/ pageCount < m -> GraphDBApp.goToPage m w0 = (Ok tt, w0)).
  { intros w0 m Hcur0 Hsize0 Hm.
    unfold GraphDBApp.goToPage, mbind, JS_bind, reads. rewrite Hcur0, Hsize0.
    fold total pageCount.
    destruct (Z.ltb_spec m 1); [reflexivity|].
    destruct (Z.ltb_spec pageCount m); [reflexivity | lia]. }
  assert (Hin : forall m, 1 <= m <= pageCount ->
             GraphDBApp.goToPage m w
             = (Ok tt,
                with_page
                  (with_table (map GraphDBApp.text_of hs)
                     (map (GraphDBApp.render_row hs)
                        (take (Z.to_nat (Z.min (m * size) total - (m - 1) * size))
                              (drop (Z.to_nat ((m - 1) * size)) rows)))
                     (page w))
                  (with_app (with_currentPage m (app w)) w))).
  { intros m Hm.
    unfold GraphDBApp.goToPage, mbind at 1, JS_bind at 1, reads. rewrite Hcur.
    fold total pageCount.
    destruct (Z.ltb_spec m 1); [lia|]. destruct (Z.ltb_spec pageCount m); [lia|].
    cbv [orb]. unfold mbind, JS_bind, update_app, update.
    assert (rows <> []) as Hrows.
    { intros ->. subst total. simpl in *. nia. }
    rewrite displaySelectResults_page; [reflexivity | exact Hrows |].
    simpl. fold size total. nia. }
  split; [exact Hceil|]. split; [apply Hout; [exact Hcur | reflexivity]|].
  split.
  - intros Hn. rewrite (Hin n Hn). simpl. rewrite Hcur. repeat split; reflexivity.
  - intros Hsize Htotal.
    assert (pageCount = 3) as H3.
    { subst pageCount. unfold GraphDBApp.ceil_div. fold size. rewrite Hsize, Htotal.
      reflexivity. }
    split; [exact H3|].
    rewrite (Hin 3) by lia. simpl. split.
    + rewrite Hsize, Htotal. reflexivity.
    + rewrite Hout; [reflexivity | simpl; exact Hcur | reflexivity | lia].
Qed.

Lemma goToPage_shows_the_slice_witness :
  let w := Sample.showing (FSelect (VArr [VStr "n"]) Sample.rows120 120 5 None) in
  GraphDBApp.ceil_div 120 (pageSize (app w)) = 3
  /\ tbody (page (snd (GraphDBApp.goToPage 3 w)))
     = map (GraphDBApp.render_row [VStr "n"]) (take 20 (drop 100 Sample.rows120))
  /\ currentPage (app (snd (GraphDBApp.goToPage 4 (snd (GraphDBApp.goToPage 3 w))))) = 3.
Proof.
  exact (proj2 (proj2 (proj2
           (goToPage_shows_the_slice
              (Sample.showing (FSelect (VArr [VStr "n"]) Sample.rows120 120 5 None))
              [VStr "n"] Sample.rows120 5 None 3 eq_refl)))
           eq_refl eq_refl).
Defined.

(** ** Export *)

Lemma csv_data_empty (timestamp queryType : string) (results : Formatted) :
  fst (GraphDBApp.csv_data timestamp queryType results) = [] ->
  (exists headers c t raw, results = FSelect headers [] c t raw)
  \/ (exists c t raw, results = FGraph (VArr []) c t raw).
Proof.
  destruct results as [error t | headers rows c t raw | result t raw
                      | triples c t raw | ty data t]; simpl; try discriminate.
  - intros ->. left. eauto.
  - destruct (truthy triples); [|discriminate].
    destruct triples as [| | | | |ts|]; try discriminate.
    destruct ts; [|discriminate]. intros _. right. eauto.
Qed.

(** C7, as the code has it. When the rows derived from the current result
    are empty (a tabular result without rows, or a graph result whose triples
    are an empty array), the CSV export raises nothing: it returns normally,
    hands no file to the browser and shows the warning No data to export. *)
Theorem exportToCSV_empty_warns (w : World) (results : Formatted)
    (timestamp queryType : string) :
  currentResults (app w) = Some results ->
  fst (GraphDBApp.csv_data timestamp queryType results) = [] ->
  GraphDBApp.exportToCSV timestamp queryType w
  = Utils.showNotification "No data to export" "warning" w
  /\ fst (GraphDBApp.exportToCSV timestamp queryType w) = Ok tt
  /\ downloads (page (snd (GraphDBApp.exportToCSV timestamp queryType w)))
     = downloads (page w)
  /\ ((exists headers c t raw, results = FSelect headers [] c t raw)
      \/ (exists c t raw, results = FGraph (VArr []) c t raw)).
Proof.
  intros Hcur Hempty.
  assert (GraphDBApp.exportToCSV timestamp queryType w
          = Utils.showNotification "No data to export" "warning" w) as Hrun.
  { unfold GraphDBApp.exportToCSV, mbind, JS_bind, reads. rewrite Hcur.
    destruct (GraphDBApp.csv_data timestamp queryType results) as [data filename].
    simpl in Hempty. subst data. reflexivity. }
  split; [exact Hrun|]. rewrite Hrun.
  split; [reflexivity|]. split; [reflexivity|].
  exact (csv_data_empty _ _ _ Hempty).
Qed.

Lemma exportToCSV_empty_warns_witness :
  GraphDBApp.exportToCSV "2026-11-01T12-00-00" "select"
    (Sample.showing (FSelect (VArr []) [] 0 5 None))
  = Utils.showNotification "No data to export" "warning"
      (Sample.showing (FSelect (VArr []) [] 0 5 None)).
Proof.
  exact (proj1 (exportToCSV_empty_warns
                  (Sample.showing (FSelect (VArr []) [] 0 5 None))
                  (FSelect (VArr []) [] 0 5 None)
                  "2026-11-01T12-00-00" "select" eq_refl eq_refl)).
Defined.

(** C7 as stated fails: exporting a tabular result without rows raises no
    error, neither in [exportToCSV] nor in [exportResults] around it. *)
Lemma exportToCSV_empty_raises_nothing :
  fst (GraphDBApp.exportToCSV "2026-11-01T12-00-00" "select"
         (Sample.showing (FSelect (VArr []) [] 0 5 None)))
  = Ok tt
  /\ fst (GraphDBApp.exportResults GraphDBApp.csv
            (Sample.showing (FSelect (VArr []) [] 0 5 None)))
     = Ok tt.
Proof. split; reflexivity. Qed.

Section Projection.
Variable first : list (string * value).

Let keys : list string := Object_keys first.

Let line (row : list (string * value)) : string :=
  join "," (map (fun k => Utils.csv_field (default VUndefined (own k row))) keys).

Lemma csvContent_lines (rest : list (list (string * value))) :
  Utils.csvContent (first :: rest)
  = join Utils.newline (join "," keys :: line first :: map line rest).
Proof. reflexivity. Qed.

Lemma line_agrees (row row' : list (string * value)) :
  (forall k, k ∈ keys -> own k row = own k row') -> line row = line row'.
Proof.
  intros Hagree. unfold line. f_equal.
  apply map_ext_in. intros k Hk. rewrite Hagree; [reflexivity|].
  apply list_elem_of_In. exact Hk.
Qed.

End Projection.

(** C10. For a non-empty data sequence the exported text has one header
    line, the keys of the first row joined by commas, and one line per row
    holding the fields of that row under those keys and no others; rows that
    agree with the given ones on the keys of the first row export to the same
    text, so a key that only a later row has is left out. *)
Theorem exportToCSV_projects_on_first_row (first : list (string * value))
    (rest : list (list (string * value))) (name : string) (w : World) :
  let keys := Object_keys first in
  let line := fun row =>
    join "," (map (fun k => Utils.csv_field (default VUndefined (own k row))) keys) in
  Utils.exportToCSV (first :: rest) name w
  = (Ok tt,
     with_page
       (with_downloads
          (downloads (page w)
           ++ [{| filename := name;
                  mimeType := "text/csv;charset=utf-8;";
                  content := PlainText
                    (join Utils.newline
                       (join "," keys :: line first :: map line rest)) |}])
          (page w))
       w)
  /\ (forall rest',
        Forall2 (fun row row' => forall k, k ∈ keys -> own k row = own k row')
                rest rest' ->
        Utils.csvContent (first :: rest') = Utils.csvContent (first :: rest))
  /\ (forall before row after k v,
        rest = before ++ row :: after ->
        k ∉ keys ->
        Utils.csvContent (first :: before ++ set_prop k v row :: after)
        = Utils.csvContent (first :: rest)).
Proof.
  cbv zeta.
  assert (Hproj : forall rest rest',
             Forall2 (fun row row' =>
                        forall k, k ∈ Object_keys first -> own k row = own k row')
                     rest rest' ->
             Utils.csvContent (first :: rest') = Utils.csvContent (first :: rest)).
  { intros r r' Hall. rewrite !csvContent_lines. do 3 f_equal.
    induction Hall as [|row row' r r' Hrow _ IH]; [reflexivity|].
    simpl. rewrite IH. f_equal. symmetry. apply line_agrees. exact Hrow. }
  split; [reflexivity|]. split; [apply Hproj|].
  intros before row after k v -> Hk. apply Hproj.
  apply Forall2_app; [apply Forall_Forall2_diag, Forall_forall; reflexivity|].
  constructor; [|apply Forall_Forall2_diag, Forall_forall; reflexivity].
  intros k0 Hk0. symmetry. apply own_set_prop_ne. congruence.
Qed.

Lemma exportToCSV_projects_on_first_row_witness :
  Utils.csvContent
    [ [("s", VStr "a"); ("p", VStr "b, c")];
      set_prop "o" (VStr "dropped") [("s", VStr "d")] ]
  = Utils.csvContent [ [("s", VStr "a"); ("p", VStr "b, c")]; [("s", VStr "d")] ].
Proof.
  apply (proj2 (proj2 (exportToCSV_projects_on_first_row
                         [("s", VStr "a"); ("p", VStr "b, c")]
                         [[("s", VStr "d")]] "export.csv"
                         (Sample.world Sample.unreachable EmptyString)))
           [] [("s", VStr "d")] [] "o" (VStr "dropped") eq_refl).
  unfold Object_keys. simpl. rewrite !not_elem_of_cons.
  repeat split; try discriminate. apply not_elem_of_nil.
Defined.

(** The text exported for two rows, the second of which has a key of its
    own and lacks one of the first. *)
Example csvContent_sample :
  Utils.csvContent
    [ [("s", VStr "a"); ("p", VStr "b, c")];
      [("s", VStr "d"); ("o", VStr "dropped")] ]
  = "s,p" +:+ Utils.newline
    +:+ "a," +:+ String quote "b, c" +:+ String quote Utils.newline
    +:+ "d,".
Proof. reflexivity. Qed.

(** ** Whole executions *)

(** A SELECT answered with ten bindings: a tabular result of ten rows under
    the three declared headers, and one history entry of type select and
    count 10. *)
Example executeQuery_select_ten :
  let w := snd (GraphDBApp.executeQuery
                  (Sample.world Sample.ten_bindings
                     "SELECT ?s ?p ?o WHERE { ?s ?p ?o } LIMIT 10")) in
  match currentResults (app w) with
  | Some (FSelect headers rows count _ _) =>
      headers = VArr [VStr "s"; VStr "p"; VStr "o"]
      /\ length rows = 10%nat /\ count = 10
  | _ => False
  end
  /\ map (fun e => (entry_type e, entry_count e, entry_success e)) (queryHistory (app w))
     = [(Some "select", 10, true)]
  /\ length (tbody (page w)) = 10%nat.
Proof. vm_compute. repeat split; reflexivity. Qed.

(** An ASK answered with true: a boolean result, and a CSV export of one
    header line and one data line. *)
Example executeQuery_ask_true :
  let w := snd (GraphDBApp.executeQuery
                  (Sample.world Sample.asked_true "ASK { ?s a <Type> }")) in
  (exists raw, currentResults (app w) = Some (FAsk (VBool true) 3 raw))
  /\ map content (downloads (page (snd (GraphDBApp.exportResults GraphDBApp.csv w))))
     = [PlainText ("result" +:+ Utils.newline +:+ "true")].
Proof. vm_compute. split; [eexists|]; reflexivity. Qed.

(** No response at all: the failure is displayed and recorded, and there is
    nothing to export. *)
Example executeQuery_unreachable :
  let w := snd (GraphDBApp.executeQuery
                  (Sample.world Sample.unreachable "ASK { ?s a <Type> }")) in
  currentResults (app w) = None
  /\ tbody (page w) = [[Text "Failed to fetch"]]
  /\ map (fun e => (entry_success e, entry_executionTime e)) (queryHistory (app w))
     = [(false, 3000)]
  /\ downloads (page (snd (GraphDBApp.exportResults GraphDBApp.csv w))) = [].
Proof. vm_compute. repeat split; reflexivity. Qed.

(** * Further properties *)

(** ** Whitespace and letter case in the query text *)

Lemma blank_trim (s : string) : blank (trim s) = blank s.
Proof. rewrite <- (is_empty_trim (trim s)), trim_idempotent. apply is_empty_trim. Qed.

Lemma is_empty_blank (s : string) : is_empty s = true -> blank s = true.
Proof. destruct s; simpl; congruence. Qed.

Lemma lower_char_white_space (c : ascii) :
  is_white_space (lower_char c) = is_white_space c.
Proof. destruct c as [[] [] [] [] [] [] [] []]; reflexivity. Qed.

Lemma lower_char_idempotent (c : ascii) : lower_char (lower_char c) = lower_char c.
Proof. destruct c as [[] [] [] [] [] [] [] []]; reflexivity. Qed.

Lemma lower_char_open (c : ascii) : Ascii.eqb (lower_char c) "{" = Ascii.eqb c "{".
Proof. destruct c as [[] [] [] [] [] [] [] []]; reflexivity. Qed.

Lemma lower_char_close (c : ascii) : Ascii.eqb (lower_char c) "}" = Ascii.eqb c "}".
Proof. destruct c as [[] [] [] [] [] [] [] []]; reflexivity. Qed.

Lemma toLowerCase_idempotent (s : string) : toLowerCase (toLowerCase s) = toLowerCase s.
Proof.
  induction s as [|c s IH]; simpl; [reflexivity|].
  rewrite lower_char_idempotent, IH. reflexivity.
Qed.

Lemma trimStart_toLowerCase (s : string) :
  trimStart (toLowerCase s) = toLowerCase (trimStart s).
Proof.
  induction s as [|c s IH]; simpl; [reflexivity|].
  rewrite lower_char_white_space. destruct (is_white_space c); [exact IH | reflexivity].
Qed.

Lemma trimEnd_toLowerCase (s : string) :
  trimEnd (toLowerCase s) = toLowerCase (trimEnd s).
Proof.
  induction s as [|c s IH]; simpl; [reflexivity|].
  rewrite lower_char_white_space, IH, is_empty_toLowerCase.
  destruct (is_white_space c && is_empty (trimEnd s)); reflexivity.
Qed.

Lemma trim_toLowerCase (s : string) : trim (toLowerCase s) = toLowerCase (trim s).
Proof. unfold trim. rewrite trimStart_toLowerCase. apply trimEnd_toLowerCase. Qed.

Lemma count_toLowerCase_brackets (s : string) :
  SPARQLClient.openBrackets (toLowerCase s) = SPARQLClient.openBrackets s
  /\ SPARQLClient.closeBrackets (toLowerCase s) = SPARQLClient.closeBrackets s.
Proof.
  unfold SPARQLClient.openBrackets, SPARQLClient.closeBrackets.
  induction s as [|c s [IHo IHc]]; simpl; [split; reflexivity|].
  rewrite lower_char_open, lower_char_close, IHo, IHc. split; reflexivity.
Qed.

Lemma getQueryType_blank (s : string) :
  blank s = true -> SPARQLClient.getQueryType s = unknown.
Proof.
  intros Hb. unfold SPARQLClient.getQueryType.
  destruct (is_empty s); [reflexivity|].
  rewrite <- is_empty_trim in Hb. apply is_empty_true in Hb. rewrite Hb. reflexivity.
Qed.

Lemma getQueryType_not_blank (s : string) :
  blank s = false ->
  SPARQLClient.getQueryType s
  = let trimmed := toLowerCase (trim s) in
    if startsWith trimmed "select" then select
    else if startsWith trimmed "construct" then construct
    else if startsWith trimmed "ask" then ask
    else if startsWith trimmed "describe" then describe
    else if startsWith trimmed "insert" then insert
    else if startsWith trimmed "delete" then delete
    else unknown.
Proof.
  intros Hb. unfold SPARQLClient.getQueryType.
  rewrite (blank_is_empty _ Hb). reflexivity.
Qed.

Lemma blank_toLowerCase (s : string) : blank (toLowerCase s) = blank s.
Proof.
  induction s as [|c s IH]; simpl; [reflexivity|].
  rewrite lower_char_white_space, IH. reflexivity.
Qed.

Lemma validateQuery_alt (s : string) :
  SPARQLClient.validateQuery s
  = if blank s then SPARQLClient.Invalid "Query cannot be empty"
    else if negb (existsb (fun prefix => startsWith (toLowerCase (trim s)) prefix)
                    SPARQLClient.validPrefixes)
    then SPARQLClient.Invalid
           "Query must start with a valid SPARQL keyword (SELECT, CONSTRUCT, ASK, DESCRIBE, INSERT, DELETE, WITH)"
    else if negb (Nat.eqb (SPARQLClient.openBrackets s) (SPARQLClient.closeBrackets s))
    then SPARQLClient.Invalid "Mismatched curly brackets in query"
    else SPARQLClient.Valid.
Proof.
  unfold SPARQLClient.validateQuery. rewrite is_empty_trim.
  destruct (blank s) eqn:Hb; [rewrite orb_true_r; reflexivity|].
  rewrite (blank_is_empty _ Hb). reflexivity.
Qed.

(** X1. The query type and the verdict of the validation depend neither on
    whitespace around the text nor on the case of its letters: trimming the
    text, or lower-casing it, changes neither. *)
Theorem type_and_validation_ignore_case_and_margin (sparql : string) :
  SPARQLClient.getQueryType (trim sparql) = SPARQLClient.getQueryType sparql
  /\ SPARQLClient.getQueryType (toLowerCase sparql) = SPARQLClient.getQueryType sparql
  /\ SPARQLClient.validateQuery (trim sparql) = SPARQLClient.validateQuery sparql
  /\ SPARQLClient.validateQuery (toLowerCase sparql) = SPARQLClient.validateQuery sparql.
Proof.
  split; [|split; [|split]].
  - destruct (blank sparql) eqn:Hb.
    + rewrite !getQueryType_blank; [reflexivity | exact Hb | rewrite blank_trim; exact Hb].
    + rewrite !getQueryType_not_blank by (rewrite ?blank_trim; exact Hb).
      rewrite trim_idempotent. reflexivity.
  - destruct (blank sparql) eqn:Hb.
    + rewrite !getQueryType_blank; [reflexivity | exact Hb | rewrite blank_toLowerCase; exact Hb].
    + rewrite !getQueryType_not_blank by (rewrite ?blank_toLowerCase; exact Hb).
      rewrite trim_toLowerCase, toLowerCase_idempotent. reflexivity.
  - rewrite !validateQuery_alt, blank_trim, trim_idempotent.
    unfold SPARQLClient.openBrackets, SPARQLClient.closeBrackets.
    rewrite !count_trim by reflexivity. reflexivity.
  - rewrite !validateQuery_alt, blank_toLowerCase, trim_toLowerCase, toLowerCase_idempotent.
    destruct (count_toLowerCase_brackets sparql) as [-> ->]. reflexivity.
Qed.

(** ** Keywords, query types and the typed entry points *)

Lemma startsWith_app (t p : string) :
  startsWith t p = true -> exists rest, t = p +:+ rest.
Proof.
  revert t. induction p as [|a p IH]; intros t H.
  - exists t. reflexivity.
  - destruct t as [|c t]; [discriminate|].
    apply startsWith_cons in H as [-> H]. destruct (IH t H) as [rest ->].
    exists rest. reflexivity.
Qed.

Lemma startsWith_cons_eqb (t p : string) (a c : ascii) :
  startsWith (String c t) (String a p) = if Ascii.eqb a c then startsWith t p else false.
Proof.
  unfold startsWith.
  change (String.prefix (String a p) (String c t))
    with (if ascii_dec a c then String.prefix p t else false).
  destruct (ascii_dec a c) as [->|Hne].
  - rewrite Ascii.eqb_refl. reflexivity.
  - apply Ascii.eqb_neq in Hne. rewrite Hne. reflexivity.
Qed.

Lemma startsWith_empty (t : string) : startsWith t EmptyString = true.
Proof. destruct t; reflexivity. Qed.

(** A text that starts with one keyword starts with no other: replace the
    text by the keyword and what follows it, and compare letter by letter. *)
Ltac keyword_forces H :=
  let rest := fresh "rest" in
  apply startsWith_app in H as [rest ->];
  cbv [String.append];
  repeat first [ rewrite startsWith_cons_eqb | rewrite startsWith_empty ];
  reflexivity.

(** The chain of tests of [getQueryType], case by case. *)
Ltac keyword_forced H :=
  revert H;
  repeat match goal with
         | |- context [startsWith ?t ?kw] => destruct (startsWith t kw)
         end;
  intros H; first [ reflexivity | discriminate H ].

(** The type of a text that is not empty, keyword by keyword. *)
Lemma getQueryType_keyword (sparql : string) :
  is_empty sparql = false ->
  let t := toLowerCase (trim sparql) in
  (startsWith t "select" = true <-> SPARQLClient.getQueryType sparql = select)
  /\ (startsWith t "construct" = true <-> SPARQLClient.getQueryType sparql = construct)
  /\ (startsWith t "ask" = true <-> SPARQLClient.getQueryType sparql = ask)
  /\ (startsWith t "describe" = true <-> SPARQLClient.getQueryType sparql = describe)
  /\ (startsWith t "insert" = true <-> SPARQLClient.getQueryType sparql = insert)
  /\ (startsWith t "delete" = true <-> SPARQLClient.getQueryType sparql = delete).
Proof.
  intros He. unfold SPARQLClient.getQueryType. rewrite He. cbv zeta.
  generalize (toLowerCase (trim sparql)). intros t.
  repeat split; intros H; first [ keyword_forces H | keyword_forced H ].
Qed.

Lemma getQueryType_empty (sparql : string) :
  is_empty sparql = true ->
  SPARQLClient.getQueryType sparql = unknown
  /\ forall keyword, is_empty keyword = false ->
       startsWith (toLowerCase (trim sparql)) keyword = false.
Proof.
  intros ->%is_empty_true. split; [reflexivity|].
  intros [|c k] Hk; [discriminate | reflexivity].
Qed.

(** X2. Each typed entry point accepts exactly the texts of its own query
    type: [select] runs [query] on a text whose type is select and raises
    Query must be a SELECT query on every other text, the empty one
    included, without sending anything; likewise [construct], [ask] and
    [describe]. *)
Theorem typed_entry_points_accept_their_type (sparql : string) (w : World) :
  SPARQLClientTyped.select sparql w
  = match SPARQLClient.getQueryType sparql with
    | select => SPARQLClient.query sparql "json" w
    | _ => (Throw (Error "Query must be a SELECT query"), w)
    end
  /\ SPARQLClientTyped.construct sparql w
     = match SPARQLClient.getQueryType sparql with
       | construct => SPARQLClient.query sparql "json" w
       | _ => (Throw (Error "Query must be a CONSTRUCT query"), w)
       end
  /\ SPARQLClientTyped.ask sparql w
     = match SPARQLClient.getQueryType sparql with
       | ask => SPARQLClient.query sparql "json" w
       | _ => (Throw (Error "Query must be an ASK query"), w)
       end
  /\ SPARQLClientTyped.describe sparql w
     = match SPARQLClient.getQueryType sparql with
       | describe => SPARQLClient.query sparql "json" w
       | _ => (Throw (Error "Query must be a DESCRIBE query"), w)
       end.
Proof.
  unfold SPARQLClientTyped.select, SPARQLClientTyped.construct,
    SPARQLClientTyped.ask, SPARQLClientTyped.describe.
  destruct (is_empty sparql) eqn:He.
  - destruct (getQueryType_empty sparql He) as [-> Hno].
    rewrite !Hno by reflexivity. repeat split; reflexivity.
  - destruct (getQueryType_keyword sparql He) as (Hs & Hc & Ha & Hd & _).
    cbv zeta in *.
    repeat split.
    + destruct (startsWith _ "select") eqn:E.
      * rewrite (proj1 Hs eq_refl). reflexivity.
      * destruct (SPARQLClient.getQueryType sparql); try reflexivity.
        discriminate (proj2 Hs eq_refl).
    + destruct (startsWith _ "construct") eqn:E.
      * rewrite (proj1 Hc eq_refl). reflexivity.
      * destruct (SPARQLClient.getQueryType sparql); try reflexivity.
        discriminate (proj2 Hc eq_refl).
    + destruct (startsWith _ "ask") eqn:E.
      * rewrite (proj1 Ha eq_refl). reflexivity.
      * destruct (SPARQLClient.getQueryType sparql); try reflexivity.
        discriminate (proj2 Ha eq_refl).
    + destruct (startsWith _ "describe") eqn:E.
      * rewrite (proj1 Hd eq_refl). reflexivity.
      * destruct (SPARQLClient.getQueryType sparql); try reflexivity.
        discriminate (proj2 Hd eq_refl).
Qed.

Lemma getQueryType_known (sparql : string) :
  SPARQLClient.getQueryType sparql <> unknown ->
  exists prefix,
    prefix ∈ ["select"; "construct"; "ask"; "describe"; "insert"; "delete"]
    /\ startsWith (toLowerCase (trim sparql)) prefix = true.
Proof.
  unfold SPARQLClient.getQueryType. destruct (is_empty sparql); [congruence|].
  repeat match goal with
         | |- context [if startsWith ?t ?kw then _ else _] =>
             destruct (startsWith t kw) eqn:?
         end;
    intros Hne; try congruence;
    match goal with
    | H : startsWith _ ?kw = true |- _ =>
        exists kw; split; [repeat constructor | exact H]
    end.
Qed.

(** X3. A text that passes the validation has a known query type unless it
    starts with WITH, which the validation accepts and the normaliser does
    not know; and a text of a known type can only fail the validation on
    its curly brackets. Such WITH texts exist. *)
Theorem validation_and_query_type (sparql : string) :
  (SPARQLClient.validateQuery sparql = SPARQLClient.Valid ->
   SPARQLClient.getQueryType sparql <> unknown
   \/ startsWith (toLowerCase (trim sparql)) "with" = true)
  /\ (SPARQLClient.getQueryType sparql <> unknown ->
      SPARQLClient.validateQuery sparql = SPARQLClient.Valid
      \/ SPARQLClient.validateQuery sparql
         = SPARQLClient.Invalid "Mismatched curly brackets in query")
  /\ SPARQLClient.validateQuery "WITH <g> DELETE { ?s ?p ?o } WHERE { ?s ?p ?o }"
     = SPARQLClient.Valid
  /\ SPARQLClient.getQueryType "WITH <g> DELETE { ?s ?p ?o } WHERE { ?s ?p ?o }"
     = unknown.
Proof.
  split; [|split; [|split; reflexivity]].
  - intros [(prefix & Hin & Hp) _]%validateQuery_valid_iff.
    assert (is_empty sparql = false) as He.
    { apply blank_is_empty. exact (keyword_not_blank _ _ Hin Hp). }
    destruct (getQueryType_keyword sparql He) as (Hs & Hc & Ha & Hd & Hi & Hdel).
    cbv zeta in *. unfold SPARQLClient.validPrefixes in Hin.
    repeat (apply elem_of_cons in Hin as [->|Hin]);
      [ left; rewrite (proj1 Hs Hp) | left; rewrite (proj1 Hc Hp)
      | left; rewrite (proj1 Ha Hp) | left; rewrite (proj1 Hd Hp)
      | left; rewrite (proj1 Hi Hp) | left; rewrite (proj1 Hdel Hp)
      | right; exact Hp | inversion Hin ]; discriminate.
  - intros (prefix & Hin & Hp)%getQueryType_known.
    assert (prefix ∈ SPARQLClient.validPrefixes) as Hin'.
    { unfold SPARQLClient.validPrefixes.
      repeat (apply elem_of_cons in Hin as [->|Hin]; [repeat constructor|]).
      inversion Hin. }
    destruct (Nat.eq_dec (SPARQLClient.openBrackets sparql)
                (SPARQLClient.closeBrackets sparql)) as [Heq|Hne].
    + left. apply validateQuery_valid_iff. split; [exists prefix; tauto | exact Heq].
    + right. exact (validateQuery_mismatch _ _ Hin' Hp Hne).
Qed.

(** ** What the normaliser returns, and when it raises *)

Lemma prop_falsy (v : value) (k : string) :
  truthy v = false -> truthy (prop v k) = false.
Proof.
  destruct v as [| |b|n|s|xs|ps]; simpl; try reflexivity; try discriminate.
  destruct s; [|discriminate]. intros _. unfold indexed. simpl.
  destruct (bool_decide (k = "length")); [reflexivity|].
  destruct (array_index k) as [i|]; [|reflexivity].
  destruct (N.to_nat i); reflexivity.
Qed.

(** The guard of [formatSelectResults] only asks for the bindings. *)
Lemma select_guard (results : value) :
  negb (truthy results)
  || negb (truthy (prop results "results"))
  || negb (truthy (prop (prop results "results") "bindings"))
  = negb (truthy (prop (prop results "results") "bindings")).
Proof.
  destruct (truthy results) eqn:H1; simpl.
  - destruct (truthy (prop results "results")) eqn:H2; simpl; [reflexivity|].
    rewrite (prop_falsy _ "bindings" H2). reflexivity.
  - rewrite (prop_falsy _ "bindings" (prop_falsy _ "results" H1)). reflexivity.
Qed.

Lemma formatAskResults_run (results : value) (executionTime : Z) (w : World) :
  SPARQLClient.formatAskResults results executionTime w
  = if is_nullish results
    then (Throw (TypeError ("Cannot read properties of " +:+ ToString results
                            +:+ " (reading 'boolean')")), w)
    else (Ok (FAsk (or_else (prop results "boolean") (VBool false)) executionTime results),
          w).
Proof.
  unfold SPARQLClient.formatAskResults, mbind, JS_bind, get.
  destruct (is_nullish results); reflexivity.
Qed.

(** X4. Whatever the normaliser returns for a successful outcome is a
    successful result that keeps the elapsed time, carries the type that
    belongs to the query type (select, ask, graph for construct and describe,
    the query type itself otherwise), and counts what it holds: the count of
    a tabular result is the number of its rows, its headers are an array as
    soon as there is a row, and the count of a graph result is the length of
    the payload when that is an array and 0 otherwise. *)
Theorem formatResults_well_formed (results : value) (executionTime : Z)
    (query : string) (r : Formatted) (w w' : World) :
  SPARQLClient.formatResults (QuerySuccess results executionTime query) w = (Ok r, w') ->
  w' = w
  /\ GraphDBApp.success r = true
  /\ GraphDBApp.executionTime_of r = executionTime
  /\ GraphDBApp.type_of r
     = Some (match SPARQLClient.getQueryType query with
             | select => "select"
             | ask => "ask"
             | construct | describe => "graph"
             | t => QueryType_name t
             end)
  /\ match r with
     | FSelect headers rows count _ _ =>
         count = Z.of_nat (length rows) /\ (rows <> [] -> exists hs, headers = VArr hs)
     | FGraph triples count _ _ =>
         triples = results
         /\ count = match results with VArr ts => Z.of_nat (length ts) | _ => 0 end
     | FAsk result _ _ => truthy result = true \/ result = VBool false
     | FOther _ data _ => data = results
     | FError _ _ => False
     end.
Proof.
  intros Hrun.
  assert (w' = w) as ->.
  { destruct (pure_formatResults (QuerySuccess results executionTime query)) as [o Ho].
    rewrite Ho in Hrun. congruence. }
  split; [reflexivity|]. simpl in Hrun.
  destruct (SPARQLClient.getQueryType query).
  - destruct (formatSelectResults_shape _ _ _ _ _ Hrun)
      as (headers & rows & raw & -> & Harr).
    do 3 (split; [reflexivity|]). split; [reflexivity | exact Harr].
  - injection Hrun as <-. repeat split; reflexivity.
  - rewrite formatAskResults_run in Hrun.
    destruct (is_nullish results); [discriminate|]. injection Hrun as <-.
    do 3 (split; [reflexivity|]). unfold or_else.
    destruct (truthy (prop results "boolean")) eqn:Hb; [left; exact Hb | right; reflexivity].
  - injection Hrun as <-. repeat split; reflexivity.
  - injection Hrun as <-. repeat split; reflexivity.
  - injection Hrun as <-. repeat split; reflexivity.
  - injection Hrun as <-. repeat split; reflexivity.
Qed.

Lemma formatResults_well_formed_witness :
  GraphDBApp.type_of (FGraph (VArr [VNull; VNull]) 2 4 (VArr [VNull; VNull])) = Some "graph"
  /\ 2 = Z.of_nat (length [VNull; VNull]).
Proof.
  destruct (formatResults_well_formed (VArr [VNull; VNull]) 4 "Describe <x>"
              (FGraph (VArr [VNull; VNull]) 2 4 (VArr [VNull; VNull]))
              (Sample.world Sample.unreachable EmptyString)
              (Sample.world Sample.unreachable EmptyString) eq_refl)
    as (_ & _ & _ & Htype & _ & Hcount).
  split; [exact Htype | exact Hcount].
Defined.

(** X5. The normaliser raises in two situations only: on an ask text whose
    payload is null or undefined, and on a select text whose payload does
    carry bindings. A failed outcome, a construct, describe, insert, delete
    or unknown text, and a select payload without bindings never make it
    raise. *)
Theorem formatResults_raises_only (queryResult : QueryResult) (e : exn) (w : World) :
  fst (SPARQLClient.formatResults queryResult w) = Throw e ->
  exists results executionTime query,
    queryResult = QuerySuccess results executionTime query
    /\ (SPARQLClient.getQueryType query = ask /\ is_nullish results = true
        \/ SPARQLClient.getQueryType query = select
           /\ truthy (prop (prop results "results") "bindings") = true).
Proof.
  destruct queryResult as [results executionTime query | error executionTime query];
    simpl; [|discriminate].
  intros Hrun. exists results, executionTime, query. split; [reflexivity|].
  destruct (SPARQLClient.getQueryType query); try discriminate Hrun.
  - right. split; [reflexivity|].
    unfold SPARQLClient.formatSelectResults in Hrun. rewrite select_guard in Hrun.
    destruct (truthy (prop (prop results "results") "bindings"));
      [reflexivity | discriminate Hrun].
  - left. split; [reflexivity|].
    rewrite formatAskResults_run in Hrun.
    destruct (is_nullish results); [reflexivity | discriminate Hrun].
Qed.

Lemma formatResults_raises_only_witness :
  exists results executionTime query,
    QuerySuccess VNull 5 "ASK { ?s ?p ?o }" = QuerySuccess results executionTime query
    /\ (SPARQLClient.getQueryType query = ask /\ is_nullish results = true
        \/ SPARQLClient.getQueryType query = select
           /\ truthy (prop (prop results "results") "bindings") = true).
Proof.
  exact (formatResults_raises_only (QuerySuccess VNull 5 "ASK { ?s ?p ?o }")
           (TypeError "Cannot read properties of null (reading 'boolean')")
           (Sample.world Sample.unreachable EmptyString) eq_refl).
Defined.

(** X6. A select text whose payload carries no bindings (the payload, its
    results or its bindings missing or falsy) is normalised to the empty
    tabular result; displayed, it shows the No Results placeholder; with it
    installed no page can be reached, and the CSV export only warns that
    there is no data. *)
Theorem select_without_bindings_is_empty (query : string) (results : value)
    (executionTime : Z) :
  startsWith (toLowerCase (trim query)) "select" = true ->
  truthy (prop (prop results "results") "bindings") = false ->
  let empty := FSelect (VArr []) [] 0 executionTime None in
  (forall w,
     SPARQLClient.formatResults (QuerySuccess results executionTime query) w
     = (Ok empty, w))
  /\ (forall w,
        GraphDBApp.displayResults empty w
        = (Ok tt, with_page (with_table [] [[EmptyState]] (page w)) w))
  /\ (forall w n,
        currentResults (app w) = Some empty ->
        GraphDBApp.goToPage n w = (Ok tt, w))
  /\ (forall w timestamp queryType,
        currentResults (app w) = Some empty ->
        GraphDBApp.exportToCSV timestamp queryType w
        = Utils.showNotification "No data to export" "warning" w).
Proof.
  intros Hq Hnone empty. split; [|split; [|split]].
  - intros w. simpl. rewrite (getQueryType_select _ Hq).
    unfold SPARQLClient.formatSelectResults. rewrite select_guard, Hnone. reflexivity.
  - intros [e c rs cf a [h b ns ds st]]. reflexivity.
  - intros w n Hcur.
    unfold GraphDBApp.goToPage, mbind, JS_bind, reads. rewrite Hcur. simpl.
    unfold GraphDBApp.ceil_div. simpl.
    rewrite Z.div_small by lia.
    destruct (Z.ltb_spec n 1); [reflexivity|].
    destruct (Z.ltb_spec 0 n); [reflexivity | lia].
  - intros w timestamp queryType Hcur.
    unfold GraphDBApp.exportToCSV, mbind, JS_bind, reads. rewrite Hcur. reflexivity.
Qed.

Lemma select_without_bindings_is_empty_witness :
  SPARQLClient.formatResults (QuerySuccess (VObj [("head", VObj [])]) 8 "select * { }")
    (Sample.world Sample.unreachable EmptyString)
  = (Ok (FSelect (VArr []) [] 0 8 None), Sample.world Sample.unreachable EmptyString).
Proof.
  exact (proj1 (select_without_bindings_is_empty "select * { }"
                  (VObj [("head", VObj [])]) 8 eq_refl eq_refl)
           (Sample.world Sample.unreachable EmptyString)).
Defined.

(** ** Walking through the pages *)

Section Installed.
Variable w : World.
Variable hs : list value.
Variable rows : list (list (string * value)).
Variable executionTime : Z.
Variable raw : option value.
Hypothesis installed :
  currentResults (app w)
  = Some (FSelect (VArr hs) rows (Z.of_nat (length rows)) executionTime raw).

Let total : Z := Z.of_nat (length rows).
Let size : Z := Z.pos (pageSize (app w)).
Let pageCount : Z := GraphDBApp.ceil_div total (pageSize (app w)).

Lemma pageCount_bounds : (pageCount - 1) * size < total <= pageCount * size.
Proof. apply ceil_div_bounds. Qed.

Lemma goToPage_inside (n : Z) :
  1 <= n <= pageCount -> GraphDBApp.goToPage n w = (Ok tt, turned w hs rows n).
Proof.
  intros Hn. pose proof pageCount_bounds as Hb.
  unfold GraphDBApp.goToPage, mbind at 1, JS_bind at 1, reads. rewrite installed.
  fold total pageCount.
  destruct (Z.ltb_spec n 1); [lia|]. destruct (Z.ltb_spec pageCount n); [lia|].
  cbv [orb]. unfold mbind, JS_bind, update_app, update.
  assert (rows <> []) as Hrows.
  { intros Hnil. subst total. rewrite Hnil in Hb. simpl in Hb. nia. }
  rewrite displaySelectResults_page; [| exact Hrows | simpl; fold size total; nia].
  unfold turned. simpl. fold size total. do 4 f_equal.
  destruct (Z.min_spec (n * size) total) as [[_ ->]|[Hle ->]].
  - f_equal. subst size. lia.
  - rewrite !take_ge; [reflexivity | |]; rewrite length_drop; subst total size; lia.
Qed.

Lemma goToPage_outside (n : Z) :
  n < 1 \/ pageCount < n -> GraphDBApp.goToPage n w = (Ok tt, w).
Proof.
  intros Hn. unfold GraphDBApp.goToPage, mbind, JS_bind, reads. rewrite installed.
  fold total pageCount.
  destruct (Z.ltb_spec n 1); [reflexivity|].
  destruct (Z.ltb_spec pageCount n); [reflexivity | lia].
Qed.

End Installed.

Lemma turned_installed (w : World) (hs : list value) (rows : list (list (string * value)))
    (n : Z) (r : Formatted) :
  currentResults (app w) = Some r ->
  currentResults (app (turned w hs rows n)) = Some r
  /\ pageSize (app (turned w hs rows n)) = pageSize (app w)
  /\ currentPage (app (turned w hs rows n)) = n.
Proof. intros H. unfold turned. simpl. rewrite H. repeat split; reflexivity. Qed.

Lemma turned_twice (w : World) (hs : list value) (rows : list (list (string * value)))
    (n m : Z) :
  turned (turned w hs rows n) hs rows m = turned w hs rows m.
Proof. destruct w as [e c rs cf a p]. destruct a, p. reflexivity. Qed.

(** The pages of a list are its consecutive chunks. *)
Lemma chunks_concat {A : Type} (size : nat) (k : nat) (l : list A) :
  (length l <= k * size)%nat ->
  concat (map (fun i => take size (drop (i * size) l)) (seq 0 k)) = l.
Proof.
  revert l. induction k as [|k IH]; intros l Hlen; simpl.
  - destruct l; [reflexivity | simpl in Hlen; lia].
  - rewrite drop_0, <- seq_shift, map_map.
    transitivity (take size l ++ drop size l); [|apply take_drop]. f_equal.
    rewrite <- (IH (drop size l)) by (rewrite length_drop; simpl in Hlen; lia).
    f_equal. apply map_ext. intros i. rewrite drop_drop. reflexivity.
Qed.

Lemma page_offset (i : nat) (size : positive) :
  Z.to_nat ((Z.of_nat (S i) - 1) * Z.pos size) = (i * Pos.to_nat size)%nat.
Proof.
  replace (Z.of_nat (S i) - 1) with (Z.of_nat i) by lia.
  rewrite Z2Nat.inj_mul by lia. rewrite Nat2Z.id. reflexivity.
Qed.

(** X7. With a tabular result installed, going to the pages 1, 2, ... up to
    the page count and putting the tables shown one after the other gives
    every row of the result exactly once and in order; no page is empty and
    none shows more rows than the page size. *)
Theorem pages_partition_the_rows (w : World) (hs : list value)
    (rows : list (list (string * value))) (executionTime : Z) (raw : option value) :
  currentResults (app w)
  = Some (FSelect (VArr hs) rows (Z.of_nat (length rows)) executionTime raw) ->
  let pageCount := GraphDBApp.ceil_div (Z.of_nat (length rows)) (pageSize (app w)) in
  concat (map (fun n => tbody (page (snd (GraphDBApp.goToPage n w)))) (pages pageCount))
  = map (GraphDBApp.render_row hs) rows
  /\ Forall (fun n =>
               (1 <= length (tbody (page (snd (GraphDBApp.goToPage n w))))
                  <= Pos.to_nat (pageSize (app w)))%nat)
            (pages pageCount).
Proof.
  intros Hcur pageCount.
  pose proof (pageCount_bounds w rows) as Hb. cbv zeta in Hb. fold pageCount in Hb.
  assert (Hshown : forall i, (i < Z.to_nat pageCount)%nat ->
             tbody (page (snd (GraphDBApp.goToPage (Z.of_nat (S i)) w)))
             = map (GraphDBApp.render_row hs)
                 (take (Pos.to_nat (pageSize (app w)))
                       (drop (i * Pos.to_nat (pageSize (app w))) rows))).
  { intros i Hi.
    rewrite (goToPage_inside w hs rows executionTime raw Hcur) by (fold pageCount; lia).
    unfold turned. simpl. rewrite page_offset. reflexivity. }
  unfold pages. rewrite <- seq_shift, !map_map. split.
  - transitivity
      (concat (map (map (GraphDBApp.render_row hs))
                 (map (fun i => take (Pos.to_nat (pageSize (app w)))
                                  (drop (i * Pos.to_nat (pageSize (app w))) rows))
                      (seq 0 (Z.to_nat pageCount))))).
    + rewrite map_map. f_equal. apply map_ext_in.
      intros i Hi%in_seq. apply Hshown. lia.
    + rewrite <- concat_map, chunks_concat; [reflexivity|]. nia.
  - apply Forall_forall. intros n Hn.
    apply list_elem_of_fmap in Hn as (i & -> & Hi).
    apply list_elem_of_In, in_seq in Hi. rewrite Hshown by lia.
    rewrite length_map, length_take, length_drop. nia.
Qed.

Lemma pages_partition_the_rows_witness :
  concat (map (fun n =>
                 tbody (page (snd (GraphDBApp.goToPage n
                   (Sample.showing (FSelect (VArr [VStr "n"]) Sample.rows120 120 5 None))))))
              (pages 3))
  = map (GraphDBApp.render_row [VStr "n"]) Sample.rows120.
Proof.
  exact (proj1 (pages_partition_the_rows
                  (Sample.showing (FSelect (VArr [VStr "n"]) Sample.rows120 120 5 None))
                  [VStr "n"] Sample.rows120 5 None eq_refl)).
Defined.

Lemma goToPage_turned (w : World) (hs : list value) (rows : list (list (string * value)))
    (executionTime : Z) (raw : option value) (n m : Z) :
  currentResults (app w)
  = Some (FSelect (VArr hs) rows (Z.of_nat (length rows)) executionTime raw) ->
  let pageCount := GraphDBApp.ceil_div (Z.of_nat (length rows)) (pageSize (app w)) in
  (1 <= m <= pageCount ->
   GraphDBApp.goToPage m (turned w hs rows n) = (Ok tt, turned w hs rows m))
  /\ (m < 1 \/ pageCount < m ->
      GraphDBApp.goToPage m (turned w hs rows n) = (Ok tt, turned w hs rows n)).
Proof.
  intros Hcur pageCount.
  destruct (turned_installed w hs rows n _ Hcur) as (Hcur' & Hsize & _).
  split; intros Hm.
  - rewrite (goToPage_inside _ hs rows executionTime raw Hcur') by (rewrite Hsize; exact Hm).
    rewrite turned_twice. reflexivity.
  - apply (goToPage_outside _ hs rows executionTime raw Hcur'). rewrite Hsize. exact Hm.
Qed.

(** X8. With a tabular result installed and the current page between 1 and
    the page count, every [goToPage] leaves the current page in that range
    and the result in place. The previous-page button does nothing on page
    1, the next-page button does nothing on the last page; before the last
    page, next moves one page forward, and previous after next shows the
    page one started from. *)
Theorem navigation_stays_in_range (w : World) (hs : list value)
    (rows : list (list (string * value))) (executionTime : Z) (raw : option value) :
  currentResults (app w)
  = Some (FSelect (VArr hs) rows (Z.of_nat (length rows)) executionTime raw) ->
  let pageCount := GraphDBApp.ceil_div (Z.of_nat (length rows)) (pageSize (app w)) in
  1 <= currentPage (app w) <= pageCount ->
  (forall n,
     1 <= currentPage (app (snd (GraphDBApp.goToPage n w))) <= pageCount
     /\ currentResults (app (snd (GraphDBApp.goToPage n w))) = currentResults (app w))
  /\ (currentPage (app w) = 1 -> Pagination.prevPage w = (Ok tt, w))
  /\ (currentPage (app w) = pageCount -> Pagination.nextPage w = (Ok tt, w))
  /\ (currentPage (app w) < pageCount ->
      currentPage (app (snd (Pagination.nextPage w))) = currentPage (app w) + 1
      /\ snd (Pagination.prevPage (snd (Pagination.nextPage w)))
         = snd (GraphDBApp.goToPage (currentPage (app w)) w)).
Proof.
  intros Hcur pageCount Hpage.
  pose proof (goToPage_inside w hs rows executionTime raw Hcur) as Hin.
  pose proof (goToPage_outside w hs rows executionTime raw Hcur) as Hout.
  cbv zeta in Hin, Hout. fold pageCount in Hin, Hout.
  split; [|split; [|split]].
  - intros n. destruct (Z_lt_le_dec n 1) as [Hlow|Hlow].
    { rewrite Hout by lia. split; [exact Hpage | reflexivity]. }
    destruct (Z_lt_le_dec pageCount n) as [Hhigh|Hhigh].
    { rewrite Hout by lia. split; [exact Hpage | reflexivity]. }
    rewrite Hin by lia. simpl. split; [lia | reflexivity].
  - intros H1. unfold Pagination.prevPage, mbind, JS_bind, reads.
    apply Hout. lia.
  - intros Hlast. unfold Pagination.nextPage, mbind, JS_bind, reads.
    apply Hout. lia.
  - intros Hbefore.
    assert (Pagination.nextPage w
            = (Ok tt, turned w hs rows (currentPage (app w) + 1))) as Hnext.
    { unfold Pagination.nextPage, mbind, JS_bind, reads. apply Hin. lia. }
    rewrite Hnext. simpl. split; [reflexivity|].
    unfold Pagination.prevPage, mbind, JS_bind, reads. simpl.
    replace (currentPage (app w) + 1 - 1) with (currentPage (app w)) by lia.
    rewrite (proj1 (goToPage_turned w hs rows executionTime raw _ _ Hcur)) by
      (fold pageCount; lia).
    rewrite Hin by lia. reflexivity.
Qed.

Lemma navigation_stays_in_range_witness :
  let w := Sample.showing (FSelect (VArr [VStr "n"]) Sample.rows120 120 5 None) in
  Pagination.prevPage w = (Ok tt, w)
  /\ currentPage (app (snd (Pagination.nextPage w))) = 2.
Proof.
  destruct (navigation_stays_in_range
              (Sample.showing (FSelect (VArr [VStr "n"]) Sample.rows120 120 5 None))
              [VStr "n"] Sample.rows120 5 None eq_refl)
    as (_ & Hprev & _ & Hnext).
  - vm_compute. split; discriminate.
  - split; [exact (Hprev eq_refl)|]. apply Hnext. reflexivity.
Defined.

(** X9. [updatePaginationControls] hides the controls when there is at
    most one page. Otherwise, on the page [goToPage n] has just shown, it
    writes [n] and the page count, disables the previous button exactly when
    clicking it would change nothing, likewise the next button, and
    announces Showing a-b of the total, where a is the index after the rows
    of the earlier pages and b - a + 1 is the number of rows in the table. *)
Theorem controls_match_the_table (w : World) (hs : list value)
    (rows : list (list (string * value))) (executionTime : Z) (raw : option value) :
  currentResults (app w)
  = Some (FSelect (VArr hs) rows (Z.of_nat (length rows)) executionTime raw) ->
  let total := Z.of_nat (length rows) in
  let size := Z.pos (pageSize (app w)) in
  let pageCount := GraphDBApp.ceil_div total (pageSize (app w)) in
  (pageCount <= 1 -> Pagination.updatePaginationControls w = None)
  /\ (1 < pageCount ->
      forall n, 1 <= n <= pageCount ->
        let shown := snd (GraphDBApp.goToPage n w) in
        exists c,
          Pagination.updatePaginationControls shown = Some c
          /\ Pagination.shown_currentPage c = n
          /\ Pagination.shown_totalPages c = pageCount
          /\ (Pagination.prev_disabled c = true <-> snd (Pagination.prevPage shown) = shown)
          /\ (Pagination.next_disabled c = true <-> snd (Pagination.nextPage shown) = shown)
          /\ Pagination.shown_resultCount c
             = "Showing " +:+ pretty ((n - 1) * size + 1)
               +:+ "-" +:+ pretty ((n - 1) * size + Z.of_nat (length (tbody (page shown))))
               +:+ " of " +:+ pretty total +:+ " rows").
Proof.
  intros Hcur total size pageCount.
  pose proof (pageCount_bounds w rows) as Hb. cbv zeta in Hb.
  fold total size pageCount in Hb.
  split.
  - intros Hone. unfold Pagination.updatePaginationControls. rewrite Hcur.
    fold total pageCount. cbv zeta.
    destruct (Z.leb_spec pageCount 1); [reflexivity | lia].
  - intros Hmany n Hn shown.
    assert (shown = turned w hs rows n) as Hshown.
    { subst shown. rewrite (goToPage_inside w hs rows executionTime raw Hcur) by exact Hn.
      reflexivity. }
    destruct (turned_installed w hs rows n _ Hcur) as (Hcur' & Hsize & Hpage).
    destruct (goToPage_turned w hs rows executionTime raw n (n - 1) Hcur) as [Hpin Hpout].
    destruct (goToPage_turned w hs rows executionTime raw n (n + 1) Hcur) as [Hnin Hnout].
    cbv zeta in Hpin, Hpout, Hnin, Hnout. fold total pageCount in Hpin, Hpout, Hnin, Hnout.
    rewrite Hshown.
    unfold Pagination.updatePaginationControls. rewrite Hcur', Hsize, Hpage.
    fold total size pageCount. cbv zeta.
    destruct (Z.leb_spec pageCount 1); [lia|].
    eexists. split; [reflexivity|]. cbn [Pagination.shown_currentPage
      Pagination.shown_totalPages Pagination.prev_disabled Pagination.next_disabled
      Pagination.shown_resultCount].
    split; [reflexivity|]. split; [reflexivity|]. split; [|split].
    + unfold Pagination.prevPage, mbind, JS_bind, reads. rewrite Hpage.
      destruct (Z.leb_spec n 1) as [Hle|Hgt].
      * split; [intros _ | reflexivity]. rewrite Hpout by lia. reflexivity.
      * split; [discriminate|]. rewrite Hpin by lia. simpl. intros Heq.
        apply (f_equal (fun x => currentPage (app x))) in Heq. simpl in Heq. lia.
    + unfold Pagination.nextPage, mbind, JS_bind, reads. rewrite Hpage.
      destruct (Z.leb_spec pageCount n) as [Hle|Hgt].
      * split; [intros _ | reflexivity]. rewrite Hnout by lia. reflexivity.
      * split; [discriminate|]. rewrite Hnin by lia. simpl. intros Heq.
        apply (f_equal (fun x => currentPage (app x))) in Heq. simpl in Heq. lia.
    + assert (Z.min (n * size) total
              = (n - 1) * size + Z.of_nat (length (tbody (page (turned w hs rows n)))))
        as ->.
      { unfold turned. simpl. rewrite length_map, length_take, length_drop.
        fold size. subst total. nia. }
      destruct (Z.eqb_spec total 1); [nia | reflexivity].
Qed.

Lemma controls_match_the_table_witness :
  let w := Sample.showing (FSelect (VArr [VStr "n"]) Sample.rows120 120 5 None) in
  exists c,
    Pagination.updatePaginationControls (snd (GraphDBApp.goToPage 3 w)) = Some c
    /\ Pagination.next_disabled c = true
    /\ Pagination.shown_resultCount c = "Showing 101-120 of 120 rows".
Proof.
  destruct (proj2 (controls_match_the_table
                     (Sample.showing (FSelect (VArr [VStr "n"]) Sample.rows120 120 5 None))
                     [VStr "n"] Sample.rows120 5 None eq_refl))
    with (n := 3) as (c & Hc & _ & _ & _ & Hnext & Htext).
  - vm_compute. reflexivity.
  - vm_compute. split; discriminate.
  - exists c. split; [exact Hc|]. split; [|exact Htext].
    apply Hnext. vm_compute. reflexivity.
Defined.

(** ** More on the history *)

Lemma no_repeat_take (n : nat) (h : list HistoryEntry) :
  no_repeat h -> no_repeat (take n h).
Proof.
  revert n. induction h as [|e h IH]; intros n Hh; [destruct n; exact I|].
  destruct n as [|n]; [exact I|]. simpl in *. destruct Hh as [Hhead Hrest].
  split; [|apply IH; exact Hrest].
  destruct h as [|e' h]; [destruct n; exact I|].
  destruct n; [exact I | exact Hhead].
Qed.

Lemma addToQueryHistory_no_repeat (query : string) (results : Formatted) (w : World) :
  no_repeat (queryHistory (app w)) ->
  no_repeat (queryHistory (app (snd (GraphDBApp.addToQueryHistory query results w)))).
Proof.
  intros Hh.
  destruct (addToQueryHistory_run query results w)
    as [_ [[_ ->] | [Hne (e & Hq & _ & _ & _ & -> & _)]]]; [exact Hh|].
  apply (no_repeat_take 50 (e :: queryHistory (app w))).
  simpl. split; [|exact Hh].
  destruct (queryHistory (app w)) as [|front rest] eqn:Hfront; [exact I|].
  rewrite Hq. intros Heq. exact (Hne front rest eq_refl (eq_sym Heq)).
Qed.

(** X10. A history in which no two neighbouring entries carry the same
    text stays so under any sequence of recordings; in particular the
    history built from an empty one never holds the same text twice in a
    row, however often texts are repeated. *)
Theorem history_never_repeats_a_neighbour (executions : list (string * Formatted))
    (w : World) :
  no_repeat (queryHistory (app w)) ->
  no_repeat (queryHistory (app (GraphDBApp.record_all executions w))).
Proof.
  revert w. induction executions as [|[q r] executions IH]; intros w Hh; simpl;
    [exact Hh|].
  apply IH, addToQueryHistory_no_repeat, Hh.
Qed.

Lemma history_never_repeats_a_neighbour_witness :
  no_repeat
    (queryHistory
       (app (GraphDBApp.record_all
               [("ASK { }", FAsk (VBool true) 1 (VObj []));
                ("ASK { }", FError "Failed to fetch" 2);
                ("SELECT * { }", FSelect (VArr []) [] 0 3 None);
                ("ASK { }", FAsk (VBool true) 4 (VObj []))]
               (Sample.world Sample.unreachable EmptyString)))).
Proof.
  exact (history_never_repeats_a_neighbour _
           (Sample.world Sample.unreachable EmptyString) I).
Defined.

(** ** Whole executions, in general *)

Lemma addToQueryHistory_world (query : string) (results : Formatted) (w : World) :
  GraphDBApp.addToQueryHistory query results w
  = (Ok tt, if front_is query w then w else recorded query results w).
Proof.
  unfold GraphDBApp.addToQueryHistory, mbind, JS_bind, Date_now, reads.
  cbv beta zeta. rewrite keep_last_50. unfold front_is.
  destruct (queryHistory (app w)) as [|front rest] eqn:Hh.
  - unfold recorded. rewrite Hh. reflexivity.
  - destruct (bool_decide (entry_query front = query)); [reflexivity|].
    unfold recorded. rewrite Hh. reflexivity.
Qed.

Lemma query_returns (sparql format : string) (w : World) :
  blank sparql = false ->
  exists r,
    SPARQLClient.query sparql format w
    = (Ok r, snd (fetch (SPARQLClient.query_request sparql format (config w)) w)).
Proof.
  intros Hb. rewrite fetch_world.
  unfold SPARQLClient.query.
  rewrite is_empty_trim, Hb, (blank_is_empty _ Hb). simpl.
  unfold mbind, JS_bind, try_catch, Date_now, reads, fetch. simpl.
  destruct (reply _) as [why | status statusText [why | data]]; simpl; eauto.
  unfold get.
  destruct (status_ok status), (is_nullish data); simpl; eauto.
  destruct (truthy (prop data "success")); simpl; eauto.
Qed.

(** Displaying a result only rewrites the table. *)
Lemma displayResults_effect (results : Formatted) (w : World) :
  exists o h b,
    GraphDBApp.displayResults results w = (o, with_page (with_table h b (page w)) w).
Proof.
  destruct w as [e c rs cf a [th tb ns ds st]].
  destruct results as [error t | headers rows count t raw | result t raw
                      | triples count t raw | ty data t];
    try (do 3 eexists; reflexivity).
  unfold GraphDBApp.displayResults, GraphDBApp.displaySelectResults,
    GraphDBApp.set_table, GraphDBApp.displayEmptyResults, update_page, update,
    mbind, JS_bind, reads. simpl.
  destruct (count =? 0); [do 3 eexists; reflexivity|].
  destruct headers; simpl; do 3 eexists; reflexivity.
Qed.

(** A result the normaliser returned is displayed without an exception. *)
Lemma displayResults_normalised (queryResult : QueryResult) (results : Formatted)
    (w0 w0' w : World) :
  SPARQLClient.formatResults queryResult w0 = (Ok results, w0') ->
  fst (GraphDBApp.displayResults results w) = Ok tt.
Proof.
  intros Hrun.
  destruct results as [error t | headers rows count t raw | result t raw
                      | triples count t raw | ty data t]; try reflexivity.
  assert (count = Z.of_nat (length rows) /\ (rows <> [] -> exists hs, headers = VArr hs))
    as [-> Harr].
  { destruct queryResult as [results et query | error et query]; simpl in Hrun;
      [|discriminate].
    destruct (SPARQLClient.getQueryType query);
      try (rewrite formatAskResults_run in Hrun; destruct (is_nullish results));
      try discriminate Hrun.
    destruct (formatSelectResults_shape _ _ _ _ _ Hrun) as (h & r & x & [= -> -> -> _ _] & H).
    split; [reflexivity | exact H]. }
  unfold GraphDBApp.displayResults, GraphDBApp.displaySelectResults,
    GraphDBApp.set_table, GraphDBApp.displayEmptyResults, update_page, update,
    mbind, JS_bind, reads. simpl.
  destruct rows as [|row rows]; [reflexivity|].
  destruct Harr as [hs ->]; [discriminate|]. reflexivity.
Qed.

Section Execution.
Variable w : World.

Let sparql : string := trim (editor (app w)).

Hypothesis valid : SPARQLClient.validateQuery sparql = SPARQLClient.Valid.

Lemma valid_not_empty : is_empty sparql = false /\ blank sparql = false.
Proof.
  apply validateQuery_valid_iff in valid as [(prefix & Hin & Hp) _].
  pose proof (keyword_not_blank _ _ Hin Hp) as Hb.
  split; [apply blank_is_empty|]; exact Hb.
Qed.

(** The query failed. *)
Lemma executeQuery_failed (error : string) (executionTime : Z) (query : string)
    (w1 : World) :
  SPARQLClient.query sparql "json" w = (Ok (QueryFailure error executionTime query), w1) ->
  let shown := with_page (with_table ["Error"] [[Text error]] (page w1)) w1 in
  GraphDBApp.executeQuery w
  = (Ok tt,
     notified ("Query failed: " +:+ error) "error"
       (if front_is sparql shown then shown
        else recorded sparql (FError error executionTime) shown)).
Proof.
  intros Hq shown.
  unfold GraphDBApp.executeQuery, mbind at 1, JS_bind at 1, reads.
  fold sparql. rewrite (proj1 valid_not_empty), valid.
  unfold try_catch, mbind at 1, JS_bind at 1. rewrite Hq.
  unfold mbind, JS_bind, GraphDBApp.displayError, GraphDBApp.set_table, update_page,
    update.
  fold shown. rewrite addToQueryHistory_world.
  destruct (front_is sparql shown); reflexivity.
Qed.

(** The query succeeded and its payload could not be normalised. *)
Lemma executeQuery_unformatted (results : value) (executionTime : Z) (query : string)
    (w1 : World) (e : exn) :
  SPARQLClient.query sparql "json" w = (Ok (QuerySuccess results executionTime query), w1) ->
  fst (SPARQLClient.formatResults (QuerySuccess results executionTime query) w1) = Throw e ->
  GraphDBApp.executeQuery w
  = (Ok tt,
     notified ("Query execution error: " +:+ exn_message e) "error"
       (with_page (with_table ["Error"] [[Text (exn_message e)]] (page w1)) w1)).
Proof.
  intros Hq Hf.
  destruct (pure_formatResults (QuerySuccess results executionTime query)) as [o Ho].
  rewrite Ho in Hf. simpl in Hf. subst o.
  unfold GraphDBApp.executeQuery, mbind at 1, JS_bind at 1, reads.
  fold sparql. rewrite (proj1 valid_not_empty), valid.
  unfold try_catch, mbind at 1, JS_bind at 1. rewrite Hq.
  unfold mbind at 1, JS_bind at 1. rewrite Ho. reflexivity.
Qed.

(** The query succeeded and its payload was normalised. *)
Lemma executeQuery_succeeded (results : value) (executionTime : Z) (query : string)
    (w1 : World) (formatted : Formatted) :
  SPARQLClient.query sparql "json" w = (Ok (QuerySuccess results executionTime query), w1) ->
  fst (SPARQLClient.formatResults (QuerySuccess results executionTime query) w1)
  = Ok formatted ->
  exists h b,
    let installed :=
      with_app (with_lastExecutedQuery (Some sparql)
                  (with_currentPage 1 (with_currentResults (Some formatted) (app w1))))
        w1 in
    let shown := with_page (with_table h b (page installed)) installed in
    GraphDBApp.displayResults formatted installed = (Ok tt, shown)
    /\ GraphDBApp.executeQuery w
       = (Ok tt,
          notified ("Query executed successfully in "
                    +:+ Utils.formatTime (env w1) executionTime) "success"
            (if front_is sparql shown then shown else recorded sparql formatted shown)).
Proof.
  intros Hq Hf.
  destruct (pure_formatResults (QuerySuccess results executionTime query)) as [o Ho].
  rewrite Ho in Hf. simpl in Hf. subst o.
  set (installed :=
         with_app (with_lastExecutedQuery (Some sparql)
                     (with_currentPage 1 (with_currentResults (Some formatted) (app w1))))
           w1).
  destruct (displayResults_effect formatted installed) as (o & h & b & Hshow).
  pose proof (displayResults_normalised _ _ w1 w1 installed (Ho w1)) as Hok.
  rewrite Hshow in Hok. simpl in Hok. subst o.
  exists h, b. cbv zeta. split; [exact Hshow|].
  unfold GraphDBApp.executeQuery, mbind at 1, JS_bind at 1, reads.
  fold sparql. rewrite (proj1 valid_not_empty), valid.
  unfold try_catch, mbind at 1, JS_bind at 1. rewrite Hq.
  unfold mbind at 1, JS_bind at 1. rewrite Ho.
  unfold mbind at 1, JS_bind at 1, update_app, update. fold installed.
  unfold mbind at 1, JS_bind at 1. rewrite Hshow.
  unfold mbind at 1, JS_bind at 1. rewrite addToQueryHistory_world.
  unfold mbind, JS_bind, reads.
  destruct (front_is sparql _); reflexivity.
Qed.

End Execution.

Lemma query_leaves (sparql format : string) (w : World) :
  blank sparql = false ->
  exists r,
    SPARQLClient.query sparql format w
    = (Ok r,
       with_clock
         (clock w + elapsed (server (env w)
                               (SPARQLClient.query_request sparql format (config w))))
         (with_requests
            (requests w ++ [SPARQLClient.query_request sparql format (config w)]) w)).
Proof.
  intros Hb. destruct (query_returns sparql format w Hb) as [r Hr].
  exists r. rewrite Hr, fetch_world. reflexivity.
Qed.

Lemma front_is_true (query : string) (w : World) :
  front_is query w = true ->
  exists front rest, queryHistory (app w) = front :: rest /\ entry_query front = query.
Proof.
  unfold front_is. destruct (queryHistory (app w)) as [|front rest]; [discriminate|].
  intros H%bool_decide_eq_true. eauto.
Qed.

(** X11. [executeQuery] never lets an exception escape, whatever the editor
    holds and whatever the proxy answers. It leaves the configuration, the
    editor and the downloads alone. It sends nothing unless the trimmed text
    passes the validation; then it posts that text exactly once, followed at
    most by the reload of the sample catalogue. *)
Theorem executeQuery_never_raises (w : World) :
  let sparql := trim (editor (app w)) in
  let after := snd (GraphDBApp.executeQuery w) in
  fst (GraphDBApp.executeQuery w) = Ok tt
  /\ config after = config w
  /\ editor (app after) = editor (app w)
  /\ downloads (page after) = downloads (page w)
  /\ (SPARQLClient.validateQuery sparql <> SPARQLClient.Valid ->
      requests after = requests w)
  /\ (SPARQLClient.validateQuery sparql = SPARQLClient.Valid ->
      exists reload,
        requests after
        = requests w ++ SPARQLClient.query_request sparql "json" (config w) :: reload
        /\ (reload = [] \/ reload = [GetStatic "/static/examples/sample-queries.json"])).
Proof.
  intros sparql after.
  destruct (SPARQLClient.validateQuery sparql) as [|error] eqn:Hv.
  - pose proof (valid_not_empty w Hv) as [_ Hb]. fold sparql in Hb.
    destruct (query_leaves sparql "json" w Hb) as [r Hq].
    set (w1 := with_clock _ _) in Hq.
    destruct r as [results t query | err t query].
    + destruct (SPARQLClient.formatResults (QuerySuccess results t query) w1)
        as [[f|e] wf] eqn:Hf.
      * destruct (executeQuery_succeeded w Hv results t query w1 f Hq)
          as (h & b & _ & Hrun); [rewrite Hf; reflexivity|].
        cbv zeta in Hrun. subst after. rewrite Hrun. fold sparql.
        destruct (front_is sparql _); simpl;
          (repeat split; try reflexivity; try congruence);
          intros _; eexists; (split; [try rewrite <- app_assoc; reflexivity|]); auto.
      * pose proof (executeQuery_unformatted w Hv results t query w1 e Hq) as Hrun.
        rewrite Hf in Hrun. specialize (Hrun eq_refl).
        subst after. rewrite Hrun. simpl.
        repeat split; try reflexivity; try congruence.
        intros _. exists []. split; [reflexivity | left; reflexivity].
    + pose proof (executeQuery_failed w Hv err t query w1 Hq) as Hrun.
      cbv zeta in Hrun. subst after. rewrite Hrun. fold sparql.
      destruct (front_is sparql _); simpl;
        (repeat split; try reflexivity; try congruence);
        intros _; eexists; (split; [try rewrite <- app_assoc; reflexivity|]); auto.
  - subst after. unfold GraphDBApp.executeQuery, mbind, JS_bind, reads.
    fold sparql. rewrite Hv.
    destruct (is_empty sparql); simpl; repeat split; try reflexivity; discriminate.
Qed.

Lemma query_keeps_the_page (sparql format : string) (w : World) (r : QueryResult)
    (w1 : World) :
  blank sparql = false ->
  SPARQLClient.query sparql format w = (Ok r, w1) ->
  app w1 = app w /\ page w1 = page w /\ env w1 = env w
  /\ requests w1 = requests w ++ [SPARQLClient.query_request sparql format (config w)].
Proof.
  intros Hb Hq. destruct (query_leaves sparql format w Hb) as [r' Hr].
  rewrite Hr in Hq. injection Hq as _ <-. repeat split; reflexivity.
Qed.

(** X12. A query that the client reports as failed leaves the stored
    results, the current page and the last executed query as they were,
    while the table is replaced by the error: what an export or a page turn
    works on afterwards is still the result of the query before.  The
    failure is notified, and the history has the text in front: the entry it
    had there already, or a new entry that says the query failed. *)
Theorem failed_query_keeps_the_results (w : World) (error : string) (executionTime : Z)
    (query : string) :
  SPARQLClient.validateQuery (trim (editor (app w))) = SPARQLClient.Valid ->
  fst (SPARQLClient.query (trim (editor (app w))) "json" w)
  = Ok (QueryFailure error executionTime query) ->
  let sparql := trim (editor (app w)) in
  let after := snd (GraphDBApp.executeQuery w) in
  currentResults (app after) = currentResults (app w)
  /\ currentPage (app after) = currentPage (app w)
  /\ lastExecutedQuery (app after) = lastExecutedQuery (app w)
  /\ thead (page after) = ["Error"]
  /\ tbody (page after) = [[Text error]]
  /\ notifications (page after)
     = notifications (page w)
       ++ [{| note_message := "Query failed: " +:+ error; note_type := "error" |}]
  /\ (front_is sparql w = true -> queryHistory (app after) = queryHistory (app w))
  /\ (front_is sparql w = false ->
      exists front,
        queryHistory (app after) = front :: take 49 (queryHistory (app w))
        /\ entry_query front = sparql
        /\ entry_success front = false
        /\ entry_executionTime front = executionTime
        /\ entry_type front = None
        /\ stored_history (page after) = Some (queryHistory (app after))).
Proof.
  intros Hv Hq sparql after.
  pose proof (valid_not_empty w Hv) as [_ Hb]. fold sparql in Hb, Hq.
  destruct (SPARQLClient.query sparql "json" w) as [o w1] eqn:Hrun.
  simpl in Hq. subst o.
  destruct (query_keeps_the_page _ _ _ _ _ Hb Hrun) as (Happ & Hpage & _ & _).
  pose proof (executeQuery_failed w Hv error executionTime query w1 Hrun) as Hexec.
  cbv zeta in Hexec. fold sparql in Hexec. subst after. rewrite Hexec. clear Hexec.
  assert (front_is sparql
            (with_page (with_table ["Error"] [[Text error]] (page w1)) w1)
          = front_is sparql w) as ->.
  { unfold front_is. simpl. rewrite Happ. reflexivity. }
  destruct (front_is sparql w); simpl; rewrite ?Happ, ?Hpage;
    (repeat split; try reflexivity; try discriminate).
  intros _. eexists. repeat split; reflexivity.
Qed.

Lemma failed_query_keeps_the_results_witness :
  let w := with_app (with_currentResults
                       (Some (FAsk (VBool true) 3 VNull))
                       (Sample.fresh_app "ASK { ?s a <Type> }"))
             (Sample.world Sample.unreachable EmptyString) in
  let after := snd (GraphDBApp.executeQuery w) in
  currentResults (app after) = Some (FAsk (VBool true) 3 VNull)
  /\ tbody (page after) = [[Text "Failed to fetch"]].
Proof.
  intros w after.
  destruct (failed_query_keeps_the_results w "Failed to fetch" 3000 "ASK { ?s a <Type> }")
    as (Hres & _ & _ & _ & Hbody & _).
  - vm_compute. reflexivity.
  - vm_compute. reflexivity.
  - split; [exact Hres | exact Hbody].
Defined.

(** What [displayResults] shows depends on the application state only. *)
Lemma displayResults_reads_app (formatted : Formatted) (w w' : World) :
  app w = app w' ->
  thead (page (snd (GraphDBApp.displayResults formatted w)))
  = thead (page (snd (GraphDBApp.displayResults formatted w')))
  /\ tbody (page (snd (GraphDBApp.displayResults formatted w)))
     = tbody (page (snd (GraphDBApp.displayResults formatted w'))).
Proof.
  intros Happ.
  destruct formatted as [err t | headers rows count t raw | result t raw
                        | triples count t raw | ty data t];
    try (split; reflexivity).
  unfold GraphDBApp.displayResults, GraphDBApp.displaySelectResults,
    GraphDBApp.set_table, GraphDBApp.displayEmptyResults, update_page, update,
    mbind, JS_bind, reads. simpl.
  destruct (count =? 0); [split; reflexivity|].
  destruct headers; simpl; rewrite ?Happ; split; reflexivity.
Qed.

(** X13. A successful query whose payload the normaliser accepts installs
    the normalised result as the current result, puts the table on page 1,
    remembers the trimmed text as the last executed query, shows what
    [displayResults] shows for that result on page 1, notifies success, and
    has the text in front of the history: the entry that was there, or a new
    entry that carries the type and the count of the result. *)
Theorem successful_query_installs_the_result (w : World) (results : value)
    (executionTime : Z) (query : string) (formatted : Formatted) :
  SPARQLClient.validateQuery (trim (editor (app w))) = SPARQLClient.Valid ->
  fst (SPARQLClient.query (trim (editor (app w))) "json" w)
  = Ok (QuerySuccess results executionTime query) ->
  fst (SPARQLClient.formatResults (QuerySuccess results executionTime query) w)
  = Ok formatted ->
  let sparql := trim (editor (app w)) in
  let after := snd (GraphDBApp.executeQuery w) in
  let installed :=
    with_app (with_lastExecutedQuery (Some sparql)
                (with_currentPage 1 (with_currentResults (Some formatted) (app w)))) w in
  currentResults (app after) = Some formatted
  /\ currentPage (app after) = 1
  /\ lastExecutedQuery (app after) = Some sparql
  /\ thead (page after) = thead (page (snd (GraphDBApp.displayResults formatted installed)))
  /\ tbody (page after) = tbody (page (snd (GraphDBApp.displayResults formatted installed)))
  /\ notifications (page after)
     = notifications (page w)
       ++ [{| note_message := "Query executed successfully in "
                              +:+ Utils.formatTime (env w) executionTime;
              note_type := "success" |}]
  /\ (front_is sparql w = true -> queryHistory (app after) = queryHistory (app w))
  /\ (front_is sparql w = false ->
      exists front,
        queryHistory (app after) = front :: take 49 (queryHistory (app w))
        /\ entry_query front = sparql
        /\ entry_success front = GraphDBApp.success formatted
        /\ entry_type front = GraphDBApp.type_of formatted
        /\ entry_count front = default 0 (GraphDBApp.count_of formatted)
        /\ stored_history (page after) = Some (queryHistory (app after))).
Proof.
  intros Hv Hq Hf sparql after installed.
  pose proof (valid_not_empty w Hv) as [_ Hb]. fold sparql in Hb, Hq.
  destruct (SPARQLClient.query sparql "json" w) as [o w1] eqn:Hrun.
  simpl in Hq. subst o.
  destruct (query_keeps_the_page _ _ _ _ _ Hb Hrun) as (Happ & Hpage & Henv & _).
  destruct (pure_formatResults (QuerySuccess results executionTime query)) as [o Ho].
  rewrite Ho in Hf. simpl in Hf. subst o.
  destruct (executeQuery_succeeded w Hv results executionTime query w1 formatted Hrun)
    as (h & b & Hshow & Hexec); [rewrite Ho; reflexivity|].
  cbv zeta in Hshow, Hexec. fold sparql in Hshow, Hexec.
  match type of Hshow with
  | GraphDBApp.displayResults formatted ?x = _ =>
      destruct (displayResults_reads_app formatted x installed) as [Hh Hb'];
        [subst installed; simpl; rewrite Happ; reflexivity|];
        rewrite Hshow in Hh, Hb'; simpl in Hh, Hb'
  end.
  subst after. rewrite Hexec, <- Hh, <- Hb'. clear Hexec.
  match goal with
  | |- context [front_is sparql ?x] =>
      assert (front_is sparql x = front_is sparql w) as ->
        by (unfold front_is; simpl; rewrite Happ; reflexivity)
  end.
  destruct (front_is sparql w); simpl; rewrite ?Happ, ?Hpage, ?Henv;
    (repeat split; try reflexivity; try discriminate).
  intros _. eexists. repeat split; reflexivity.
Qed.

Lemma successful_query_installs_the_result_witness :
  let w := Sample.world Sample.asked_true "  ASK { ?s a <Type> }  " in
  let after := snd (GraphDBApp.executeQuery w) in
  lastExecutedQuery (app after) = Some "ASK { ?s a <Type> }"
  /\ currentPage (app after) = 1
  /\ tbody (page after) = [[Text "true"]].
Proof.
  intros w after.
  destruct (successful_query_installs_the_result w
              (VObj [("head", VObj []); ("boolean", VBool true)]) 3
              "ASK { ?s a <Type> }"
              (FAsk (VBool true) 3 (VObj [("head", VObj []); ("boolean", VBool true)])))
    as (_ & Hpage & Hlast & _ & Hbody & _).
  - vm_compute. reflexivity.
  - vm_compute. reflexivity.
  - vm_compute. reflexivity.
  - split; [exact Hlast | split; [exact Hpage | exact Hbody]].
Defined.

(** X14. A successful exchange whose payload the normaliser cannot read is
    shown as an error and notified, and nothing else: the application state
    (current results, page, last executed query, history) stays as it was,
    the stored history is not written, and the only request is the query
    itself.  Unlike a failed query, such an execution is not recorded in the
    history. *)
Theorem unreadable_payload_is_not_recorded (w : World) (results : value)
    (executionTime : Z) (query : string) (e : exn) :
  SPARQLClient.validateQuery (trim (editor (app w))) = SPARQLClient.Valid ->
  fst (SPARQLClient.query (trim (editor (app w))) "json" w)
  = Ok (QuerySuccess results executionTime query) ->
  fst (SPARQLClient.formatResults (QuerySuccess results executionTime query) w)
  = Throw e ->
  let sparql := trim (editor (app w)) in
  let after := snd (GraphDBApp.executeQuery w) in
  app after = app w
  /\ stored_history (page after) = stored_history (page w)
  /\ requests after = requests w ++ [SPARQLClient.query_request sparql "json" (config w)]
  /\ thead (page after) = ["Error"]
  /\ tbody (page after) = [[Text (exn_message e)]]
  /\ notifications (page after)
     = notifications (page w)
       ++ [{| note_message := "Query execution error: " +:+ exn_message e;
              note_type := "error" |}].
Proof.
  intros Hv Hq Hf sparql after.
  pose proof (valid_not_empty w Hv) as [_ Hb]. fold sparql in Hb, Hq.
  destruct (SPARQLClient.query sparql "json" w) as [o w1] eqn:Hrun.
  simpl in Hq. subst o.
  destruct (query_keeps_the_page _ _ _ _ _ Hb Hrun) as (Happ & Hpage & _ & Hreq).
  destruct (pure_formatResults (QuerySuccess results executionTime query)) as [o Ho].
  rewrite Ho in Hf. simpl in Hf. subst o.
  pose proof (executeQuery_unformatted w Hv results executionTime query w1 e Hrun) as Hexec.
  rewrite Ho in Hexec. specialize (Hexec eq_refl).
  subst after. rewrite Hexec. simpl. rewrite Happ, Hpage, Hreq.
  repeat split; reflexivity.
Qed.

Lemma unreadable_payload_is_not_recorded_witness :
  let w := Sample.world
             {| reply := Response 200 "OK"
                  (Parsed (VObj [("success", VBool true); ("results", VNull)]));
                elapsed := 4 |}
             "ASK { ?s a <Type> }" in
  let after := snd (GraphDBApp.executeQuery w) in
  queryHistory (app after) = []
  /\ tbody (page after) = [[Text "Cannot read properties of null (reading 'boolean')"]].
Proof.
  intros w after.
  destruct (unreadable_payload_is_not_recorded w VNull 4 "ASK { ?s a <Type> }"
              (TypeError "Cannot read properties of null (reading 'boolean')"))
    as (Happ & _ & _ & _ & Hbody & _).
  - vm_compute. reflexivity.
  - vm_compute. reflexivity.
  - vm_compute. reflexivity.
  - split; [fold after in Happ; rewrite Happ; reflexivity | exact Hbody].
Defined.

(** ** The fields of an exported line *)

Lemma count_append (a b : string) (c : ascii) :
  count (a +:+ b) c = (count a c + count b c)%nat.
Proof. induction a as [|x a IH]; simpl; [reflexivity | rewrite IH; lia]. Qed.

Lemma includes_append (a b : string) (c : ascii) :
  includes (a +:+ b) c = includes a c || includes b c.
Proof.
  induction a as [|x a IH]; simpl; [reflexivity|].
  destruct (Ascii.eqb x c); [reflexivity | exact IH].
Qed.

Lemma count_doubled (s : string) :
  count (replaceAll s quote (String quote (String quote EmptyString))) quote
  = (2 * count s quote)%nat.
Proof.
  induction s as [|x s IH]; [reflexivity|].
  cbn [replaceAll count]. destruct (Ascii.eqb x quote) eqn:Hx.
  - rewrite count_append, IH. cbn [count]. rewrite (Ascii.eqb_refl quote). lia.
  - cbn [count]. rewrite Hx, IH. lia.
Qed.

Lemma includes_doubled (s : string) :
  includes (replaceAll s quote (String quote (String quote EmptyString))) comma
  = includes s comma.
Proof.
  induction s as [|x s IH]; [reflexivity|].
  cbn [replaceAll includes]. destruct (Ascii.eqb_spec x quote) as [->|Hx].
  - rewrite includes_append, IH. reflexivity.
  - cbn [includes]. rewrite IH. reflexivity.
Qed.

Lemma doubled_injective (s s' : string) :
  replaceAll s quote (String quote (String quote EmptyString))
  = replaceAll s' quote (String quote (String quote EmptyString)) ->
  s = s'.
Proof.
  revert s'. induction s as [|x s IH]; intros [|x' s']; cbn [replaceAll].
  - reflexivity.
  - destruct (Ascii.eqb x' quote); discriminate.
  - destruct (Ascii.eqb x quote); discriminate.
  - destruct (Ascii.eqb_spec x quote) as [->|Hx];
      destruct (Ascii.eqb_spec x' quote) as [->|Hx']; cbv [String.append].
    + intros [= H]. f_equal. apply IH. exact H.
    + intros [= H _]. congruence.
    + intros [= H _]. congruence.
    + intros [= -> H]. f_equal. apply IH. exact H.
Qed.

Lemma append_one_injective (a b : string) (c : ascii) :
  a +:+ String c EmptyString = b +:+ String c EmptyString -> a = b.
Proof.
  revert b. induction a as [|x a IH]; intros [|y b];
    change (String ?h ?t +:+ ?r) with (String h (t +:+ r));
    change (EmptyString +:+ ?r) with r.
  - reflexivity.
  - intros [= _ H]. destruct b; discriminate.
  - intros [= _ H]. destruct a; discriminate.
  - intros [= -> H]. f_equal. apply IH. exact H.
Qed.

Lemma wrapped (e : string) :
  String quote e +:+ String quote EmptyString
  = String quote (e +:+ String quote EmptyString).
Proof. reflexivity. Qed.

(** X15. The fields of an exported line.  Whatever the value, a field holds
    an even number of quote characters.  On texts the encoding loses
    nothing: two texts with the same field are the same text. *)
Theorem csv_field_keeps_the_text :
  (forall v : value, Nat.Even (count (Utils.csv_field v) quote))
  /\ (forall s s' : string,
        Utils.csv_field (VStr s) = Utils.csv_field (VStr s') -> s = s').
Proof.
  split.
  - intros v. unfold Utils.csv_field. cbv zeta.
    set (escaped := if is_nullish v then EmptyString else _).
    assert (exists n, count escaped quote = (2 * n)%nat) as [n Hn].
    { subst escaped. destruct (is_nullish v); [exists 0%nat; reflexivity|].
      eexists. apply count_doubled. }
    destruct (includes escaped comma).
    + exists (S n). rewrite wrapped. cbn [count].
      rewrite (Ascii.eqb_refl quote), count_append, Hn.
      cbn [count]. rewrite (Ascii.eqb_refl quote). lia.
    + exists n. exact Hn.
  - intros s s'. unfold Utils.csv_field. cbv zeta.
    change (is_nullish (VStr s)) with false. change (is_nullish (VStr s')) with false.
    change (ToString (VStr s)) with s. change (ToString (VStr s')) with s'.
    cbv iota.
    set (e := replaceAll s quote _). set (e' := replaceAll s' quote _).
    destruct (includes e comma) eqn:He; destruct (includes e' comma) eqn:He'.
    + rewrite !wrapped. intros [= H]. apply append_one_injective in H.
      apply doubled_injective. exact H.
    + rewrite wrapped. intros H. rewrite <- H in He'. cbn [includes] in He'.
      rewrite includes_append, He in He'.
      destruct (Ascii.eqb quote comma); discriminate.
    + rewrite wrapped. intros H. rewrite H in He. cbn [includes] in He.
      rewrite includes_append, He' in He.
      destruct (Ascii.eqb quote comma); discriminate.
    + apply doubled_injective.
Qed.

(** ** Exporting *)

(** X16. With a successful result on the page, [exportResults] raises
    nothing, leaves the application state alone and always ends by notifying
    that the results were exported; the branch that notifies a failed export
    is never taken.  For JSON it writes one file.  For CSV it writes one
    file holding the derived rows under the derived name, unless there are
    no rows: then it writes no file, warns that there is no data, and
    notifies the export as done all the same. *)
Theorem exportResults_always_reports_done (format : GraphDBApp.ExportFormat) (w : World)
    (results : Formatted) :
  currentResults (app w) = Some results ->
  GraphDBApp.success results = true ->
  let timestamp :=
    drop_last 5 (dash_colons_and_dots (toISOString (env w) (clock w))) in
  let queryType := default "query" (GraphDBApp.type_of results) in
  let after := snd (GraphDBApp.exportResults format w) in
  let done :=
    {| note_message := "Results exported as " +:+ GraphDBApp.format_upper format;
       note_type := "success" |} in
  fst (GraphDBApp.exportResults format w) = Ok tt
  /\ app after = app w
  /\ requests after = requests w
  /\ match format with
     | GraphDBApp.csv =>
         match fst (GraphDBApp.csv_data timestamp queryType results) with
         | [] =>
             downloads (page after) = downloads (page w)
             /\ notifications (page after)
                = notifications (page w)
                  ++ [{| note_message := "No data to export"; note_type := "warning" |};
                      done]
         | row :: rows =>
             downloads (page after)
             = downloads (page w)
               ++ [{| filename := snd (GraphDBApp.csv_data timestamp queryType results);
                      mimeType := "text/csv;charset=utf-8;";
                      content := PlainText (Utils.csvContent (row :: rows)) |}]
             /\ notifications (page after) = notifications (page w) ++ [done]
         end
     | GraphDBApp.json =>
         (exists file,
            downloads (page after) = downloads (page w) ++ [file]
            /\ filename file = queryType +:+ "-results-" +:+ timestamp +:+ ".json"
            /\ mimeType file = "application/json")
         /\ notifications (page after) = notifications (page w) ++ [done]
     end.
Proof.
  intros Hcur Hok timestamp queryType after done.
  destruct format.
  - assert (GraphDBApp.exportResults GraphDBApp.csv w
            = (Ok tt,
               notified (note_message done) "success"
                 match GraphDBApp.csv_data timestamp queryType results with
                 | ([], _) => notified "No data to export" "warning" w
                 | (data, name) =>
                     with_page
                       (with_downloads
                          (downloads (page w)
                           ++ [{| filename := name;
                                  mimeType := "text/csv;charset=utf-8;";
                                  content := PlainText (Utils.csvContent data) |}])
                          (page w)) w
                 end)) as Hrun.
    { unfold GraphDBApp.exportResults, mbind at 1, JS_bind at 1, reads.
      rewrite Hcur, Hok. cbv [negb].
      unfold mbind at 1, JS_bind at 1, Date_now, reads.
      unfold mbind at 1, JS_bind at 1, reads.
      fold timestamp. fold queryType.
      unfold try_catch, mbind at 1, JS_bind at 1, GraphDBApp.exportToCSV.
      unfold mbind at 1, JS_bind at 1, reads. rewrite Hcur.
      destruct (GraphDBApp.csv_data timestamp queryType results) as [data name].
      destruct data as [|row rows]; reflexivity. }
    subst after. rewrite Hrun.
    destruct (GraphDBApp.csv_data timestamp queryType results) as [data name].
    destruct data as [|row rows]; simpl; rewrite <- ?app_assoc;
      repeat split; reflexivity.
  - assert (exists file,
              GraphDBApp.exportResults GraphDBApp.json w
              = (Ok tt,
                 notified (note_message done) "success"
                   (with_page
                      (with_downloads (downloads (page w) ++ [file]) (page w)) w))
              /\ filename file = queryType +:+ "-results-" +:+ timestamp +:+ ".json"
              /\ mimeType file = "application/json") as (file & Hrun & Hname & Hmime).
    { eexists. split.
      - unfold GraphDBApp.exportResults, mbind at 1, JS_bind at 1, reads.
        rewrite Hcur, Hok. cbv [negb].
        unfold mbind at 1, JS_bind at 1, Date_now, reads.
        unfold mbind at 1, JS_bind at 1, reads.
        fold timestamp. fold queryType.
        unfold try_catch, mbind at 1, JS_bind at 1, GraphDBApp.exportToJSON.
        unfold mbind at 1, JS_bind at 1, reads. rewrite Hcur.
        reflexivity.
      - split; reflexivity. }
    subst after. rewrite Hrun. simpl.
    repeat split; try reflexivity.
    exists file. repeat split; assumption.
Qed.

Lemma exportResults_always_reports_done_witness :
  let w := Sample.showing (FSelect (VArr [VStr "s"]) [] 0 5 None) in
  let after := snd (GraphDBApp.exportResults GraphDBApp.csv w) in
  downloads (page after) = []
  /\ map note_message (notifications (page after))
     = ["No data to export"; "Results exported as CSV"].
Proof.
  intros w after.
  destruct (exportResults_always_reports_done GraphDBApp.csv w
              (FSelect (VArr [VStr "s"]) [] 0 5 None) eq_refl eq_refl)
    as (_ & _ & _ & Hfile & Hnotes).
  split; [exact Hfile|]. fold after in Hnotes. rewrite Hnotes. reflexivity.
Defined.

(** ** The table *)

Lemma normalised_select (queryResult : QueryResult) (headers : value)
    (rows : list (list (string * value))) (count t : Z) (raw : option value)
    (w0 : World) :
  fst (SPARQLClient.formatResults queryResult w0) = Ok (FSelect headers rows count t raw) ->
  count = Z.of_nat (length rows) /\ (rows <> [] -> exists hs, headers = VArr hs).
Proof.
  destruct (SPARQLClient.formatResults queryResult w0) as [o w0'] eqn:Hrun.
  simpl. intros ->.
  destruct queryResult as [results et query | error et query]; simpl in Hrun;
    [|discriminate].
  destruct (SPARQLClient.getQueryType query);
    try (rewrite formatAskResults_run in Hrun; destruct (is_nullish results));
    try discriminate Hrun.
  destruct (formatSelectResults_shape _ _ _ _ _ Hrun) as (h & r & x & [= -> -> -> _ _] & H).
  split; [reflexivity | exact H].
Qed.

Lemma slice_length_le {A : Type} (xs : list A) (start size : Z) :
  0 < size ->
  (length (slice xs start (Z.min (start + size) (Z.of_nat (length xs))))
   <= Z.to_nat size)%nat.
Proof.
  intros Hsize. unfold slice. cbv zeta. rewrite length_take.
  destruct (start <? 0) eqn:Hs;
    destruct (Z.min (start + size) (Z.of_nat (length xs)) <? 0) eqn:He; lia.
Qed.

(** X17. Whatever the normaliser returned is displayed without an
    exception, and the table it leaves is either the placeholder for an
    empty result or rectangular: every row has one cell per header, and
    there are no more rows than the page size, whatever the current page
    is. *)
Theorem displayed_table_is_rectangular (queryResult : QueryResult) (results : Formatted)
    (w0 w : World) :
  fst (SPARQLClient.formatResults queryResult w0) = Ok results ->
  let after := snd (GraphDBApp.displayResults results w) in
  fst (GraphDBApp.displayResults results w) = Ok tt
  /\ app after = app w
  /\ ((thead (page after) = [] /\ tbody (page after) = [[EmptyState]])
      \/ (Forall (fun row => length row = length (thead (page after)))
                 (tbody (page after))
          /\ (length (tbody (page after)) <= Pos.to_nat (pageSize (app w)))%nat)).
Proof.
  intros Hrun after. subst after.
  destruct results as [error t | headers rows count t raw | result t raw
                      | triples count t raw | ty data t];
    try (split; [reflexivity|]; split; [reflexivity|]; right; simpl; split;
         [repeat constructor | lia]).
  destruct (normalised_select _ _ _ _ _ _ _ Hrun) as [-> Harr].
  unfold GraphDBApp.displayResults, GraphDBApp.displaySelectResults,
    GraphDBApp.set_table, GraphDBApp.displayEmptyResults, update_page, update,
    mbind, JS_bind, reads. simpl.
  destruct rows as [|row rows].
  { split; [reflexivity|]. split; [reflexivity|]. left. split; reflexivity. }
  destruct Harr as [hs ->]; [discriminate|].
  change (Z.of_nat (length (row :: rows)) =? 0) with false. simpl.
  split; [reflexivity|]. split; [reflexivity|]. right. split.
  - apply Forall_forall. intros cells [r [-> _]]%list_elem_of_fmap.
    unfold GraphDBApp.render_row. rewrite !length_map. reflexivity.
  - rewrite length_map.
    etransitivity;
      [apply (slice_length_le (row :: rows) _ (Z.pos (pageSize (app w)))); lia|].
    lia.
Qed.

Lemma displayed_table_is_rectangular_witness :
  let w := Sample.world Sample.unreachable EmptyString in
  let shown :=
    snd (GraphDBApp.displayResults
           (FSelect (VArr [VStr "s"; VStr "p"])
              [[("s", VStr "http://example.org/a"); ("p", VStr "b")];
               [("s", VStr "c"); ("p", VStr EmptyString)]] 2 5
              (Some (VObj Sample.select_fields))) w) in
  tbody (page shown)
  = [[Link "http://example.org/a"; Text "b"]; [Text "c"; Text EmptyString]].
Proof.
  intros w shown.
  destruct (displayed_table_is_rectangular
              (QuerySuccess (VObj Sample.select_fields) 5 "SELECT * { ?s ?p ?o }")
              (FSelect (VArr [VStr "s"; VStr "p"])
                 [[("s", VStr "http://example.org/a"); ("p", VStr "b")];
                  [("s", VStr "c"); ("p", VStr EmptyString)]] 2 5
                 (Some (VObj Sample.select_fields)))
              w w) as (_ & _ & [[_ Hempty] | [_ _]]).
  - vm_compute. reflexivity.
  - fold shown in Hempty. vm_compute in Hempty. discriminate Hempty.
  - vm_compute. reflexivity.
Defined.

(** ** The configuration *)

(** X18. A client built by the constructor never has an empty endpoint, an
    empty repository or a zero timeout, whatever options it is given: what
    is left out, empty or zero falls back to the default.  [updateConfig]
    gives no such guarantee, it takes an empty endpoint as it comes.  A
    query sent after [updateConfig] carries the merged configuration. *)
Theorem constructed_config_is_complete :
  (forall o : ClientConfig.Options,
     endpoint (ClientConfig.constructor o) <> EmptyString
     /\ repository (ClientConfig.constructor o) <> EmptyString
     /\ timeout (ClientConfig.constructor o) <> 0)
  /\ (forall (c : Config) (o : ClientConfig.Options),
        ClientConfig.opt_endpoint o = Some EmptyString ->
        endpoint (ClientConfig.merge c o) = EmptyString)
  /\ (forall (o : ClientConfig.Options) (sparql format : string) (w : World),
        blank sparql = false ->
        requests (snd (SPARQLClient.query sparql format
                         (snd (ClientConfig.updateConfig o w))))
        = requests w
          ++ [SPARQLClient.query_request sparql format
                (ClientConfig.merge (config w) o)]).
Proof.
  split; [|split].
  - intros [e r u p t]. unfold ClientConfig.constructor, ClientConfig.string_or.
    cbn [endpoint repository timeout ClientConfig.opt_endpoint
         ClientConfig.opt_repository ClientConfig.opt_timeout].
    repeat split.
    + destruct e as [[|c s]|]; cbn [is_empty]; discriminate.
    + destruct r as [[|c s]|]; cbn [is_empty]; discriminate.
    + destruct t as [t|]; [|discriminate].
      destruct (Z.eqb_spec t 0); [discriminate | assumption].
  - intros c o Ho. unfold ClientConfig.merge. cbn [endpoint]. rewrite Ho. reflexivity.
  - intros o sparql format w Hb.
    destruct (query_leaves sparql format (snd (ClientConfig.updateConfig o w)) Hb)
      as [r Hr].
    rewrite Hr. reflexivity.
Qed.
